(** * os-vif: plugging virtual network interfaces into host networking

    A shallow embedding of three modules of the repository,

    - [os_vif/__init__.py]               the plugin registry and the dispatcher,
    - [vif_plug_linux_bridge/linux_net.py]  [ensure_vlan], [ensure_bridge],
    - [vif_plug_ovs/ovs_hybrid.py]       the hybrid OVS backend,

    together with the properties of their behaviour.  Python code that runs
    commands on the host is written in a small monad that threads the
    interpreter state and the host, may raise an exception, and records
    every visible action in a log of events. *)

From Stdlib Require Import String Ascii List ZArith Bool Lia DecimalString.
Import ListNotations.
Open Scope string_scope.
Open Scope list_scope.

(** ** Python values and strings *)

Module Py.

(** An operand of [processutils.execute]: the source passes strings, integers
    ([0] for the forward delay, a vlan number, an mtu) and [None]. *)
Inductive arg : Type :=
| AStr (s : string)
| AInt (z : Z)
| ANone.

(** [str(x)], as used by the [%s] conversion. *)
Definition str (a : arg) : string :=
  match a with
  | AStr s => s
  | AInt z => NilZero.string_of_int (Z.to_int z)
  | ANone => "None"
  end.

(** Truth value of an operand ([if mac_address:]). *)
Definition truthy (a : arg) : bool :=
  match a with
  | AStr "" => false
  | AStr _ => true
  | AInt z => negb (Z.eqb z 0)
  | ANone => false
  end.

(** [s[:n]] on a string. *)
Fixpoint slice_to (n : nat) (s : string) : string :=
  match n, s with
  | O, _ => ""
  | S _, EmptyString => ""
  | S k, String c r => String c (slice_to k r)
  end.

End Py.

(** ** The data model handed in by the caller *)

Module objects.

(** [vif.network]: the logical network, carrying the integration bridge. *)
Record Network : Type := { bridge : string }.

(** The polymorphic port profile.  [VIFPortProfileOpenVSwitch] is the variant
    the hybrid backend understands; any other class is kept by its name, which
    is all the source reads of it ([__class__.__name__]). *)
Inductive VIFPortProfile : Type :=
| VIFPortProfileOpenVSwitch (interface_id : string)
| VIFPortProfileOther (class_name : string).

(** A VIF.  [port_profile] is the value of the attribute when it can be
    read.  When it cannot, what reading it raises depends on the object:
    [os_vif/objects] is not among the sources; its VIF classes are versioned
    objects that declare [port_profile] as a field, and reading a declared
    field that was never set raises [NotImplementedError] (the base class
    cannot load it), while an object of a class without the attribute
    raises [AttributeError].  [versioned] tells the two apart. *)
Record VIF : Type := {
  id : string;
  address : string;
  plugin : string;
  bridge_name : string;
  port_profile : option VIFPortProfile;
  versioned : bool;
  network : Network
}.

Record InstanceInfo : Type := { uuid : string }.

(** What [describe()] returns. *)
Record HostVIFInfo : Type := {
  vif_object_name : string;
  min_version : string;
  max_version : string
}.

Record HostPluginInfo : Type := {
  plugin_name : string;
  vif_info : list HostVIFInfo
}.

Record HostInfo : Type := { plugin_info : list HostPluginInfo }.

End objects.

(** ** Commands, exceptions and events *)

(** [check_exit_code]: a list of accepted exit codes, or [False]. *)
Inductive exit_check : Type :=
| CheckCodes (codes : list Z)
| CheckOff.

(** One call of [processutils.execute]: the positional operands and the
    keyword arguments the source uses. *)
Record command : Type := {
  argv : list Py.arg;
  check_exit_code : exit_check;
  run_as_root : bool;
  process_input : option string
}.

(** A call of [execute] with every keyword at its default. *)
Definition cmd (args : list Py.arg) : command :=
  {| argv := args; check_exit_code := CheckCodes [0%Z];
     run_as_root := false; process_input := None |}.

Definition as_root (c : command) : command :=
  {| argv := argv c; check_exit_code := check_exit_code c;
     run_as_root := true; process_input := process_input c |}.

Definition checking (k : exit_check) (c : command) : command :=
  {| argv := argv c; check_exit_code := k;
     run_as_root := run_as_root c; process_input := process_input c |}.

Definition feeding (input : string) (c : command) : command :=
  {| argv := argv c; check_exit_code := check_exit_code c;
     run_as_root := run_as_root c; process_input := Some input |}.

Definition accepted (k : exit_check) (code : Z) : bool :=
  match k with
  | CheckCodes codes => existsb (Z.eqb code) codes
  | CheckOff => true
  end.

(** Exceptions (instances of Python's [Exception]) that the three modules
    raise themselves or receive from what they call. *)
Inductive exn : Type :=
| LibraryNotInitialized
| NoMatchingPlugin (plugin_name : string)
| PlugException (vif : objects.VIF) (err : exn)
| UnplugException (vif : objects.VIF) (err : exn)
| MissingPortProfile
| WrongPortProfile (profile : string)
| ProcessExecutionError (c : command) (exit_code : Z) (stdout stderr : string)
| KeyError (key : string)
| IndexError
| AttributeError (msg : string)
| NameError (name : string)
| NotImplementedError (msg : string)
| TypeError
| PyException (msg : string)
| ForeignError (tag : string).

(** Calls into collaborators whose code is outside these three modules; the
    host decides what they do. *)
Inductive call : Type :=
| create_veth_pair (dev1_name dev2_name : string) (mtu : Z)
| create_ovs_vif_port (bridge dev iface_id mac instance_id : string)
                      (mtu timeout : Z)
| delete_ovs_vif_port (bridge dev : string) (timeout : Z)
| add_rule (chain rule : string)
| iptables_apply
| register_all.

Inductive log_level : Type := DEBUG | INFO | ERROR.

(** What a run leaves behind, in the order it happened. *)
Inductive event : Type :=
| EvExecute (c : command)
| EvCall (c : call)
| EvDiscover (namespace : string)
| EvLoad (plugin_name : string)
| EvLock (name : string)
| EvUnlock (name : string)
| EvLog (level : log_level) (template : string).

(** ** The registry's contents and the interpreter's globals *)

Module stevedore.

(** The class an entry point names, and an instance of it. *)
Record PluginClass : Type := { entry_point : string }.

Record PluginObj : Type := { cls : PluginClass; loaded_as : string }.

(** One [Extension] of an [ExtensionManager]; with [invoke_on_load=False]
    its [obj] starts as [None]. *)
Record Extension : Type := {
  name : string;
  plugin : PluginClass;
  obj : option PluginObj
}.

(** An [ExtensionManager] is its list of extensions, in discovery order. *)
Definition ExtensionManager : Type := list Extension.

Definition names (m : ExtensionManager) : list string := map name m.

(** The first extension of [m] called [n]. *)
Fixpoint first_named (n : string) (m : ExtensionManager) : option Extension :=
  match m with
  | [] => None
  | e :: r => if String.eqb (name e) n then Some e else first_named n r
  end.

(** [m[n]]: the manager indexes its extensions through a dictionary filled
    in discovery order, so the last extension of a name is the one found;
    [None] stands for [KeyError]. *)
Definition getitem (m : ExtensionManager) (n : string) : option Extension :=
  first_named n (rev m).

Definition with_obj (o : PluginObj) (e : Extension) : Extension :=
  {| name := name e; plugin := plugin e; obj := Some o |}.

Fixpoint set_first (n : string) (o : PluginObj) (m : ExtensionManager)
  : ExtensionManager :=
  match m with
  | [] => []
  | e :: r => if String.eqb (name e) n then with_obj o e :: r
              else e :: set_first n o r
  end.

(** [m[n].obj = o]: the extension that [m[n]] finds is updated in place. *)
Definition setitem_obj (m : ExtensionManager) (n : string) (o : PluginObj)
  : ExtensionManager :=
  rev (set_first n o (rev m)).

(** A manager fresh from discovery. *)
Definition fresh (found : list (string * PluginClass)) : ExtensionManager :=
  map (fun p => {| name := fst p; plugin := snd p; obj := None |}) found.

End stevedore.

(** The filtering collaborator, as far as [ensure_bridge] reads it. *)
Record IptablesManager : Type := {
  get_gateway_rules : string -> list (string * string);
  iptables_drop_action : string
}.

(** Module-level names of the interpreter: [os_vif._EXT_MANAGER],
    [linux_net._IPTABLES_MANAGER], and the builtin [_] that [linux_net] calls
    without importing it ([None] when no translation function is
    installed). *)
Record Globals : Type := {
  _EXT_MANAGER : option stevedore.ExtensionManager;
  _IPTABLES_MANAGER : option IptablesManager;
  builtins_gettext : option (string -> string)
}.

(** ** The host *)

(** What the code can ask of, and do to, the machine it runs on.  [spawn]
    runs a process and gives its exit code, standard output and standard
    error; [entry_points] lists the installed plugins of a namespace;
    [load] is [cls.load(name)]; [invoke] runs a collaborator. *)
Class HostOps (World : Type) : Type := {
  path_exists : string -> World -> bool;
  spawn : command -> World -> (Z * string * string) * World;
  entry_points : string -> World -> list (string * stevedore.PluginClass);
  load : stevedore.PluginClass -> string -> World
         -> (exn + stevedore.PluginObj) * World;
  invoke : call -> World -> option exn * World
}.

(** ** The monad of Python code *)

Inductive result (A : Type) : Type :=
| Return (a : A)
| Raise (e : exn).
Arguments Return {A} a.
Arguments Raise {A} e.

Record state (World : Type) : Type := {
  globals : Globals;
  host : World
}.
Arguments globals {World} s.
Arguments host {World} s.
Arguments Build_state {World} globals host.

(** A computation yields a result or an exception, the next state, and the
    events that took place. *)
Definition M (World A : Type) : Type :=
  state World -> result A * state World * list event.

Definition ret {World A} (a : A) : M World A :=
  fun s => (Return a, s, []).

Definition raise {World A} (e : exn) : M World A :=
  fun s => (Raise e, s, []).

Definition bind {World A B} (m : M World A) (k : A -> M World B) : M World B :=
  fun s =>
    match m s with
    | (Return a, s1, t1) =>
        match k a s1 with (r, s2, t2) => (r, s2, t1 ++ t2) end
    | (Raise e, s1, t1) => (Raise e, s1, t1)
    end.

(** [try: m  except Exception as err: h err]. *)
Definition try_except {World A} (m : M World A) (h : exn -> M World A)
  : M World A :=
  fun s =>
    match m s with
    | (Return a, s1, t1) => (Return a, s1, t1)
    | (Raise e, s1, t1) =>
        match h e s1 with (r, s2, t2) => (r, s2, t1 ++ t2) end
    end.

Declare Scope py_scope.
Delimit Scope py_scope with py.
Notation "x <- m ;; k" := (bind m (fun x => k))
  (at level 100, m at next level, right associativity) : py_scope.
Notation "m ;; k" := (bind m (fun _ => k))
  (at level 100, right associativity) : py_scope.
Open Scope py_scope.

Definition emit {World} (e : event) : M World unit :=
  fun s => (Return tt, s, [e]).

Definition get_globals {World} : M World Globals :=
  fun s => (Return (globals s), s, []).

Definition set_globals {World} (g : Globals) : M World unit :=
  fun s => (Return tt, Build_state g (host s), []).

(** [for x in l: body x]. *)
Fixpoint for_each {World A} (l : list A) (body : A -> M World unit)
  : M World unit :=
  match l with
  | [] => ret tt
  | x :: r => body x ;; for_each r body
  end.

(** [@lockutils.synchronized(name, external=True)]: the lock is held while
    the body runs and released whether it returns or raises. *)
Definition synchronized {World A} (name : string) (body : M World A)
  : M World A :=
  fun s =>
    match body s with
    | (r, s1, t1) => (r, s1, EvLock name :: t1 ++ [EvUnlock name])
    end.

Definition log {World} (level : log_level) (template : string)
  : M World unit :=
  emit (EvLog level template).

(** ** More of Python's strings *)

Module PyStr.

Definition nl_char : ascii := "010"%char.

(** The line feed, as a string. *)
Definition nl : string := String nl_char "".

(** The characters [split()] without an argument treats as separators. *)
Definition is_space (c : ascii) : bool :=
  match nat_of_ascii c with
  | 9 | 10 | 11 | 12 | 13 | 32 => true
  | _ => false
  end.

(** [s.split(c)] for a one-character separator: never the empty list. *)
Fixpoint split_on (c : ascii) (s : string) : list string :=
  match s with
  | EmptyString => [""]
  | String a r =>
      if Ascii.eqb a c then "" :: split_on c r
      else match split_on c r with
           | h :: t => String a h :: t
           | [] => [String a ""]
           end
  end.

(** [s.split()]: the maximal runs of characters that are not white space. *)
Fixpoint split (s : string) : list string :=
  match s with
  | EmptyString => []
  | String a r =>
      if is_space a then split r
      else match r with
           | EmptyString => [String a ""]
           | String b _ =>
               if is_space b then String a "" :: split r
               else match split r with
                    | h :: t => String a h :: t
                    | [] => [String a ""]
                    end
           end
  end.

(** [x in l] on strings. *)
Definition mem (x : string) (l : list string) : bool :=
  existsb (String.eqb x) l.

(** [l[1:-k]]: from the second element up to, and without, the last [k]. *)
Definition slice_1_minus {A} (k : nat) (l : list A) : list A :=
  firstn (length l - 1 - k) (tl l).

(** [template % x] for a string [x], where the template may hold [%s] and
    [%%]: [None] when the template does not take exactly one string (Python
    raises there). *)
Fixpoint percent_s (template x : string) (used : bool) : option string :=
  match template with
  | EmptyString => if used then Some "" else None
  | String a r =>
      if Ascii.eqb a "%"%char then
        match r with
        | String b r' =>
            if Ascii.eqb b "s"%char then
              if used then None
              else option_map (String.append x) (percent_s r' x true)
            else if Ascii.eqb b "%"%char then
              option_map (String "%"%char) (percent_s r' x used)
            else None
        | EmptyString => None
        end
      else option_map (String a) (percent_s r x used)
  end.

End PyStr.

(** ** Running commands and collaborators *)

Section Primitives.

Context {World : Type} `{HostOps World}.

(** [processutils.execute]: run the command; an exit code outside
    [check_exit_code] raises [ProcessExecutionError], otherwise the pair of
    standard output and standard error is returned. *)
Definition execute (c : command) : M World (string * string) :=
  fun s =>
    match spawn c (host s) with
    | ((code, out, err), w) =>
        let s' := Build_state (globals s) w in
        if accepted (check_exit_code c) code
        then (Return (out, err), s', [EvExecute c])
        else (Raise (ProcessExecutionError c code out err), s', [EvExecute c])
    end.

(** [os.path.exists]. *)
Definition os_path_exists (path : string) : M World bool :=
  fun s => (Return (path_exists path (host s)), s, []).

(** A call of a collaborator; what it raises is raised here. *)
Definition collaborate (c : call) : M World unit :=
  fun s =>
    match invoke c (host s) with
    | (None, w) => (Return tt, Build_state (globals s) w, [EvCall c])
    | (Some e, w) => (Raise e, Build_state (globals s) w, [EvCall c])
    end.

End Primitives.

(** ** [vif_plug_linux_bridge/linux_net.py] *)

Module linux_net.

Import Py.

Section Code.

Context {World : Type} `{HostOps World}.

(** [device_exists(device)]. *)
Definition device_exists (device : string) : M World bool :=
  os_path_exists ("/sys/class/net/" ++ device)%string.

(** [_set_device_mtu(dev, mtu)]. *)
Definition _set_device_mtu (dev : string) (mtu : arg)
  : M World (string * string) :=
  execute (checking (CheckCodes [0; 2; 254]%Z)
             (cmd [AStr "ip"; AStr "link"; AStr "set"; AStr dev;
                   AStr "mtu"; mtu])).

(** [_ip_bridge_cmd(action, params, device)]. *)
Definition _ip_bridge_cmd (action : string) (params : list string)
    (device : string) : list string :=
  ["ip"; "addr"; action] ++ params ++ ["dev"; device].

(** [ensure_vlan(vlan_num, bridge_interface, mac_address=None, mtu=None)]. *)
Definition ensure_vlan (vlan_num : arg) (bridge_interface : string)
    (mac_address : arg) (mtu : arg) : M World string :=
  synchronized "nova-lock_vlan" (
    let interface := ("vlan" ++ str vlan_num)%string in
    present <- device_exists interface ;;
    (if negb present then
       log DEBUG "Starting VLAN interface %s" ;;
       execute (as_root (checking (CheckCodes [0; 2; 254]%Z)
                  (cmd [AStr "ip"; AStr "link"; AStr "add"; AStr "link";
                        AStr bridge_interface; AStr "name"; AStr interface;
                        AStr "type"; AStr "vlan"; AStr "id"; vlan_num]))) ;;
       (if truthy mac_address then
          execute (as_root (checking (CheckCodes [0; 2; 254]%Z)
                     (cmd [AStr "ip"; AStr "link"; AStr "set"; AStr interface;
                           AStr "address"; mac_address]))) ;;
          ret tt
        else ret tt) ;;
       execute (as_root (checking (CheckCodes [0; 2; 254]%Z)
                  (cmd [AStr "ip"; AStr "link"; AStr "set"; AStr interface;
                        AStr "up"]))) ;;
       ret tt
     else ret tt) ;;
    _set_device_mtu interface mtu ;;
    ret interface).

(** The message [brctl addif] prints when the interface is already in a
    bridge. *)
Definition already_member_msg (interface bridge : string) : string :=
  ("device " ++ interface
   ++ " is already a member of a bridge; can't enslave it to bridge "
   ++ bridge ++ "." ++ PyStr.nl)%string.

(** [raise Exception(_('Failed to add interface: %s') % err)]: the name [_]
    is looked up first, then the template is formatted, then the exception
    is built. *)
Definition raise_failed_to_add {A} (err : string) : M World A :=
  g <- get_globals ;;
  match builtins_gettext g with
  | None => raise (NameError "_")
  | Some gettext =>
      match PyStr.percent_s (gettext "Failed to add interface: %s") err false
      with
      | Some msg => raise (PyException msg)
      | None => raise TypeError
      end
  end.

(** The first loop of the migration: every line of [ip route show] with a
    [via] is recorded and its route deleted. *)
Fixpoint delete_via_routes (lines : list string)
    (old_routes : list (list string)) : M World (list (list string)) :=
  match lines with
  | [] => ret old_routes
  | line :: rest =>
      let fields := PyStr.split line in
      if andb (negb (Nat.eqb (length fields) 0)) (PyStr.mem "via" fields) then
        execute (as_root (cmd ([AStr "ip"; AStr "route"; AStr "del"]
                               ++ map AStr fields))) ;;
        delete_via_routes rest (old_routes ++ [fields])
      else delete_via_routes rest old_routes
  end.

(** The body of the second loop: an [inet] line of [ip addr show] has its
    address deleted from the device the line names and added to the
    bridge. *)
Definition move_address (bridge line : string) : M World unit :=
  let fields := PyStr.split line in
  match fields with
  | first :: _ =>
      if String.eqb first "inet" then
        match rev fields with
        | last :: before_last :: _ =>
            let params :=
              if PyStr.mem before_last ["secondary"; "dynamic"]
              then PyStr.slice_1_minus 2 fields
              else PyStr.slice_1_minus 1 fields in
            execute (as_root (checking (CheckCodes [0; 2; 254]%Z)
                       (cmd (map AStr (_ip_bridge_cmd "del" params last))))) ;;
            execute (as_root (checking (CheckCodes [0; 2; 254]%Z)
                       (cmd (map AStr (_ip_bridge_cmd "add" params bridge))))) ;;
            ret tt
        | _ => raise IndexError
        end
      else ret tt
  | [] => ret tt
  end.

(** The [if interface:] block. *)
Definition attach_interface (bridge interface : string) : M World unit :=
  log DEBUG "Adding interface %(interface)s to bridge %(bridge)s" ;;
  added <- execute (as_root (checking CheckOff
             (cmd [AStr "brctl"; AStr "addif"; AStr bridge;
                   AStr interface]))) ;;
  let err := snd added in
  (if andb (negb (String.eqb err ""))
           (negb (String.eqb err (already_member_msg interface bridge)))
   then raise_failed_to_add err
   else ret tt) ;;
  execute (as_root (checking CheckOff
     (cmd [AStr "ip"; AStr "link"; AStr "set"; AStr interface;
           AStr "up"]))) ;;
  shown <- execute (cmd [AStr "ip"; AStr "route"; AStr "show"; AStr "dev";
                         AStr interface]) ;;
  old_routes <- delete_via_routes (PyStr.split_on PyStr.nl_char (fst shown))
                  [] ;;
  listed <- execute (cmd [AStr "ip"; AStr "addr"; AStr "show"; AStr "dev";
                          AStr interface; AStr "scope"; AStr "global"]) ;;
  for_each (PyStr.split_on PyStr.nl_char (fst listed))
    (move_address bridge) ;;
  for_each old_routes (fun fields =>
    execute (as_root (cmd ([AStr "ip"; AStr "route"; AStr "add"]
                           ++ map AStr fields))) ;;
    ret tt).

(** The [if filtering:] block. *)
Definition apply_filtering (bridge : string) (gateway : bool)
  : M World unit :=
  g <- get_globals ;;
  match _IPTABLES_MANAGER g with
  | None => raise (AttributeError "'NoneType' object has no attribute 'ipv4'")
  | Some mgr =>
      (if gateway then
         for_each (get_gateway_rules mgr bridge) (fun rule =>
           collaborate (add_rule (fst rule) (snd rule)))
       else
         collaborate (add_rule "FORWARD"
           ("--in-interface " ++ bridge ++ " -j "
            ++ iptables_drop_action mgr)%string) ;;
         collaborate (add_rule "FORWARD"
           ("--out-interface " ++ bridge ++ " -j "
            ++ iptables_drop_action mgr)%string)) ;;
      collaborate iptables_apply
  end.

(** [ensure_bridge(bridge, interface, net_attrs=None, gateway=True,
    filtering=True)].  [interface] is [None], or a string that may be
    empty; [net_attrs] is not read by the body. *)
Definition ensure_bridge (bridge : string) (interface : option string)
    (gateway filtering : bool) : M World unit :=
  synchronized "nova-lock_bridge" (
    present <- device_exists bridge ;;
    (if negb present then
       log DEBUG "Starting Bridge %s" ;;
       execute (as_root (cmd [AStr "brctl"; AStr "addbr"; AStr bridge])) ;;
       execute (as_root (cmd [AStr "brctl"; AStr "setfd"; AStr bridge;
                              AInt 0])) ;;
       execute (as_root (cmd [AStr "brctl"; AStr "stp"; AStr bridge;
                              AStr "off"])) ;;
       execute (as_root (cmd [AStr "ip"; AStr "link"; AStr "set";
                              AStr bridge; AStr "up"])) ;;
       ret tt
     else ret tt) ;;
    match interface with
    | Some (String _ _ as i) => attach_interface bridge i
    | _ => ret tt
    end ;;
    if filtering then apply_filtering bridge gateway else ret tt).

(** [ensure_vlan_bridge]. *)
Definition ensure_vlan_bridge (vlan_num : arg) (bridge bridge_interface : string)
    (mac_address mtu : arg) : M World string :=
  interface <- ensure_vlan vlan_num bridge_interface mac_address mtu ;;
  ensure_bridge bridge (Some interface) true true ;;
  ret interface.

(** [configure(iptables_mgr)]. *)
Definition configure (iptables_mgr : option IptablesManager)
  : M World unit :=
  g <- get_globals ;;
  set_globals {| _EXT_MANAGER := _EXT_MANAGER g;
                 _IPTABLES_MANAGER := iptables_mgr;
                 builtins_gettext := builtins_gettext g |}.

End Code.

End linux_net.

(** ** [vif_plug_ovs/ovs_hybrid.py] *)

Module ovs_linux_net.

Section Code.

Context {World : Type} `{HostOps World}.

(** Modelled from the spec: [vif_plug_ovs/linux_net.py] is not among the
    sources.  Its [device_exists] is the spec's Device State Probe ("does a
    device exist"), read here as the same probe as the one of
    [vif_plug_linux_bridge/linux_net.py]. *)
Definition device_exists (device : string) : M World bool :=
  os_path_exists ("/sys/class/net/" ++ device)%string.

End Code.

End ovs_linux_net.

Module OvsHybridPlugin.

Import Py.

(** The resolved configuration of an instance ([self.config]). *)
Record Config : Type := {
  network_device_mtu : Z;
  ovs_vsctl_timeout : Z
}.

(** The defaults of [CONFIG_OPTS]. *)
Definition default_config : Config :=
  {| network_device_mtu := 1500; ovs_vsctl_timeout := 120 |}.

Definition NIC_NAME_LEN : nat := 14.

(** [get_veth_pair_names(vif)]. *)
Definition get_veth_pair_names (vif : objects.VIF) : string * string :=
  let iface_id := objects.id vif in
  (slice_to NIC_NAME_LEN ("qvb" ++ iface_id)%string,
   slice_to NIC_NAME_LEN ("qvo" ++ iface_id)%string).

Section Code.

Context {World : Type} `{HostOps World}.

(** [describe(self)]. *)
Definition describe : M World objects.HostPluginInfo :=
  ret {| objects.plugin_name := "ovs_hybrid";
         objects.vif_info :=
           [ {| objects.vif_object_name := "VIFBridge";
                objects.min_version := "1.0";
                objects.max_version := "1.0" |} ] |}.

(** What reading [vif.port_profile] raises when it has no value. *)
Definition cannot_load_port_profile : exn :=
  NotImplementedError "Cannot load 'port_profile' in the base class".

(** The check both [plug] and [unplug] start with; it gives the OVS
    interface id of the profile.  [hasattr] reads the attribute and, as in
    Python 3, answers [False] only for an [AttributeError]: any other
    exception of the read comes out of [hasattr] itself. *)
Definition require_ovs_profile (vif : objects.VIF) : M World string :=
  match objects.port_profile vif with
  | None =>
      if objects.versioned vif then raise cannot_load_port_profile
      else raise MissingPortProfile
  | Some (objects.VIFPortProfileOpenVSwitch interface_id) => ret interface_id
  | Some (objects.VIFPortProfileOther class_name) =>
      raise (WrongPortProfile class_name)
  end.

(** [plug(self, vif, instance_info)]. *)
Definition plug (config : Config) (vif : objects.VIF)
    (instance_info : objects.InstanceInfo) : M World unit :=
  interface_id <- require_ovs_profile vif ;;
  let v1_name := fst (get_veth_pair_names vif) in
  let v2_name := snd (get_veth_pair_names vif) in
  let bridge_name := objects.bridge_name vif in
  bridge_present <- ovs_linux_net.device_exists bridge_name ;;
  (if negb bridge_present then
     execute (as_root (cmd [AStr "brctl"; AStr "addbr"; AStr bridge_name])) ;;
     execute (as_root (cmd [AStr "brctl"; AStr "setfd"; AStr bridge_name;
                            AInt 0])) ;;
     execute (as_root (cmd [AStr "brctl"; AStr "stp"; AStr bridge_name;
                            AStr "off"])) ;;
     let syspath :=
       ("/sys/class/net/" ++ bridge_name ++ "/bridge/multicast_snooping")%string
     in
     execute (as_root (checking (CheckCodes [0; 1]%Z)
                (feeding "0" (cmd [AStr "tee"; AStr syspath])))) ;;
     let disv6 :=
       ("/proc/sys/net/ipv6/conf/" ++ bridge_name ++ "/disable_ipv6")%string
     in
     can_disable <- os_path_exists disv6 ;;
     if can_disable then
       execute (as_root (checking (CheckCodes [0; 1]%Z)
                  (feeding "1" (cmd [AStr "tee"; AStr disv6])))) ;;
       ret tt
     else ret tt
   else ret tt) ;;
  veth_present <- ovs_linux_net.device_exists v2_name ;;
  if negb veth_present then
    collaborate (create_veth_pair v1_name v2_name
                   (network_device_mtu config)) ;;
    execute (as_root (cmd [AStr "ip"; AStr "link"; AStr "set";
                           AStr bridge_name; AStr "up"])) ;;
    execute (as_root (cmd [AStr "brctl"; AStr "addif"; AStr bridge_name;
                           AStr v1_name])) ;;
    collaborate (create_ovs_vif_port
                   (objects.bridge (objects.network vif))
                   v2_name interface_id (objects.address vif)
                   (objects.uuid instance_info)
                   (network_device_mtu config)
                   (ovs_vsctl_timeout config))
  else ret tt.

(** [unplug(self, vif, instance_info)]. *)
Definition unplug (config : Config) (vif : objects.VIF)
    (instance_info : objects.InstanceInfo) : M World unit :=
  _ <- require_ovs_profile vif ;;
  let v1_name := fst (get_veth_pair_names vif) in
  let v2_name := snd (get_veth_pair_names vif) in
  let bridge_name := objects.bridge_name vif in
  bridge_present <- ovs_linux_net.device_exists bridge_name ;;
  (if bridge_present then
     execute (as_root (cmd [AStr "brctl"; AStr "delif"; AStr bridge_name;
                            AStr v1_name])) ;;
     execute (as_root (cmd [AStr "ip"; AStr "link"; AStr "set";
                            AStr bridge_name; AStr "down"])) ;;
     execute (as_root (cmd [AStr "brctl"; AStr "delbr"; AStr bridge_name])) ;;
     ret tt
   else ret tt) ;;
  collaborate (delete_ovs_vif_port (objects.bridge (objects.network vif))
                 v2_name (ovs_vsctl_timeout config)).

End Code.

End OvsHybridPlugin.

(** ** [os_vif/__init__.py] *)

Module plugin.

(** The methods of a plugin object (the backend contract of
    [os_vif.plugin.PluginBase]). *)
Record PluginBase (World : Type) : Type := {
  describe : M World objects.HostPluginInfo;
  plug : objects.VIF -> objects.InstanceInfo -> M World unit;
  unplug : objects.VIF -> objects.InstanceInfo -> M World unit
}.
Arguments describe {World} p.
Arguments plug {World} p.
Arguments unplug {World} p.

End plugin.

Module os_vif.

Section Code.

Context {World : Type} `{HostOps World}.

(** The methods of each plugin object: the backends are whatever the host
    has installed. *)
Variable methods : stevedore.PluginObj -> plugin.PluginBase World.

Definition set_ext_manager (m : option stevedore.ExtensionManager)
  : M World unit :=
  g <- get_globals ;;
  set_globals {| _EXT_MANAGER := m;
                 _IPTABLES_MANAGER := _IPTABLES_MANAGER g;
                 builtins_gettext := builtins_gettext g |}.

(** [extension.ExtensionManager(namespace=..., invoke_on_load=False)]. *)
Definition new_extension_manager (namespace : string)
  : M World stevedore.ExtensionManager :=
  fun s => (Return (stevedore.fresh (entry_points namespace (host s))), s,
            [EvDiscover namespace]).

(** [cls.load(plugin_name)]. *)
Definition load_plugin (c : stevedore.PluginClass) (plugin_name : string)
  : M World stevedore.PluginObj :=
  fun s =>
    match load c plugin_name (host s) with
    | (inr o, w) => (Return o, Build_state (globals s) w, [EvLoad plugin_name])
    | (inl e, w) => (Raise e, Build_state (globals s) w, [EvLoad plugin_name])
    end.

(** The body of the loop of [initialize]. *)
Definition load_one (plugin_name : string) : M World unit :=
  g <- get_globals ;;
  match _EXT_MANAGER g with
  | None => raise TypeError
  | Some m =>
      match stevedore.getitem m plugin_name with
      | None => raise (KeyError plugin_name)
      | Some e =>
          o <- load_plugin (stevedore.plugin e) plugin_name ;;
          g' <- get_globals ;;
          match _EXT_MANAGER g' with
          | None => raise TypeError
          | Some m' =>
              match stevedore.getitem m' plugin_name with
              | Some _ =>
                  set_ext_manager
                    (Some (stevedore.setitem_obj m' plugin_name o))
              | None => raise (KeyError plugin_name)
              end
          end
      end
  end.

(** [initialize(reset=False)]. *)
Definition initialize (reset : bool) : M World unit :=
  g <- get_globals ;;
  if orb reset
         (match _EXT_MANAGER g with None => true | Some _ => false end)
  then
    m <- new_extension_manager "os_vif" ;;
    set_ext_manager (Some m) ;;
    for_each (stevedore.names m) load_one ;;
    collaborate register_all
  else ret tt.

(** The lookup both [plug] and [unplug] start with. *)
Definition resolve (vif : objects.VIF) : M World (option stevedore.PluginObj) :=
  g <- get_globals ;;
  match _EXT_MANAGER g with
  | None => raise LibraryNotInitialized
  | Some m =>
      let plugin_name := objects.plugin vif in
      match stevedore.getitem m plugin_name with
      | Some e => ret (stevedore.obj e)
      | None => raise (NoMatchingPlugin plugin_name)
      end
  end.

(** A method call on what is stored as [obj], which may still be [None]. *)
Definition method {A} (o : option stevedore.PluginObj) (attr : string)
    (f : plugin.PluginBase World -> M World A) : M World A :=
  match o with
  | Some p => f (methods p)
  | None =>
      raise (AttributeError
               ("'NoneType' object has no attribute '" ++ attr ++ "'")%string)
  end.

(** [plug(vif, instance_info)]. *)
Definition plug (vif : objects.VIF) (instance_info : objects.InstanceInfo)
  : M World unit :=
  plugin <- resolve vif ;;
  try_except
    (log DEBUG "Plugging vif %s" ;;
     method plugin "plug" (fun p => plugin.plug p vif instance_info) ;;
     log INFO "Successfully plugged vif %s")
    (fun err =>
       log ERROR "Failed to plug vif %(vif)s. Got error: %(err)s" ;;
       raise (PlugException vif err)).

(** [unplug(vif, instance_info)]. *)
Definition unplug (vif : objects.VIF) (instance_info : objects.InstanceInfo)
  : M World unit :=
  plugin <- resolve vif ;;
  try_except
    (log DEBUG "Unplugging vif %s" ;;
     method plugin "unplug" (fun p => plugin.unplug p vif instance_info) ;;
     log INFO "Successfully unplugged vif %s")
    (fun err =>
       log ERROR "Failed to unplug vif %(vif)s. Got error: %(err)s" ;;
       raise (UnplugException vif err)).

(** The list comprehension of [host_info]. *)
Fixpoint describe_all (m : stevedore.ExtensionManager) (l : list string)
  : M World (list objects.HostPluginInfo) :=
  match l with
  | [] => ret []
  | n :: r =>
      match stevedore.getitem m n with
      | None => raise (KeyError n)
      | Some e =>
          d <- method (stevedore.obj e) "describe" plugin.describe ;;
          ds <- describe_all m r ;;
          ret (d :: ds)
      end
  end.

(** [host_info()]. *)
Definition host_info : M World objects.HostInfo :=
  g <- get_globals ;;
  match _EXT_MANAGER g with
  | None => raise LibraryNotInitialized
  | Some m =>
      plugins <- describe_all m (stevedore.names m) ;;
      ret {| objects.plugin_info := plugins |}
  end.

End Code.

End os_vif.

(** ** A reference host

    A small, executable host on which the code above can be run: network
    devices, bridge membership, addresses and routes, with the commands the
    three modules issue interpreted the way [brctl] and [ip] answer them.  It
    is the fake executor of the spec's design notes, used to run the code on
    concrete inputs and to state what a migration leaves on the host. *)

Module SimHost.

Import PyStr.

(** The addresses of this host are IPv4 addresses. *)
Record address : Type := {
  params : list string;      (* what [ip addr show] prints after [inet] *)
  flag : option string;      (* [secondary] or [dynamic], when printed *)
  on_dev : string
}.

Record route : Type := {
  fields : list string;      (* the line [ip route show dev] prints *)
  via_dev : string
}.

Record sim : Type := {
  devices : list string;
  ipv6 : bool;
  members : list (string * string);          (* port, bridge *)
  addresses : list address;
  routes : list route;
  onlink : list (string * string);            (* gateway, address it is behind *)
  installed : list (string * stevedore.PluginClass);
  broken : list string                        (* plugins that fail to load *)
}.

Definition with_devices (d : list string) (h : sim) : sim :=
  {| devices := d; ipv6 := ipv6 h; members := members h;
     addresses := addresses h; routes := routes h; onlink := onlink h;
     installed := installed h; broken := broken h |}.

Definition with_members (m : list (string * string)) (h : sim) : sim :=
  {| devices := devices h; ipv6 := ipv6 h; members := m;
     addresses := addresses h; routes := routes h; onlink := onlink h;
     installed := installed h; broken := broken h |}.

Definition with_addresses (a : list address) (h : sim) : sim :=
  {| devices := devices h; ipv6 := ipv6 h; members := members h;
     addresses := a; routes := routes h; onlink := onlink h;
     installed := installed h; broken := broken h |}.

Definition with_routes (r : list route) (h : sim) : sim :=
  {| devices := devices h; ipv6 := ipv6 h; members := members h;
     addresses := addresses h; routes := r; onlink := onlink h;
     installed := installed h; broken := broken h |}.

Definition has_device (d : string) (h : sim) : bool := mem d (devices h).

Definition sim_path_exists (p : string) (h : sim) : bool :=
  orb (existsb (fun d => String.eqb p ("/sys/class/net/" ++ d)%string)
         (devices h))
    (orb
       (existsb (fun d => String.eqb p
          ("/sys/class/net/" ++ d ++ "/bridge/multicast_snooping")%string)
          (devices h))
       (andb (ipv6 h)
          (existsb (fun d => String.eqb p
             ("/proc/sys/net/ipv6/conf/" ++ d ++ "/disable_ipv6")%string)
             (devices h)))).

Definition output : Type := (Z * string * string) * sim.

Definition ok (h : sim) : output := ((0%Z, "", ""), h).
Definition printed (out : string) (h : sim) : output := ((0%Z, out, ""), h).
Definition failed (code : Z) (err : string) (h : sim) : output :=
  ((code, "", err), h).

(** [" ".join(l)]. *)
Fixpoint unwords (l : list string) : string :=
  match l with
  | [] => ""
  | [x] => x
  | x :: r => (x ++ " " ++ unwords r)%string
  end.

Fixpoint unlines (l : list string) : string :=
  match l with
  | [] => ""
  | x :: r => (x ++ nl ++ unlines r)%string
  end.

Definition list_eqb (a b : list string) : bool :=
  if list_eq_dec string_dec a b then true else false.

(** *** brctl *)

Definition brctl (args : list string) (h : sim) : output :=
  match args with
  | [sub; b] =>
      if String.eqb sub "addbr" then
        if has_device b h
        then failed 1 ("device " ++ b
               ++ " already exists; can't create bridge with the same name"
               ++ nl)%string h
        else ok (with_devices (devices h ++ [b]) h)
      else if String.eqb sub "delbr" then
        if has_device b h
        then ok (with_devices
                   (filter (fun d => negb (String.eqb d b)) (devices h)) h)
        else failed 1 ("bridge " ++ b ++ " doesn't exist; can't delete it"
               ++ nl)%string h
      else failed 1 "" h
  | [sub; b; x] =>
      if String.eqb sub "addif" then
        if negb (has_device b h)
        then failed 1 ("bridge " ++ b ++ " does not exist!" ++ nl)%string h
        else if negb (has_device x h)
        then failed 1 ("interface " ++ x ++ " does not exist!" ++ nl)%string h
        else if existsb (fun m => String.eqb (fst m) x) (members h)
        then failed 1 (linux_net.already_member_msg x b) h
        else ok (with_members (members h ++ [(x, b)]) h)
      else if String.eqb sub "delif" then
        if existsb (fun m => andb (String.eqb (fst m) x)
                                  (String.eqb (snd m) b)) (members h)
        then ok (with_members
                   (filter (fun m => negb (String.eqb (fst m) x)) (members h))
                   h)
        else failed 1 ("device " ++ x ++ " is not a slave of " ++ b
               ++ nl)%string h
      else if orb (String.eqb sub "setfd") (String.eqb sub "stp") then
        if has_device b h then ok h
        else failed 1 ("bridge " ++ b ++ " does not exist!" ++ nl)%string h
      else failed 1 "" h
  | _ => failed 1 "" h
  end.

(** *** ip link *)

Definition is_digit (c : ascii) : bool :=
  andb (Nat.leb 48 (nat_of_ascii c)) (Nat.leb (nat_of_ascii c) 57).

Definition is_number (s : string) : bool :=
  andb (negb (String.eqb s ""))
       (forallb is_digit (list_ascii_of_string s)).

Definition no_device : string := ("Cannot find device" ++ nl)%string.

Definition ip_link (args : list string) (h : sim) : output :=
  match args with
  | [verb; d; what] =>
      if andb (String.eqb verb "set")
              (orb (String.eqb what "up") (String.eqb what "down"))
      then if has_device d h then ok h else failed 1 no_device h
      else failed 255 "" h
  | [verb; d; what; value] =>
      if andb (String.eqb verb "set") (String.eqb what "mtu") then
        if negb (is_number value)
        then failed 255 ("Error: argument is wrong: Invalid MTU" ++ nl)%string
               h
        else if has_device d h then ok h else failed 1 no_device h
      else if andb (String.eqb verb "set") (String.eqb what "address") then
        if has_device d h then ok h else failed 1 no_device h
      else failed 255 "" h
  | [verb; k1; parent; k2; dev; k3; kind; k4; tag] =>
      if list_eqb [verb; k1; k2; k3; kind; k4]
                  ["add"; "link"; "name"; "type"; "vlan"; "id"] then
        if negb (has_device parent h) then failed 1 no_device h
        else if has_device dev h
        then failed 2 ("RTNETLINK answers: File exists" ++ nl)%string h
        else ok (with_devices (devices h ++ [dev]) h)
      else failed 255 "" h
  | _ => failed 255 "" h
  end.

(** *** ip addr *)

Definition flag_tokens (a : address) : list string :=
  match flag a with Some f => [f] | None => [] end.

Definition addr_line (a : address) : string :=
  ("    inet " ++ unwords (params a ++ flag_tokens a ++ [on_dev a]))%string.

Definition lifetime_line : string :=
  "       valid_lft forever preferred_lft forever".

Definition addr_lines (a : address) : list string :=
  [addr_line a; lifetime_line].

Definition link_line (d : string) : string :=
  ("2: " ++ d ++ ": <BROADCAST,MULTICAST,UP,LOWER_UP> mtu 1500")%string.

Definition on (d : string) (a : address) : bool := String.eqb (on_dev a) d.

Definition addresses_on (d : string) (h : sim) : list address :=
  filter (on d) (addresses h).

Definition addr_show (d : string) (h : sim) : string :=
  unlines (link_line d :: flat_map addr_lines (addresses_on d h)).

Fixpoint remove_address (d : string) (p : list string) (l : list address)
  : option (list address) :=
  match l with
  | [] => None
  | a :: r =>
      if andb (on d a) (list_eqb (params a) p) then Some r
      else option_map (cons a) (remove_address d p r)
  end.

Definition cannot_assign : string :=
  ("RTNETLINK answers: Cannot assign requested address" ++ nl)%string.

Definition file_exists : string :=
  ("RTNETLINK answers: File exists" ++ nl)%string.

Definition addr_del (p : list string) (d : string) (h : sim) : output :=
  match remove_address d p (addresses h) with
  | Some l => ok (with_addresses l h)
  | None => failed 2 cannot_assign h
  end.

Definition addr_add (p : list string) (d : string) (h : sim) : output :=
  if negb (has_device d h) then failed 1 no_device h
  else if existsb (fun a => andb (on d a) (list_eqb (params a) p))
            (addresses h)
  then failed 2 file_exists h
  else ok (with_addresses
             (addresses h ++ [{| params := p; flag := None; on_dev := d |}])
             h).

Definition ip_addr (args : list string) (h : sim) : output :=
  match args with
  | verb :: rest =>
      if String.eqb verb "show" then
        match rest with
        | [k1; d; k2; k3] =>
            if list_eqb [k1; k2; k3] ["dev"; "scope"; "global"]
            then if has_device d h then printed (addr_show d h) h
                 else failed 1 no_device h
            else failed 255 "" h
        | _ => failed 255 "" h
        end
      else
        match rev rest with
        | d :: k :: rev_params =>
            if negb (String.eqb k "dev") then failed 255 "" h
            else if String.eqb verb "del" then addr_del (rev rev_params) d h
            else if String.eqb verb "add" then addr_add (rev rev_params) d h
            else failed 255 "" h
        | _ => failed 255 "" h
        end
  | [] => failed 255 "" h
  end.

(** *** ip route *)

Definition routes_on (d : string) (h : sim) : list route :=
  filter (fun r => String.eqb (via_dev r) d) (routes h).

Definition route_show (d : string) (h : sim) : string :=
  unlines (map (fun r => unwords (fields r)) (routes_on d h)).

Fixpoint remove_route (f : list string) (l : list route)
  : option (list route) :=
  match l with
  | [] => None
  | r :: rest =>
      if list_eqb (fields r) f then Some rest
      else option_map (cons r) (remove_route f rest)
  end.

(** The gateway of a route: the word after [via]. *)
Fixpoint gateway_of (f : list string) : option string :=
  match f with
  | [] => None
  | k :: r => if String.eqb k "via" then hd_error r else gateway_of r
  end.

Definition behind (h : sim) (g : string) (a : address) : bool :=
  match params a with
  | p :: _ =>
      existsb (fun ol => andb (String.eqb (fst ol) g) (String.eqb (snd ol) p))
        (onlink h)
  | [] => false
  end.

(** The device a new route through gateway [g] is bound to: the one with
    an address the gateway is behind. *)
Definition device_towards (g : string) (h : sim) : option string :=
  option_map on_dev (find (behind h g) (addresses h)).

Definition no_such_process : string :=
  ("RTNETLINK answers: No such process" ++ nl)%string.

Definition unreachable : string :=
  ("RTNETLINK answers: Network is unreachable" ++ nl)%string.

Definition route_del (f : list string) (h : sim) : output :=
  match remove_route f (routes h) with
  | Some l => ok (with_routes l h)
  | None => failed 2 no_such_process h
  end.

Definition route_add (f : list string) (h : sim) : output :=
  match gateway_of f with
  | None => failed 2 unreachable h
  | Some g =>
      match device_towards g h with
      | None => failed 2 unreachable h
      | Some d =>
          ok (with_routes (routes h ++ [{| fields := f; via_dev := d |}]) h)
      end
  end.

Definition ip_route (args : list string) (h : sim) : output :=
  match args with
  | verb :: rest =>
      if String.eqb verb "show" then
        match rest with
        | [k; d] =>
            if String.eqb k "dev"
            then if has_device d h then printed (route_show d h) h
                 else failed 1 no_device h
            else failed 255 "" h
        | _ => failed 255 "" h
        end
      else if String.eqb verb "del" then route_del rest h
      else if String.eqb verb "add" then route_add rest h
      else failed 255 "" h
  | [] => failed 255 "" h
  end.

(** *** The host as a whole *)

Definition ip (args : list string) (h : sim) : output :=
  match args with
  | object :: rest =>
      if String.eqb object "link" then ip_link rest h
      else if String.eqb object "addr" then ip_addr rest h
      else if String.eqb object "route" then ip_route rest h
      else failed 255 "" h
  | [] => failed 255 "" h
  end.

Definition tee (args : list string) (h : sim) : output :=
  match args with
  | [path] => if sim_path_exists path h then ok h else failed 1 "" h
  | _ => failed 1 "" h
  end.

(** A process gets its operands as strings. *)
Definition sim_spawn (c : command) (h : sim) : output :=
  match map Py.str (argv c) with
  | program :: args =>
      if String.eqb program "brctl" then brctl args h
      else if String.eqb program "ip" then ip args h
      else if String.eqb program "tee" then tee args h
      else failed 127 "" h
  | [] => failed 127 "" h
  end.

Definition sim_entry_points (namespace : string) (h : sim)
  : list (string * stevedore.PluginClass) :=
  if String.eqb namespace "os_vif" then installed h else [].

Definition sim_load (c : stevedore.PluginClass) (plugin_name : string)
    (h : sim) : (exn + stevedore.PluginObj) * sim :=
  if mem plugin_name (broken h)
  then (inl (ForeignError "ImportError"), h)
  else (inr {| stevedore.cls := c; stevedore.loaded_as := plugin_name |}, h).

Definition sim_invoke (c : call) (h : sim) : option exn * sim :=
  match c with
  | create_veth_pair dev1 dev2 _ =>
      if orb (has_device dev1 h) (has_device dev2 h)
      then (Some (ForeignError "ProcessExecutionError"), h)
      else (None, with_devices (devices h ++ [dev1; dev2]) h)
  | delete_ovs_vif_port _ dev _ =>
      (None, with_devices
               (filter (fun d => negb (String.eqb d dev)) (devices h)) h)
  | _ => (None, h)
  end.

#[export] Instance sim_host : HostOps sim := {|
  path_exists := sim_path_exists;
  spawn := sim_spawn;
  entry_points := sim_entry_points;
  load := sim_load;
  invoke := sim_invoke
|}.

End SimHost.

(** ** Names for what the properties speak about *)

Module Observed.

Import Py.

(** The parts of a run. *)
Definition outcome {World A} (run : result A * state World * list event)
  : result A := fst (fst run).

Definition final {World A} (run : result A * state World * list event)
  : state World := snd (fst run).

Definition events {World A} (run : result A * state World * list event)
  : list event := snd run.

(** The commands among the events, in order. *)
Fixpoint commands (t : list event) : list command :=
  match t with
  | [] => []
  | EvExecute c :: r => c :: commands r
  | _ :: r => commands r
  end.

Section Host.

Context {World : Type} `{HostOps World}.

(** What a process run on host [w] exits with, prints, and leaves. *)
Definition exit_code (c : command) (w : World) : Z := fst (fst (fst (spawn c w))).
Definition stdout (c : command) (w : World) : string := snd (fst (fst (spawn c w))).
Definition stderr (c : command) (w : World) : string := snd (fst (spawn c w)).
Definition after (c : command) (w : World) : World := snd (spawn c w).

(** The host after a sequence of processes. *)
Definition after_all (cs : list command) (w : World) : World :=
  fold_left (fun w c => after c w) cs w.

End Host.

(** The command [_set_device_mtu] runs. *)
Definition mtu_command (dev : string) (mtu : arg) : command :=
  {| argv := [AStr "ip"; AStr "link"; AStr "set"; AStr dev; AStr "mtu"; mtu];
     check_exit_code := CheckCodes [0; 2; 254]%Z;
     run_as_root := false;
     process_input := None |}.

(** The commands [ensure_vlan] runs only for an interface that is not
    there: they run as root. *)
Definition vlan_add_command (parent interface : string) (vlan_num : arg)
  : command :=
  {| argv := [AStr "ip"; AStr "link"; AStr "add"; AStr "link"; AStr parent;
              AStr "name"; AStr interface; AStr "type"; AStr "vlan";
              AStr "id"; vlan_num];
     check_exit_code := CheckCodes [0; 2; 254]%Z;
     run_as_root := true;
     process_input := None |}.

Definition set_mac_command (interface : string) (mac : arg) : command :=
  {| argv := [AStr "ip"; AStr "link"; AStr "set"; AStr interface;
              AStr "address"; mac];
     check_exit_code := CheckCodes [0; 2; 254]%Z;
     run_as_root := true;
     process_input := None |}.

Definition vlan_up_command (interface : string) : command :=
  {| argv := [AStr "ip"; AStr "link"; AStr "set"; AStr interface; AStr "up"];
     check_exit_code := CheckCodes [0; 2; 254]%Z;
     run_as_root := true;
     process_input := None |}.

End Observed.

(** ** Runs, put together *)

Module Run.

(** A run that happens after the events [t]. *)
Definition later {World A} (t : list event)
    (run : result A * state World * list event)
  : result A * state World * list event :=
  (fst (fst run), snd (fst run), t ++ snd run).

(** A computation that leaves the interpreter's globals as they were. *)
Definition keeps_globals {World A} (m : M World A) : Prop :=
  forall s, globals (snd (fst (m s))) = globals s.

(** What the filtering step raises without a manager. *)
Definition no_manager : exn :=
  AttributeError "'NoneType' object has no attribute 'ipv4'".

End Run.

(** ** The commands of the hybrid backend, by name *)

Module HybridCommands.

Import Py.

Definition addbr_command (b : string) : command :=
  as_root (cmd [AStr "brctl"; AStr "addbr"; AStr b]).

Definition setfd_command (b : string) : command :=
  as_root (cmd [AStr "brctl"; AStr "setfd"; AStr b; AInt 0]).

Definition stp_off_command (b : string) : command :=
  as_root (cmd [AStr "brctl"; AStr "stp"; AStr b; AStr "off"]).

Definition snooping_path (b : string) : string :=
  ("/sys/class/net/" ++ b ++ "/bridge/multicast_snooping")%string.

Definition snooping_off_command (b : string) : command :=
  as_root (checking (CheckCodes [0; 1]%Z)
             (feeding "0" (cmd [AStr "tee"; AStr (snooping_path b)]))).

Definition disable_ipv6_path (b : string) : string :=
  ("/proc/sys/net/ipv6/conf/" ++ b ++ "/disable_ipv6")%string.

Definition disable_ipv6_command (b : string) : command :=
  as_root (checking (CheckCodes [0; 1]%Z)
             (feeding "1" (cmd [AStr "tee"; AStr (disable_ipv6_path b)]))).

Definition link_up_command (dev : string) : command :=
  as_root (cmd [AStr "ip"; AStr "link"; AStr "set"; AStr dev; AStr "up"]).

Definition addif_command (b port : string) : command :=
  as_root (cmd [AStr "brctl"; AStr "addif"; AStr b; AStr port]).

(** What [plug] runs first for a bridge that is not there. *)
Definition new_bridge_commands (b : string) : list command :=
  [addbr_command b; setfd_command b; stp_off_command b;
   snooping_off_command b].

(** What [plug] does for an OVS-side veth end that is not there. *)
Definition veth_events (config : OvsHybridPlugin.Config) (vif : objects.VIF)
    (info : objects.InstanceInfo) (interface_id : string) : list event :=
  let v1 := fst (OvsHybridPlugin.get_veth_pair_names vif) in
  let v2 := snd (OvsHybridPlugin.get_veth_pair_names vif) in
  [EvCall (create_veth_pair v1 v2 (OvsHybridPlugin.network_device_mtu config));
   EvExecute (link_up_command (objects.bridge_name vif));
   EvExecute (addif_command (objects.bridge_name vif) v1);
   EvCall (create_ovs_vif_port (objects.bridge (objects.network vif)) v2
             interface_id (objects.address vif) (objects.uuid info)
             (OvsHybridPlugin.network_device_mtu config)
             (OvsHybridPlugin.ovs_vsctl_timeout config))].

End HybridCommands.

(** ** The registry, observed *)

Module Registry.

(** An extension called [n] is found in [m] and holds a plugin object. *)
Definition bound (m : stevedore.ExtensionManager) (n : string) : Prop :=
  exists e o, stevedore.getitem m n = Some e /\ stevedore.obj e = Some o.

(** The state with its registry forgotten. *)
Definition forget {World} (s : state World) : state World :=
  Build_state
    {| _EXT_MANAGER := None;
       _IPTABLES_MANAGER := _IPTABLES_MANAGER (globals s);
       builtins_gettext := builtins_gettext (globals s) |}
    (host s).

End Registry.

(** ** The commands of [ensure_bridge], by name *)

Module BridgeCommands.

Import Py.

Definition addbr_command (b : string) : command :=
  as_root (cmd [AStr "brctl"; AStr "addbr"; AStr b]).

Definition setfd_command (b : string) : command :=
  as_root (cmd [AStr "brctl"; AStr "setfd"; AStr b; AInt 0]).

Definition stp_off_command (b : string) : command :=
  as_root (cmd [AStr "brctl"; AStr "stp"; AStr b; AStr "off"]).

Definition link_up_command (dev : string) : command :=
  as_root (cmd [AStr "ip"; AStr "link"; AStr "set"; AStr dev; AStr "up"]).

(** The two commands of the attach step run with [check_exit_code=False]. *)
Definition addif_command (b interface : string) : command :=
  as_root (checking CheckOff
             (cmd [AStr "brctl"; AStr "addif"; AStr b; AStr interface])).

Definition interface_up_command (interface : string) : command :=
  as_root (checking CheckOff
             (cmd [AStr "ip"; AStr "link"; AStr "set"; AStr interface;
                   AStr "up"])).

Definition route_show_command (interface : string) : command :=
  cmd [AStr "ip"; AStr "route"; AStr "show"; AStr "dev"; AStr interface].

Definition route_del_command (fields : list string) : command :=
  as_root (cmd ([AStr "ip"; AStr "route"; AStr "del"] ++ map AStr fields)).

Definition route_add_command (fields : list string) : command :=
  as_root (cmd ([AStr "ip"; AStr "route"; AStr "add"] ++ map AStr fields)).

Definition addr_show_command (interface : string) : command :=
  cmd [AStr "ip"; AStr "addr"; AStr "show"; AStr "dev"; AStr interface;
       AStr "scope"; AStr "global"].

Definition addr_del_command (params : list string) (dev : string) : command :=
  as_root (checking (CheckCodes [0; 2; 254]%Z)
             (cmd (map AStr (linux_net._ip_bridge_cmd "del" params dev)))).

Definition addr_add_command (params : list string) (dev : string) : command :=
  as_root (checking (CheckCodes [0; 2; 254]%Z)
             (cmd (map AStr (linux_net._ip_bridge_cmd "add" params dev)))).

(** What [ensure_bridge] runs for a bridge that is not there. *)
Definition creation_commands (b : string) : list command :=
  [addbr_command b; setfd_command b; stp_off_command b; link_up_command b].

Section Host.

Context {World : Type} `{HostOps World}.

(** Every command of the sequence, run in turn from [w], exits with a status
    its [check_exit_code] accepts. *)
Fixpoint all_accepted (cs : list command) (w : World) : bool :=
  match cs with
  | [] => true
  | c :: r =>
      andb (accepted (check_exit_code c) (Observed.exit_code c w))
           (all_accepted r (Observed.after c w))
  end.

(** The commands that come before the attach step on host [w], and the
    events they leave. *)
Definition pending (b : string) (w : World) : list command :=
  if path_exists ("/sys/class/net/" ++ b)%string w then []
  else creation_commands b.

Definition starting_events (b : string) (w : World) : list event :=
  if path_exists ("/sys/class/net/" ++ b)%string w then []
  else EvLog DEBUG "Starting Bridge %s" :: map EvExecute (creation_commands b).

End Host.

(** The error output the attach step lets pass. *)
Definition tolerated (interface b err : string) : Prop :=
  err = "" \/ err = linux_net.already_member_msg interface b.

End BridgeCommands.

(** ** The migration of addresses and routes, as a script *)

Module Migration.

Import Py PyStr BridgeCommands.

(** The test of the first loop on the fields of a line. *)
Definition has_via (f : list string) : bool :=
  andb (negb (Nat.eqb (length f) 0)) (mem "via" f).

(** The routes the first loop records from the output of [ip route show]. *)
Definition via_routes (out : string) : list (list string) :=
  filter has_via (map split (split_on nl_char out)).

(** The two commands the second loop runs for a line of [ip addr show]. *)
Definition move_commands (bridge line : string) : list command :=
  let fields := split line in
  match fields with
  | first :: _ =>
      if String.eqb first "inet" then
        match rev fields with
        | last :: before_last :: _ =>
            let params :=
              if mem before_last ["secondary"; "dynamic"]
              then slice_1_minus 2 fields
              else slice_1_minus 1 fields in
            [addr_del_command params last; addr_add_command params bridge]
        | _ => []
        end
      else []
  | [] => []
  end.

(** A line on which the second loop finds the fields it indexes. *)
Definition line_ok (line : string) : bool :=
  match split line with
  | first :: rest =>
      if String.eqb first "inet" then negb (Nat.eqb (length rest) 0)
      else true
  | [] => true
  end.

Section Host.

Context {World : Type} `{HostOps World}.

(** The host when [ip route show] is run, the routes recorded from it, and
    the lines of [ip addr show] once these routes are deleted. *)
Definition attached (bridge interface : string) (w : World) : World :=
  Observed.after_all
    [addif_command bridge interface; interface_up_command interface] w.

Definition recorded (bridge interface : string) (w : World)
  : list (list string) :=
  via_routes (Observed.stdout (route_show_command interface)
                (attached bridge interface w)).

Definition listed (bridge interface : string) (w : World) : list string :=
  split_on nl_char
    (Observed.stdout (addr_show_command interface)
       (Observed.after_all
          (route_show_command interface
           :: map route_del_command (recorded bridge interface w))
          (attached bridge interface w))).

(** Everything the attach step runs on host [w] when nothing fails. *)
Definition script (bridge interface : string) (w : World) : list command :=
  [addif_command bridge interface; interface_up_command interface;
   route_show_command interface]
  ++ map route_del_command (recorded bridge interface w)
  ++ [addr_show_command interface]
  ++ flat_map (move_commands bridge) (listed bridge interface w)
  ++ map route_add_command (recorded bridge interface w).

End Host.

End Migration.

(** ** What the reference host carries, and when a migration can go through *)

Module HostState.

Import PyStr SimHost.

(** A word: not empty and without white space, so that [split] gives it
    back. *)
Fixpoint spaceless (s : string) : bool :=
  match s with
  | EmptyString => true
  | String c r => andb (negb (is_space c)) (spaceless r)
  end.

Definition is_word (s : string) : bool :=
  match s with
  | EmptyString => false
  | String _ _ => spaceless s
  end.

(** A string without a line feed. *)
Fixpoint one_line (s : string) : bool :=
  match s with
  | EmptyString => true
  | String c r => andb (negb (Ascii.eqb c nl_char)) (one_line r)
  end.

Definition is_flag (s : string) : bool := mem s ["secondary"; "dynamic"].

(** An address whose line the second loop reads back as it is: its
    parameters are words, the last of them is not one of the two flags, and
    its flag, if any, is one of the two. *)
Definition address_ok (a : address) : bool :=
  andb (forallb is_word (params a))
    (andb (negb (is_flag (hd "inet" (rev (params a)))))
       (match flag a with Some f => is_flag f | None => true end)).

Definition meml (x : list string) (l : list (list string)) : bool :=
  existsb (list_eqb x) l.

Fixpoint distinct (l : list (list string)) : bool :=
  match l with
  | [] => true
  | x :: r => andb (negb (meml x r)) (distinct r)
  end.

Definition is_via (r : route) : bool := Migration.has_via (fields r).

(** A route through a gateway that is behind an address of the interface and
    behind no address of another device. *)
Definition route_ok (i : string) (h : sim) (r : route) : bool :=
  match gateway_of (fields r) with
  | Some g =>
      andb (existsb (behind h g) (addresses_on i h))
           (forallb (fun a => implb (behind h g a) (on i a)) (addresses h))
  | None => false
  end.

(** The hosts and interfaces on which the migration is followed below: the
    interface is a device with a proper name, other than the bridge; what is
    under [/sys/class/net] with the bridge's name is a device; the addresses
    of the interface are readable, differ in their parameters, and are not
    on the bridge already; the routes of the host differ in their fields,
    those of the interface are made of words, and those through a gateway
    can be bound again. *)
Definition migratable (b i : string) (h : sim) : bool :=
  andb (negb (String.eqb b i))
  (andb (is_word i)
  (andb (has_device i h)
  (andb (implb (sim_path_exists ("/sys/class/net/" ++ b)%string h)
               (has_device b h))
  (andb (forallb address_ok (addresses_on i h))
  (andb (distinct (map params (addresses_on i h)))
  (andb (forallb (fun a => negb (andb (on b a)
                                   (meml (params a)
                                      (map params (addresses_on i h)))))
           (addresses h))
  (andb (forallb (fun r => forallb is_word (fields r)) (routes_on i h))
  (andb (distinct (map fields (routes h)))
        (forallb (route_ok i h) (filter is_via (routes_on i h))))))))))).

(** An address, and a route, as they are once moved to device [b]. *)
Definition rehome (b : string) (a : address) : address :=
  {| params := params a; flag := None; on_dev := b |}.

Definition rebind (b : string) (r : route) : route :=
  {| fields := fields r; via_dev := b |}.

(** The commands of the migration, from what the host carries. *)
Definition move_of (b i : string) (a : address) : list command :=
  [BridgeCommands.addr_del_command (params a) i;
   BridgeCommands.addr_add_command (params a) b].

Definition expected_commands (b i : string) (h : sim) : list command :=
  BridgeCommands.pending b h
  ++ [BridgeCommands.addif_command b i;
      BridgeCommands.interface_up_command i;
      BridgeCommands.route_show_command i]
  ++ map (fun r => BridgeCommands.route_del_command (fields r))
       (filter is_via (routes_on i h))
  ++ [BridgeCommands.addr_show_command i]
  ++ flat_map (move_of b i) (addresses_on i h)
  ++ map (fun r => BridgeCommands.route_add_command (fields r))
       (filter is_via (routes_on i h)).

End HostState.

(** ** Concrete hosts and inputs *)

Module Examples.

Import Py SimHost.

Definition no_globals : Globals :=
  {| _EXT_MANAGER := None; _IPTABLES_MANAGER := None;
     builtins_gettext := None |}.

(** A host with one network card and nothing else. *)
Definition bare_host : sim :=
  {| devices := ["eth0"]; ipv6 := true; members := []; addresses := [];
     routes := []; onlink := []; installed := []; broken := [] |}.

(** The same host once [vlan5] is there. *)
Definition vlan5_host : sim := with_devices ["eth0"; "vlan5"] bare_host.

Definition fresh_state (h : sim) : state sim := Build_state no_globals h.

(** A VIF for the hybrid backend, with its port profile, and the same on an
    object that has no such attribute. *)
Definition vif_abc : objects.VIF :=
  {| objects.id := "abc";
     objects.address := "fa:16:3e:00:00:01";
     objects.plugin := "ovs_hybrid";
     objects.bridge_name := "qbrabc";
     objects.port_profile := Some (objects.VIFPortProfileOpenVSwitch "port-1");
     objects.versioned := true;
     objects.network := {| objects.bridge := "br-int" |} |}.

Definition without_profile (v : objects.VIF) : objects.VIF :=
  {| objects.id := objects.id v;
     objects.address := objects.address v;
     objects.plugin := objects.plugin v;
     objects.bridge_name := objects.bridge_name v;
     objects.port_profile := None;
     objects.versioned := false;
     objects.network := objects.network v |}.

(** A VIF of the versioned classes whose port profile was never set. *)
Definition unset_profile (v : objects.VIF) : objects.VIF :=
  {| objects.id := objects.id v;
     objects.address := objects.address v;
     objects.plugin := objects.plugin v;
     objects.bridge_name := objects.bridge_name v;
     objects.port_profile := None;
     objects.versioned := true;
     objects.network := objects.network v |}.

Definition with_profile (p : objects.VIFPortProfile) (v : objects.VIF)
  : objects.VIF :=
  {| objects.id := objects.id v;
     objects.address := objects.address v;
     objects.plugin := objects.plugin v;
     objects.bridge_name := objects.bridge_name v;
     objects.port_profile := Some p;
     objects.versioned := objects.versioned v;
     objects.network := objects.network v |}.

Definition for_plugin (n : string) (v : objects.VIF) : objects.VIF :=
  {| objects.id := objects.id v;
     objects.address := objects.address v;
     objects.plugin := n;
     objects.bridge_name := objects.bridge_name v;
     objects.port_profile := objects.port_profile v;
     objects.versioned := objects.versioned v;
     objects.network := objects.network v |}.

Definition instance_1 : objects.InstanceInfo :=
  {| objects.uuid := "6f1c" |}.

(** A host on which the OVS-side veth end of [vif_abc] is left over while
    its bridge is gone. *)
Definition veth_left_host : sim := with_devices ["eth0"; "qvoabc"] bare_host.

(** A host on which [eth0] is already a port of the bridge [br0]. *)
Definition enslaved_host : sim :=
  with_members [("eth0", "br0")] (with_devices ["eth0"; "br0"] bare_host).

(** The host of the spec's example: [eth0] carries 10.0.0.5/24, a route to
    10.0.1.0/24 through the gateway 10.0.0.1 behind that address, and the
    route of the network it is on. *)
Definition address_10_0_0_5 : address :=
  {| params := ["10.0.0.5/24"; "brd"; "10.0.0.255"; "scope"; "global"];
     flag := None; on_dev := "eth0" |}.

Definition route_10_0_1_0 : route :=
  {| fields := ["10.0.1.0/24"; "via"; "10.0.0.1"]; via_dev := "eth0" |}.

Definition link_route : route :=
  {| fields := ["10.0.0.0/24"; "proto"; "kernel"; "scope"; "link"; "src";
                "10.0.0.5"];
     via_dev := "eth0" |}.

Definition routed_host : sim :=
  {| devices := ["eth0"]; ipv6 := true; members := [];
     addresses := [address_10_0_0_5];
     routes := [route_10_0_1_0; link_route];
     onlink := [("10.0.0.1", "10.0.0.5/24")];
     installed := []; broken := [] |}.

(** A host with two plugins installed, and the interpreter after
    [initialize()] on it. *)
Definition plugin_host : sim :=
  {| devices := ["eth0"]; ipv6 := true; members := []; addresses := [];
     routes := []; onlink := [];
     installed :=
       [("linux_bridge",
         {| stevedore.entry_point :=
              "vif_plug_linux_bridge.linux_bridge:LinuxBridgePlugin" |});
        ("ovs_hybrid",
         {| stevedore.entry_point :=
              "vif_plug_ovs.ovs_hybrid:OvsHybridPlugin" |})];
     broken := [] |}.

Definition initialized : state sim :=
  Observed.final (os_vif.initialize false (fresh_state plugin_host)).

(** Every plugin object of the examples behaves as the hybrid backend. *)
Definition hybrid_methods (_ : stevedore.PluginObj) : plugin.PluginBase sim :=
  {| plugin.describe := OvsHybridPlugin.describe;
     plugin.plug := OvsHybridPlugin.plug OvsHybridPlugin.default_config;
     plugin.unplug := OvsHybridPlugin.unplug OvsHybridPlugin.default_config |}.

End Examples.

(** ** Commands and calls made one after the other until one fails *)

Module Attempts.

Section Host.

Context {World : Type} `{HostOps World}.

(** The commands of the sequence that get run from host [w] when each is
    run only if none before it was refused: the refused one is the last. *)
Fixpoint attempted (cs : list command) (w : World) : list command :=
  match cs with
  | [] => []
  | c :: r =>
      c :: (if accepted (check_exit_code c) (Observed.exit_code c w)
            then attempted r (Observed.after c w)
            else [])
  end.

(** The same for calls of collaborators: the calls made, and what the first
    failing one raises. *)
Fixpoint invoked (cs : list call) (w : World) : list call :=
  match cs with
  | [] => []
  | c :: r =>
      c :: match fst (invoke c w) with
           | None => invoked r (snd (invoke c w))
           | Some _ => []
           end
  end.

Fixpoint first_raised (cs : list call) (w : World) : option exn :=
  match cs with
  | [] => None
  | c :: r =>
      match fst (invoke c w) with
      | None => first_raised r (snd (invoke c w))
      | Some e => Some e
      end
  end.

End Host.

End Attempts.

(** ** The rules of the filtering step, by name *)

Module FilterRules.

(** The rule that drops what is forwarded in or out of the bridge. *)
Definition drop_rule (direction bridge : string) (mgr : IptablesManager)
  : call :=
  add_rule "FORWARD"
    ("--" ++ direction ++ "-interface " ++ bridge ++ " -j "
     ++ iptables_drop_action mgr)%string.

(** The calls of the filtering step with the manager [mgr], in order. *)
Definition filtering_calls (bridge : string) (gateway : bool)
    (mgr : IptablesManager) : list call :=
  (if gateway
   then map (fun rule => add_rule (fst rule) (snd rule))
          (get_gateway_rules mgr bridge)
   else [drop_rule "in" bridge mgr; drop_rule "out" bridge mgr])
  ++ [iptables_apply].

End FilterRules.

(** ** The commands of the hybrid backend's [unplug], by name *)

Module Teardown.

Import Py.

Definition delif_command (b port : string) : command :=
  as_root (cmd [AStr "brctl"; AStr "delif"; AStr b; AStr port]).

Definition link_down_command (dev : string) : command :=
  as_root (cmd [AStr "ip"; AStr "link"; AStr "set"; AStr dev; AStr "down"]).

Definition delbr_command (b : string) : command :=
  as_root (cmd [AStr "brctl"; AStr "delbr"; AStr b]).

(** What [unplug] runs for a bridge that is there. *)
Definition bridge_commands (vif : objects.VIF) : list command :=
  let b := objects.bridge_name vif in
  [delif_command b (fst (OvsHybridPlugin.get_veth_pair_names vif));
   link_down_command b; delbr_command b].

(** The call [unplug] ends with. *)
Definition port_deletion (config : OvsHybridPlugin.Config)
    (vif : objects.VIF) : call :=
  delete_ovs_vif_port (objects.bridge (objects.network vif))
    (snd (OvsHybridPlugin.get_veth_pair_names vif))
    (OvsHybridPlugin.ovs_vsctl_timeout config).

End Teardown.

(** ** The commands that create a vlan interface *)

Module VlanCommands.

Import Observed.

(** What [ensure_vlan] runs for an interface that is not there, the MTU
    command included. *)
Definition creation_commands (parent interface : string)
    (vlan_num mac mtu : Py.arg) : list command :=
  [vlan_add_command parent interface vlan_num]
  ++ (if Py.truthy mac then [set_mac_command interface mac] else [])
  ++ [vlan_up_command interface; mtu_command interface mtu].

End VlanCommands.

(** ** A host that refuses everything *)

Module DeniedHost.

(** Nothing exists on this host and every command exits with status 1, as
    for a caller that may not administer the network. *)
Definition refusal : Z * string * string :=
  (1%Z, "", ("Operation not permitted" ++ PyStr.nl)%string).

#[export] Instance denied_host : HostOps unit := {|
  path_exists := fun _ _ => false;
  spawn := fun _ w => (refusal, w);
  entry_points := fun _ _ => [];
  load := fun c n w =>
    (inr {| stevedore.cls := c; stevedore.loaded_as := n |}, w);
  invoke := fun _ w => (None, w)
|}.

Definition fresh : state unit :=
  Build_state
    {| _EXT_MANAGER := None; _IPTABLES_MANAGER := None;
       builtins_gettext := None |} tt.

End DeniedHost.

(** ** More hosts and inputs *)

Module Scenarios.

Import Py SimHost.

(** The host of [plugin_host] on which the first plugin cannot be
    imported, and the interpreter after [initialize()] has failed on it. *)
Definition broken_host : sim :=
  {| devices := devices Examples.plugin_host;
     ipv6 := ipv6 Examples.plugin_host;
     members := members Examples.plugin_host;
     addresses := addresses Examples.plugin_host;
     routes := routes Examples.plugin_host;
     onlink := onlink Examples.plugin_host;
     installed := installed Examples.plugin_host;
     broken := ["linux_bridge"] |}.

Definition half_initialized : state sim :=
  Observed.final (os_vif.initialize false (Examples.fresh_state broken_host)).

(** The host once [vif_abc] has been plugged on [bare_host]. *)
Definition plugged_host : sim :=
  host (Observed.final
          (OvsHybridPlugin.plug OvsHybridPlugin.default_config
             Examples.vif_abc Examples.instance_1
             (Examples.fresh_state Examples.bare_host))).

(** A host on which the bridge of [vif_abc] is there and its veth pair is
    not. *)
Definition bridge_left_host : sim :=
  with_devices ["eth0"; "qbrabc"] Examples.bare_host.

(** A filtering manager. *)
Definition iptables : IptablesManager :=
  {| get_gateway_rules := fun b =>
       [("FORWARD", ("-i " ++ b ++ " -j ACCEPT")%string);
        ("FORWARD", ("-o " ++ b ++ " -j ACCEPT")%string)];
     iptables_drop_action := "DROP" |}.

(** The plugin objects the reference host loads for its two plugins, and
    what [describe] of the hybrid backend returns. *)
Definition linux_bridge_object : stevedore.PluginObj :=
  {| stevedore.cls :=
       {| stevedore.entry_point :=
            "vif_plug_linux_bridge.linux_bridge:LinuxBridgePlugin" |};
     stevedore.loaded_as := "linux_bridge" |}.

Definition ovs_hybrid_object : stevedore.PluginObj :=
  {| stevedore.cls :=
       {| stevedore.entry_point :=
            "vif_plug_ovs.ovs_hybrid:OvsHybridPlugin" |};
     stevedore.loaded_as := "ovs_hybrid" |}.

Definition hybrid_descriptor : objects.HostPluginInfo :=
  {| objects.plugin_name := "ovs_hybrid";
     objects.vif_info :=
       [ {| objects.vif_object_name := "VIFBridge";
            objects.min_version := "1.0";
            objects.max_version := "1.0" |} ] |}.

(** A host whose [eth0] has a route through a gateway that no address of
    the host reaches: once deleted, the route cannot be added again. *)
Definition stranded_host : sim :=
  {| devices := ["eth0"]; ipv6 := true; members := [];
     addresses := [Examples.address_10_0_0_5];
     routes := [Examples.route_10_0_1_0];
     onlink := []; installed := []; broken := [] |}.

End Scenarios.

(** ** The reference host with IPv6 addresses *)

Module DualStackHost.

Import PyStr SimHost.

(** The reference host holds IPv4 addresses only.  Here it is given
    global-scope IPv6 addresses besides, each an address with its prefix
    length and the device it is on: [ip addr show] lists them after the
    IPv4 ones, as [inet6] lines, and [ip addr del] and [ip addr add] with
    such an address take it off a device and put it on one. *)
Record dual : Type := {
  ipv4 : sim;
  inet6 : list (string * string)
}.

Definition inet6_line (a : string) : string :=
  ("    inet6 " ++ a ++ " scope global")%string.

Definition inet6_lines (d : string) (h : dual) : list string :=
  flat_map (fun x => if String.eqb (snd x) d
                     then [inet6_line (fst x); lifetime_line] else [])
    (inet6 h).

Definition holds (a d : string) (h : dual) : bool :=
  existsb (fun x => andb (String.eqb (fst x) a) (String.eqb (snd x) d))
    (inet6 h).

Definition is_inet6 (a : string) : bool :=
  existsb (Ascii.eqb ":"%char) (list_ascii_of_string a).

(** What the IPv4 host answers, with the IPv6 addresses left alone. *)
Definition through (c : command) (h : dual) : (Z * string * string) * dual :=
  match sim_spawn c (ipv4 h) with
  | (answer, w) => (answer, {| ipv4 := w; inet6 := inet6 h |})
  end.

Definition dual_spawn (c : command) (h : dual)
  : (Z * string * string) * dual :=
  match map Py.str (argv c) with
  | [p; o; verb; k1; d; k2; k3] =>
      if list_eqb [p; o; verb; k1; k2; k3]
                  ["ip"; "addr"; "show"; "dev"; "scope"; "global"]
      then match sim_spawn c (ipv4 h) with
           | ((code, out, err), w) =>
               ((code,
                 if Z.eqb code 0
                 then (out ++ unlines (inet6_lines d h))%string else out,
                 err),
                {| ipv4 := w; inet6 := inet6 h |})
           end
      else through c h
  | [p; o; verb; a; k; d] =>
      if andb (list_eqb [p; o; k] ["ip"; "addr"; "dev"]) (is_inet6 a) then
        if String.eqb verb "del" then
          if holds a d h
          then ((0%Z, "", ""),
                {| ipv4 := ipv4 h;
                   inet6 := filter (fun x => negb (andb (String.eqb (fst x) a)
                                                        (String.eqb (snd x) d)))
                              (inet6 h) |})
          else ((2%Z, "", cannot_assign), h)
        else if String.eqb verb "add" then
          if holds a d h then ((2%Z, "", file_exists), h)
          else ((0%Z, "", ""),
                {| ipv4 := ipv4 h; inet6 := inet6 h ++ [(a, d)] |})
        else through c h
      else through c h
  | _ => through c h
  end.

#[export] Instance dual_host : HostOps dual := {|
  path_exists := fun p h => sim_path_exists p (ipv4 h);
  spawn := dual_spawn;
  entry_points := fun ns h => sim_entry_points ns (ipv4 h);
  load := fun c n h =>
    match sim_load c n (ipv4 h) with
    | (r, w) => (r, {| ipv4 := w; inet6 := inet6 h |})
    end;
  invoke := fun c h =>
    match sim_invoke c (ipv4 h) with
    | (r, w) => (r, {| ipv4 := w; inet6 := inet6 h |})
    end
|}.

(** The host of the spec's example, whose [eth0] has an IPv6 address
    too. *)
Definition routed6_host : dual :=
  {| ipv4 := Examples.routed_host; inet6 := [("2001:db8::5/64", "eth0")] |}.

End DualStackHost.

(** ** What the registry holds *)

Module Held.

(** The object the registry holds for each of its names, in the order of
    [names()]: [None] for an extension that is not loaded. *)
Definition held (m : stevedore.ExtensionManager)
  : list (option stevedore.PluginObj) :=
  map (fun n => match stevedore.getitem m n with
                | Some e => stevedore.obj e
                | None => None
                end)
    (stevedore.names m).

End Held.

(** * Properties *)

Import Observed.

(** ** Strings *)

Lemma slice_to_length n s : String.length (Py.slice_to n s) <= n.
Proof.
  revert s; induction n as [|n IH]; intros [|c r]; simpl; try lia.
  specialize (IH r); lia.
Qed.

Lemma slice_to_prefix p n s :
  String.length p <= n -> prefix p (Py.slice_to n (p ++ s)%string) = true.
Proof.
  revert n; induction p as [|c p IH]; intros n Hn; simpl in *.
  - destruct (Py.slice_to n s); reflexivity.
  - destruct n as [|n]; [lia|]. simpl.
    destruct (ascii_dec c c) as [_|Hc]; [|congruence].
    apply IH; lia.
Qed.

(** C7. For every VIF, whatever its id, [get_veth_pair_names] gives two
    names of at most 14 characters, the first starting with [qvb] and the
    second with [qvo]. *)
Theorem veth_pair_names_bounded (vif : objects.VIF) :
  let names := OvsHybridPlugin.get_veth_pair_names vif in
  String.length (fst names) <= 14 /\
  String.length (snd names) <= 14 /\
  prefix "qvb" (fst names) = true /\
  prefix "qvo" (snd names) = true.
Proof.
  unfold OvsHybridPlugin.get_veth_pair_names, OvsHybridPlugin.NIC_NAME_LEN.
  cbv beta zeta delta [fst snd] iota.
  repeat split.
  - apply slice_to_length.
  - apply slice_to_length.
  - apply (slice_to_prefix "qvb"); simpl; lia.
  - apply (slice_to_prefix "qvo"); simpl; lia.
Qed.

(** ** The monad *)

Section Laws.

Context {World : Type}.

Lemma bind_returns {A B} (m : M World A) (k : A -> M World B) s a s1 t1 :
  m s = (Return a, s1, t1) ->
  bind m k s = (fst (fst (k a s1)), snd (fst (k a s1)), t1 ++ snd (k a s1)).
Proof.
  intros E; unfold bind; rewrite E.
  destruct (k a s1) as [[r s2] t2]; reflexivity.
Qed.

Lemma bind_raises {A B} (m : M World A) (k : A -> M World B) s e s1 t1 :
  m s = (Raise e, s1, t1) -> bind m k s = (Raise e, s1, t1).
Proof. intros E; unfold bind; rewrite E; reflexivity. Qed.

Lemma bind_ret {A B} (a : A) (k : A -> M World B) s :
  bind (ret a) k s = k a s.
Proof.
  unfold bind, ret. destruct (k a s) as [[r s2] t2]; reflexivity.
Qed.

Lemma bind_assoc {A B C} (m : M World A) (k : A -> M World B)
    (k' : B -> M World C) s :
  bind (bind m k) k' s = bind m (fun a => bind (k a) k') s.
Proof.
  unfold bind. destruct (m s) as [[[a|e] s1] t1]; [|reflexivity].
  destruct (k a s1) as [[[b|e] s2] t2]; [|reflexivity].
  destruct (k' b s2) as [[r s3] t3]. rewrite app_assoc; reflexivity.
Qed.

End Laws.

(** ** The hybrid backend: validation of the port profile *)

Section Hybrid.

Context {World : Type} `{HostOps World}.


End Hybrid.

(** ** Stepping through a run *)

Section Stepping.
Context {World : Type} `{HostOps World}.

Lemma later_later {A} t1 t2 (run : result A * state World * list event) :
  Run.later t1 (Run.later t2 run) = Run.later (t1 ++ t2) run.
Proof. unfold Run.later; simpl. rewrite app_assoc; reflexivity. Qed.

Lemma later_nil {A} (run : result A * state World * list event) :
  Run.later [] run = run.
Proof. destruct run as [[r s] t]; reflexivity. Qed.

Lemma outcome_later {A} t (run : result A * state World * list event) :
  outcome (Run.later t run) = outcome run.
Proof. reflexivity. Qed.

Lemma final_later {A} t (run : result A * state World * list event) :
  final (Run.later t run) = final run.
Proof. reflexivity. Qed.

Lemma events_later {A} t (run : result A * state World * list event) :
  events (Run.later t run) = t ++ events run.
Proof. reflexivity. Qed.

Lemma execute_run (c : command) (s : state World) :
  execute c s =
  (if accepted (check_exit_code c) (exit_code c (host s))
   then Return (stdout c (host s), stderr c (host s))
   else Raise (ProcessExecutionError c (exit_code c (host s))
                 (stdout c (host s)) (stderr c (host s))),
   Build_state (globals s) (after c (host s)),
   [EvExecute c]).
Proof.
  unfold execute, exit_code, stdout, stderr, after.
  destruct (spawn c (host s)) as [[[code out] err] w]; simpl.
  destruct (accepted (check_exit_code c) code); reflexivity.
Qed.

Lemma bind_execute {B} (c : command) (k : string * string -> M World B) s :
  bind (execute c) k s =
  if accepted (check_exit_code c) (exit_code c (host s))
  then Run.later [EvExecute c]
         (k (stdout c (host s), stderr c (host s))
            (Build_state (globals s) (after c (host s))))
  else (Raise (ProcessExecutionError c (exit_code c (host s))
                 (stdout c (host s)) (stderr c (host s))),
        Build_state (globals s) (after c (host s)),
        [EvExecute c]).
Proof.
  unfold bind. rewrite execute_run.
  destruct (accepted (check_exit_code c) (exit_code c (host s))); [|reflexivity].
  unfold Run.later.
  destruct (k _ _) as [[r s2] t2]; reflexivity.
Qed.

Lemma bind_log {B} level template (k : unit -> M World B) s :
  bind (log level template) k s = Run.later [EvLog level template] (k tt s).
Proof.
  unfold bind, log, emit, Run.later.
  destruct (k tt s) as [[r s2] t2]; reflexivity.
Qed.

Lemma bind_path_exists {B} path (k : bool -> M World B) s :
  bind (os_path_exists path) k s = k (path_exists path (host s)) s.
Proof.
  unfold bind, os_path_exists.
  destruct (k _ s) as [[r s2] t2]; reflexivity.
Qed.

Lemma bind_get_globals {B} (k : Globals -> M World B) s :
  bind get_globals k s = k (globals s) s.
Proof.
  unfold bind, get_globals.
  destruct (k _ s) as [[r s2] t2]; reflexivity.
Qed.

Lemma bind_raise {A B} e (k : A -> M World B) s :
  bind (raise e) k s = (Raise e, s, []).
Proof. reflexivity. Qed.

Lemma bind_collaborate {B} (c : call) (k : unit -> M World B) s :
  bind (collaborate c) k s =
  match fst (invoke c (host s)) with
  | None => Run.later [EvCall c]
              (k tt (Build_state (globals s) (snd (invoke c (host s)))))
  | Some e => (Raise e, Build_state (globals s) (snd (invoke c (host s))),
               [EvCall c])
  end.
Proof.
  unfold bind, collaborate, Run.later.
  destruct (invoke c (host s)) as [[e|] w]; simpl; [reflexivity|].
  destruct (k tt _) as [[r s2] t2]; reflexivity.
Qed.

Lemma synchronized_run {A} name (body : M World A) s :
  synchronized name body s =
  (outcome (body s), final (body s),
   EvLock name :: events (body s) ++ [EvUnlock name]).
Proof.
  unfold synchronized, outcome, final, events.
  destruct (body s) as [[r s1] t1]; reflexivity.
Qed.

End Stepping.

Ltac py_assoc :=
  match goal with
  | |- context [@bind ?W ?B ?C (@bind ?W ?A ?B ?m ?k) ?k' ?s] =>
      rewrite (@bind_assoc W A B C m k k' s)
  end.

Ltac py_rewrite :=
  first [ rewrite bind_assoc
        | py_assoc
        | rewrite bind_ret
        | rewrite bind_execute
        | rewrite bind_log
        | rewrite bind_path_exists
        | rewrite bind_get_globals
        | rewrite bind_raise
        | rewrite bind_collaborate
        | rewrite later_later
        | rewrite outcome_later
        | rewrite events_later
        | rewrite final_later ].

Ltac py_tidy := cbv beta; cbn [host globals negb fst snd].

Ltac py_step := repeat (py_tidy; py_rewrite); py_tidy.

Ltac split_off_end :=
  simpl;
  first [ exists []; reflexivity
        | eexists [_]; reflexivity
        | eexists [_; _]; reflexivity
        | eexists [_; _; _]; reflexivity
        | eexists [_; _; _; _]; reflexivity
        | eexists [_; _; _; _; _]; reflexivity
        | eexists [_; _; _; _; _; _]; reflexivity ].

(** ** [ensure_vlan] *)

Section Vlan.
Context {World : Type} `{HostOps World}.

(** C5, as the code has it.  When the interface [vlan<vlan_id>] is already
    there, a call of [ensure_vlan] takes the lock, runs the MTU command and
    nothing else (no creation, no MAC, no link-up); it returns the interface
    name when the MTU command exits with an accepted status (0, 2 or 254),
    and raises the [ProcessExecutionError] of the MTU command when it does
    not.  And whether the interface was there or was just created, a call
    that returns has run the MTU command last and returns the interface
    name. *)
Theorem ensure_vlan_idempotent (vlan_num : Py.arg) (parent : string)
    (mac mtu : Py.arg) (s : state World) :
  let interface := ("vlan" ++ Py.str vlan_num)%string in
  let run := linux_net.ensure_vlan vlan_num parent mac mtu s in
  (path_exists ("/sys/class/net/" ++ interface)%string (host s) = true ->
   events run = [EvLock "nova-lock_vlan";
                 EvExecute (mtu_command interface mtu);
                 EvUnlock "nova-lock_vlan"]
   /\ (accepted (CheckCodes [0; 2; 254]%Z)
         (exit_code (mtu_command interface mtu) (host s)) = true ->
       outcome run = Return interface)
   /\ (accepted (CheckCodes [0; 2; 254]%Z)
         (exit_code (mtu_command interface mtu) (host s)) = false ->
       outcome run
       = Raise (ProcessExecutionError (mtu_command interface mtu)
                  (exit_code (mtu_command interface mtu) (host s))
                  (stdout (mtu_command interface mtu) (host s))
                  (stderr (mtu_command interface mtu) (host s)))))
  /\
  (forall x, outcome run = Return x ->
   x = interface /\
   exists before,
     events run = before ++ [EvExecute (mtu_command interface mtu);
                             EvUnlock "nova-lock_vlan"]).
Proof.
  intros interface run. subst run. unfold linux_net.ensure_vlan.
  fold interface. rewrite synchronized_run.
  unfold linux_net.device_exists, linux_net._set_device_mtu.
  change (checking (CheckCodes [0; 2; 254]%Z)
            (cmd [Py.AStr "ip"; Py.AStr "link"; Py.AStr "set";
                  Py.AStr interface; Py.AStr "mtu"; mtu]))
    with (mtu_command interface mtu).
  rewrite bind_path_exists.
  split.
  - intros E. rewrite E. simpl negb. cbv iota. py_step.
    change (check_exit_code (mtu_command interface mtu))
      with (CheckCodes [0; 2; 254]%Z).
    destruct (accepted _ _); repeat split; try reflexivity; congruence.
  - intros x.
    destruct (path_exists _ (host s)); simpl negb; cbv iota; py_step.
    + destruct (accepted _ _); unfold outcome, events; simpl.
      * intros [= <-]; split; [reflexivity|]. split_off_end.
      * discriminate.
    + destruct (accepted _ _); [|discriminate].
      destruct (Py.truthy mac); py_step;
        repeat (destruct (accepted _ _); [|discriminate]; py_step);
        unfold outcome, events; simpl;
        (intros [= <-]; split; [reflexivity|]; split_off_end).
Qed.
End Vlan.

Section VlanNoMtu.

Context {World : Type} `{HostOps World}.

(** C10. With the [mtu] argument left at [None], [ensure_vlan] still runs
    the MTU command, with [None] as its operand: on an interface that is
    already there it is the one command of the call, and in general the call
    ends with it unless one of the commands that create the interface was
    refused before. *)
Theorem ensure_vlan_passes_none_mtu (vlan_num : Py.arg) (parent : string)
    (mac : Py.arg) (s : state World) :
  let interface := ("vlan" ++ Py.str vlan_num)%string in
  let set_mtu_none :=
    {| argv := [Py.AStr "ip"; Py.AStr "link"; Py.AStr "set";
                Py.AStr interface; Py.AStr "mtu"; Py.ANone];
       check_exit_code := CheckCodes [0; 2; 254]%Z;
       run_as_root := false;
       process_input := None |} in
  let run := linux_net.ensure_vlan vlan_num parent mac Py.ANone s in
  (path_exists ("/sys/class/net/" ++ interface)%string (host s) = true ->
   commands (events run) = [set_mtu_none])
  /\
  ((exists before,
      events run = before ++ [EvExecute set_mtu_none;
                              EvUnlock "nova-lock_vlan"])
   \/
   (exists c code out err,
      outcome run = Raise (ProcessExecutionError c code out err) /\
      In c [vlan_add_command parent interface vlan_num;
            set_mac_command interface mac;
            vlan_up_command interface])).
Proof.
  intros interface set_mtu_none run. subst run.
  unfold linux_net.ensure_vlan.
  fold interface. rewrite synchronized_run.
  unfold linux_net.device_exists, linux_net._set_device_mtu.
  change (checking (CheckCodes [0; 2; 254]%Z)
            (cmd [Py.AStr "ip"; Py.AStr "link"; Py.AStr "set";
                  Py.AStr interface; Py.AStr "mtu"; Py.ANone]))
    with set_mtu_none.
  change (as_root (checking (CheckCodes [0; 2; 254]%Z)
            (cmd [Py.AStr "ip"; Py.AStr "link"; Py.AStr "add"; Py.AStr "link";
                  Py.AStr parent; Py.AStr "name"; Py.AStr interface;
                  Py.AStr "type"; Py.AStr "vlan"; Py.AStr "id"; vlan_num])))
    with (vlan_add_command parent interface vlan_num).
  change (as_root (checking (CheckCodes [0; 2; 254]%Z)
            (cmd [Py.AStr "ip"; Py.AStr "link"; Py.AStr "set";
                  Py.AStr interface; Py.AStr "address"; mac])))
    with (set_mac_command interface mac).
  change (as_root (checking (CheckCodes [0; 2; 254]%Z)
            (cmd [Py.AStr "ip"; Py.AStr "link"; Py.AStr "set";
                  Py.AStr interface; Py.AStr "up"])))
    with (vlan_up_command interface).
  rewrite bind_path_exists.
  split.
  - intros E. rewrite E. simpl negb. cbv iota. py_step.
    destruct (accepted _ _); reflexivity.
  - destruct (path_exists _ (host s)); simpl negb; cbv iota; py_step.
    + left. destruct (accepted _ _); unfold events; split_off_end.
    + destruct (accepted _ _);
        [|right; do 4 eexists; split; [reflexivity|simpl; tauto]].
      destruct (Py.truthy mac); py_step;
        repeat (destruct (accepted _ _);
                [|right; do 4 eexists; split; [reflexivity|simpl; tauto]];
                py_step);
        left; destruct (accepted _ _); unfold events; split_off_end.
Qed.

End VlanNoMtu.

(** ** The hybrid backend: plugging *)

#[local] Existing Instance SimHost.sim_host.

Import HybridCommands.

Section HybridPlug.
Context {World : Type} `{HostOps World}.

(** C1, as the code has it. For a VIF whose per-VIF bridge is not there,
    [plug] starts by creating the bridge, and a call that returns has set
    the forward delay to 0, switched STP and multicast snooping off and,
    where the host has the switch for it, disabled IPv6, in this order.  The
    bridge is brought up by the step that follows, which runs only when the
    OVS-side veth end is not there, after the veth pair has been created. *)
Theorem plug_new_bridge (config : OvsHybridPlugin.Config) (vif : objects.VIF)
    (info : objects.InstanceInfo) (s : state World) (interface_id : string) :
  objects.port_profile vif
  = Some (objects.VIFPortProfileOpenVSwitch interface_id) ->
  path_exists ("/sys/class/net/" ++ objects.bridge_name vif)%string (host s)
  = false ->
  let b := objects.bridge_name vif in
  let v2 := snd (OvsHybridPlugin.get_veth_pair_names vif) in
  let run := OvsHybridPlugin.plug config vif info s in
  let created := after_all (new_bridge_commands b) (host s) in
  let no_ipv6 :=
    if path_exists (disable_ipv6_path b) created
    then [disable_ipv6_command b] else [] in
  let configured := after_all no_ipv6 created in
  (exists rest, events run = EvExecute (addbr_command b) :: rest)
  /\
  (outcome run = Return tt ->
   events run
   = map EvExecute (new_bridge_commands b ++ no_ipv6)
     ++ (if path_exists ("/sys/class/net/" ++ v2)%string configured
         then []
         else veth_events config vif info interface_id)).
Proof.
  intros Hp Hb. cbv zeta.
  unfold OvsHybridPlugin.plug.
  unfold OvsHybridPlugin.require_ovs_profile. rewrite Hp.
  rewrite bind_ret. unfold ovs_linux_net.device_exists.
  rewrite bind_path_exists. rewrite Hb. simpl negb. cbv iota.
  py_step. cbv beta; cbn [host globals].
  cbn [after_all fold_left new_bridge_commands].
  fold (addbr_command (objects.bridge_name vif)).
  fold (setfd_command (objects.bridge_name vif)).
  fold (stp_off_command (objects.bridge_name vif)).
  fold (snooping_path (objects.bridge_name vif)).
  fold (snooping_off_command (objects.bridge_name vif)).
  fold (disable_ipv6_path (objects.bridge_name vif)).
  fold (disable_ipv6_command (objects.bridge_name vif)).
  split.
  - destruct (accepted _ _); unfold events; simpl; eauto.
  - destruct (accepted _ _); [|discriminate].
    destruct (accepted _ _); [|discriminate].
    destruct (accepted _ _); [|discriminate].
    destruct (accepted _ _); [|discriminate].
    unfold veth_events. clear Hb.
    destruct (path_exists (disable_ipv6_path _) _); py_step;
      cbn [after_all fold_left];
      [destruct (accepted _ _); [|discriminate]; py_step|];
      (destruct (path_exists _ _); py_step; [intros _; reflexivity|]);
      (destruct (fst (invoke _ _)); [discriminate|]; py_step);
      (destruct (accepted _ _); [|discriminate]);
      (destruct (accepted _ _); [|discriminate]);
      unfold collaborate; py_tidy;
      (destruct (invoke _ _) as [[e|] w]; [discriminate|]);
      intros _; reflexivity.
Qed.
End HybridPlug.

(** C1, refuted as stated: on a host where the bridge of the VIF is gone but
    its OVS-side veth end is still there, [plug] returns, the bridge has
    been created, and no command has brought it up. *)
Lemma plug_leaves_new_bridge_down :
  let s := Examples.fresh_state Examples.veth_left_host in
  let run := OvsHybridPlugin.plug OvsHybridPlugin.default_config
               Examples.vif_abc Examples.instance_1 s in
  path_exists "/sys/class/net/qbrabc" (host s) = false /\
  outcome run = Return tt /\
  path_exists "/sys/class/net/qbrabc" (host (final run)) = true /\
  ~ In (EvExecute (link_up_command "qbrabc")) (events run).
Proof.
  cbv zeta. repeat split; try (vm_compute; reflexivity).
  vm_compute. intuition discriminate.
Qed.

Lemma plug_new_bridge_witness :
  events (OvsHybridPlugin.plug OvsHybridPlugin.default_config
            Examples.vif_abc Examples.instance_1
            (Examples.fresh_state Examples.bare_host))
  = map EvExecute (new_bridge_commands "qbrabc"
                   ++ [disable_ipv6_command "qbrabc"])
    ++ veth_events OvsHybridPlugin.default_config Examples.vif_abc
         Examples.instance_1 "port-1".
Proof.
  pose proof (plug_new_bridge OvsHybridPlugin.default_config
                Examples.vif_abc Examples.instance_1
                (Examples.fresh_state Examples.bare_host) "port-1"
                eq_refl eq_refl) as [_ Hrun].
  exact (Hrun eq_refl).
Defined.

(** ** The properties above, on concrete hosts *)



Lemma ensure_vlan_idempotent_witness :
  let run := linux_net.ensure_vlan (Py.AInt 5) "eth0" Py.ANone (Py.AInt 1500)
               (Examples.fresh_state Examples.vlan5_host) in
  events run = [EvLock "nova-lock_vlan";
                EvExecute (mtu_command "vlan5" (Py.AInt 1500));
                EvUnlock "nova-lock_vlan"]
  /\ outcome run = Return "vlan5".
Proof.
  pose proof (ensure_vlan_idempotent (Py.AInt 5) "eth0" Py.ANone
                (Py.AInt 1500) (Examples.fresh_state Examples.vlan5_host))
    as [Hthere _].
  destruct (Hthere eq_refl) as [Hevents [Hreturn _]].
  split; [exact Hevents | exact (Hreturn eq_refl)].
Defined.

(** C5, refuted as stated: [vlan5] is there and [ensure_vlan] is called with
    [mtu] left at its default; the one command of the call is
    [ip link set vlan5 mtu None], which [ip] refuses with status 255, and
    the call raises instead of returning the interface name. *)
Lemma ensure_vlan_default_mtu_raises :
  let s := Examples.fresh_state Examples.vlan5_host in
  let run := linux_net.ensure_vlan (Py.AInt 5) "eth0" Py.ANone Py.ANone s in
  path_exists "/sys/class/net/vlan5" (host s) = true
  /\ commands (events run) = [mtu_command "vlan5" Py.ANone]
  /\ exit_code (mtu_command "vlan5" Py.ANone) (host s) = 255%Z
  /\ (exists out err,
        outcome run
        = Raise (ProcessExecutionError (mtu_command "vlan5" Py.ANone) 255
                   out err))
  /\ outcome run <> Return "vlan5".
Proof.
  cbv zeta. repeat split; try (vm_compute; reflexivity).
  - do 2 eexists. vm_compute. reflexivity.
  - vm_compute. discriminate.
Qed.

Lemma ensure_vlan_passes_none_mtu_witness :
  commands (events (linux_net.ensure_vlan (Py.AInt 5) "eth0" Py.ANone Py.ANone
                      (Examples.fresh_state Examples.vlan5_host)))
  = [mtu_command "vlan5" Py.ANone].
Proof.
  pose proof (ensure_vlan_passes_none_mtu (Py.AInt 5) "eth0" Py.ANone
                (Examples.fresh_state Examples.vlan5_host)) as [Hthere _].
  exact (Hthere eq_refl).
Defined.

(** ** The registry and the dispatcher *)

Section RegistryFacts.

Import stevedore Registry.

Lemma first_named_none n l :
  first_named n l = None <-> ~ In n (map name l).
Proof.
  induction l as [|e r IH]; simpl.
  - tauto.
  - destruct (String.eqb (name e) n) eqn:E.
    + apply String.eqb_eq in E. split; [discriminate|]. intros Hn; tauto.
    + apply String.eqb_neq in E. rewrite IH. tauto.
Qed.

Lemma names_set_first n o l : map name (set_first n o l) = map name l.
Proof.
  induction l as [|e r IH]; simpl; [reflexivity|].
  destruct (String.eqb (name e) n); simpl; [reflexivity|].
  rewrite IH; reflexivity.
Qed.

Lemma first_named_set_first_same n o l :
  In n (map name l) ->
  exists e, first_named n (set_first n o l) = Some e /\ obj e = Some o.
Proof.
  induction l as [|e r IH]; simpl; [tauto|].
  intros Hin. destruct (String.eqb (name e) n) eqn:E; simpl.
  - rewrite E. eexists; split; reflexivity.
  - rewrite E. apply IH. apply String.eqb_neq in E. tauto.
Qed.

Lemma first_named_set_first_other n n' o l :
  n' <> n -> first_named n' (set_first n o l) = first_named n' l.
Proof.
  intros Hne. induction l as [|e r IH]; simpl; [reflexivity|].
  destruct (String.eqb (name e) n) eqn:E; simpl.
  - apply String.eqb_eq in E.
    destruct (String.eqb (name e) n') eqn:E'; [|reflexivity].
    apply String.eqb_eq in E'. congruence.
  - rewrite IH; reflexivity.
Qed.

Lemma names_rev m : names (rev m) = rev (names m).
Proof. unfold names. apply map_rev. Qed.

Lemma getitem_none m n : getitem m n = None <-> ~ In n (names m).
Proof.
  unfold getitem. rewrite first_named_none.
  fold (names (rev m)). rewrite names_rev, <- in_rev. tauto.
Qed.

Lemma names_setitem_obj m n o : names (setitem_obj m n o) = names m.
Proof.
  unfold setitem_obj. rewrite names_rev. unfold names at 1.
  rewrite names_set_first. fold (names (rev m)).
  rewrite names_rev, rev_involutive. reflexivity.
Qed.

Lemma bound_setitem_same m n o :
  In n (names m) -> bound (setitem_obj m n o) n.
Proof.
  intros Hin. unfold bound, getitem, setitem_obj.
  rewrite rev_involutive.
  destruct (first_named_set_first_same n o (rev m)) as [e [He Ho]].
  - fold (names (rev m)). rewrite names_rev, <- in_rev. exact Hin.
  - exists e, o. split; assumption.
Qed.

Lemma bound_setitem_other m n n' o :
  bound m n' -> bound (setitem_obj m n o) n'.
Proof.
  intros Hb. destruct (string_dec n' n) as [->|Hne].
  - apply bound_setitem_same. destruct Hb as [e [o' [He _]]].
    destruct (in_dec string_dec n (names m)) as [Hin|Hout]; [exact Hin|].
    apply getitem_none in Hout. congruence.
  - destruct Hb as [e [o' [He Ho]]]. exists e, o'. split; [|exact Ho].
    unfold getitem, setitem_obj in *. rewrite rev_involutive.
    rewrite first_named_set_first_other; assumption.
Qed.

End RegistryFacts.

Section Initialize.

Context {World : Type} `{HostOps World}.

Import Registry.

Lemma bind_set_ext_manager {B} m (k : unit -> M World B) s :
  bind (os_vif.set_ext_manager m) k s =
  k tt (Build_state
          {| _EXT_MANAGER := m;
             _IPTABLES_MANAGER := _IPTABLES_MANAGER (globals s);
             builtins_gettext := builtins_gettext (globals s) |}
          (host s)).
Proof.
  unfold os_vif.set_ext_manager. rewrite bind_assoc, bind_get_globals.
  unfold bind, set_globals.
  destruct (k tt _) as [[r s2] t2]; reflexivity.
Qed.

Lemma set_ext_manager_run m (s : state World) :
  os_vif.set_ext_manager m s =
  (Return tt,
   Build_state
     {| _EXT_MANAGER := m;
        _IPTABLES_MANAGER := _IPTABLES_MANAGER (globals s);
        builtins_gettext := builtins_gettext (globals s) |}
     (host s), []).
Proof. reflexivity. Qed.

Lemma bind_new_extension_manager {B} ns
    (k : stevedore.ExtensionManager -> M World B) s :
  bind (os_vif.new_extension_manager ns) k s =
  Run.later [EvDiscover ns] (k (stevedore.fresh (entry_points ns (host s))) s).
Proof.
  unfold bind, os_vif.new_extension_manager, Run.later.
  destruct (k _ s) as [[r s2] t2]; reflexivity.
Qed.

Lemma bind_load_plugin {B} c n (k : stevedore.PluginObj -> M World B) s :
  bind (os_vif.load_plugin c n) k s =
  match fst (load c n (host s)) with
  | inr o => Run.later [EvLoad n]
               (k o (Build_state (globals s) (snd (load c n (host s)))))
  | inl e => (Raise e, Build_state (globals s) (snd (load c n (host s))),
              [EvLoad n])
  end.
Proof.
  unfold bind, os_vif.load_plugin, Run.later.
  destruct (load c n (host s)) as [[e|o] w]; simpl; [reflexivity|].
  destruct (k o _) as [[r s2] t2]; reflexivity.
Qed.

Lemma load_one_returns n (s : state World) m :
  _EXT_MANAGER (globals s) = Some m ->
  outcome (os_vif.load_one n s) = Return tt ->
  exists o w,
    final (os_vif.load_one n s)
    = Build_state
        {| _EXT_MANAGER := Some (stevedore.setitem_obj m n o);
           _IPTABLES_MANAGER := _IPTABLES_MANAGER (globals s);
           builtins_gettext := builtins_gettext (globals s) |} w.
Proof.
  intros Hm. unfold os_vif.load_one.
  rewrite bind_get_globals, Hm.
  destruct (stevedore.getitem m n) as [e|] eqn:Hget; [|discriminate].
  rewrite bind_load_plugin.
  destruct (fst (load _ _ _)) as [err|o]; [discriminate|].
  rewrite bind_get_globals. py_tidy. rewrite Hm, Hget.
  rewrite set_ext_manager_run. intros _.
  eexists; eexists; reflexivity.
Qed.

Lemma load_all l : forall (s : state World) m,
  _EXT_MANAGER (globals s) = Some m ->
  incl l (stevedore.names m) ->
  outcome (for_each l os_vif.load_one s) = Return tt ->
  exists m',
    _EXT_MANAGER (globals (final (for_each l os_vif.load_one s))) = Some m'
    /\ stevedore.names m' = stevedore.names m
    /\ (forall n, In n l -> bound m' n)
    /\ (forall n, bound m n -> bound m' n).
Proof.
  induction l as [|n r IH]; intros s m Hm Hl.
  - intros _. exists m. simpl. repeat split; [exact Hm|tauto|tauto].
  - simpl for_each. unfold bind.
    destruct (os_vif.load_one n s) as [[[[]|e] s1] t1] eqn:E1;
      [|discriminate].
    pose proof (load_one_returns n s m Hm) as Hone.
    rewrite E1 in Hone. destruct (Hone eq_refl) as [o [w Hs1]].
    unfold final in Hs1; simpl in Hs1.
    specialize (IH s1 (stevedore.setitem_obj m n o)).
    destruct (for_each r os_vif.load_one s1) as [[r2 s2] t2] eqn:E2.
    unfold outcome, final in *; simpl in *.
    intros Hr2. destruct IH as [m' [Hm' [Hn [Hb Hmono]]]].
    + rewrite Hs1; reflexivity.
    + rewrite names_setitem_obj. intros x Hx. apply Hl. right; exact Hx.
    + exact Hr2.
    + exists m'. split; [exact Hm'|]. split.
      * rewrite Hn. apply names_setitem_obj.
      * split.
        -- intros x [<-|Hx]; [|apply Hb; exact Hx].
           apply Hmono. apply bound_setitem_same. apply Hl. left; reflexivity.
        -- intros x Hx. apply Hmono. apply bound_setitem_other. exact Hx.
Qed.

Lemma names_fresh found : stevedore.names (stevedore.fresh found) = map fst found.
Proof.
  unfold stevedore.names, stevedore.fresh. rewrite map_map. reflexivity.
Qed.

(** C8. Once the registry is set, [initialize(reset=False)] does nothing: no
    event, and the state is the one before.  [initialize(reset=True)] runs
    exactly as from a state without a registry, starting with discovery, so
    nothing of the old entries is kept; when it returns, the registry holds
    the plugins discovered on the host, each bound to a plugin object. *)
Theorem initialize_repeated (s : state World) :
  (forall m, _EXT_MANAGER (globals s) = Some m ->
   os_vif.initialize false s = (Return tt, s, []))
  /\
  os_vif.initialize true s = os_vif.initialize true (forget s)
  /\
  (exists rest, events (os_vif.initialize true s) = EvDiscover "os_vif" :: rest)
  /\
  (outcome (os_vif.initialize true s) = Return tt ->
   exists m',
     _EXT_MANAGER (globals (final (os_vif.initialize true s))) = Some m'
     /\ stevedore.names m' = map fst (entry_points "os_vif" (host s))
     /\ forall n, In n (stevedore.names m') -> bound m' n).
Proof.
  split; [|split; [|split]].
  - intros m Hm. unfold os_vif.initialize.
    rewrite bind_get_globals, Hm. reflexivity.
  - unfold os_vif.initialize, forget.
    rewrite !bind_get_globals. cbn [orb].
    rewrite !bind_new_extension_manager.
    rewrite !bind_set_ext_manager. reflexivity.
  - unfold os_vif.initialize.
    rewrite bind_get_globals. cbn [orb].
    rewrite bind_new_extension_manager. unfold events, Run.later; simpl.
    eexists; reflexivity.
  - unfold os_vif.initialize.
    rewrite bind_get_globals. cbn [orb].
    rewrite bind_new_extension_manager, bind_set_ext_manager.
    rewrite outcome_later, final_later.
    set (m0 := stevedore.fresh (entry_points "os_vif" (host s))).
    set (s0 := Build_state _ (host s)).
    pose proof (load_all (stevedore.names m0) s0 m0 eq_refl
                  (incl_refl _)) as Hall.
    unfold bind.
    destruct (for_each (stevedore.names m0) os_vif.load_one s0)
      as [[[[]|e] s1] t1] eqn:E1; [|discriminate].
    unfold outcome, final in Hall; simpl in Hall.
    destruct (Hall eq_refl) as [m' [Hm' [Hn [Hb _]]]].
    unfold collaborate.
    destruct (invoke register_all (host s1)) as [[e|] w]; [discriminate|].
    intros _. unfold final; simpl.
    exists m'. split; [exact Hm'|]. split.
    + rewrite Hn. apply names_fresh.
    + intros n Hin. apply Hb. rewrite <- Hn. exact Hin.
Qed.

End Initialize.

Section Dispatch.

Context {World : Type} `{HostOps World}.

Variable methods : stevedore.PluginObj -> plugin.PluginBase World.

(** C2. [plug] before [initialize] raises [LibraryNotInitialized]; with a
    registry in which the backend name of the VIF is not registered it
    raises [NoMatchingPlugin] for that name, in both cases without any
    effect; and when the plugin object found raises [err] from its [plug],
    the caller gets [PlugException] with the VIF and [err], after the
    backend's own effects and the error log. *)
Theorem plug_error_taxonomy (vif : objects.VIF) (info : objects.InstanceInfo)
    (s : state World) :
  (_EXT_MANAGER (globals s) = None ->
   os_vif.plug methods vif info s = (Raise LibraryNotInitialized, s, []))
  /\
  (forall m,
   _EXT_MANAGER (globals s) = Some m ->
   ~ In (objects.plugin vif) (stevedore.names m) ->
   os_vif.plug methods vif info s
   = (Raise (NoMatchingPlugin (objects.plugin vif)), s, []))
  /\
  (forall m e p err,
   _EXT_MANAGER (globals s) = Some m ->
   stevedore.getitem m (objects.plugin vif) = Some e ->
   stevedore.obj e = Some p ->
   outcome (plugin.plug (methods p) vif info s) = Raise err ->
   os_vif.plug methods vif info s
   = (Raise (PlugException vif err),
      final (plugin.plug (methods p) vif info s),
      [EvLog DEBUG "Plugging vif %s"]
      ++ events (plugin.plug (methods p) vif info s)
      ++ [EvLog ERROR "Failed to plug vif %(vif)s. Got error: %(err)s"])).
Proof.
  split; [|split].
  - intros Hm. unfold os_vif.plug, os_vif.resolve. 
    py_assoc. rewrite bind_get_globals, Hm. reflexivity.
  - intros m Hm Hout. unfold os_vif.plug, os_vif.resolve.
    py_assoc. rewrite bind_get_globals, Hm.
    apply getitem_none in Hout. rewrite Hout. reflexivity.
  - intros m e p err Hm He Hp Herr. unfold os_vif.plug, os_vif.resolve.
    py_assoc. rewrite bind_get_globals, Hm, He, bind_ret, Hp.
    unfold try_except, os_vif.method. rewrite bind_log.
    unfold bind at 1.
    destruct (plugin.plug (methods p) vif info s) as [[[[]|e'] s1] t1];
      unfold outcome in Herr; simpl in Herr; [discriminate|].
    injection Herr as ->. unfold final, events; simpl.
    reflexivity.
Qed.

End Dispatch.

Lemma initialize_repeated_witness :
  os_vif.initialize false Examples.initialized
  = (Return tt, Examples.initialized, [])
  /\
  exists m',
    _EXT_MANAGER (globals (final (os_vif.initialize true Examples.initialized)))
    = Some m'
    /\ stevedore.names m' = ["linux_bridge"; "ovs_hybrid"]
    /\ forall n, In n (stevedore.names m') -> Registry.bound m' n.
Proof.
  pose proof (initialize_repeated Examples.initialized)
    as [Hnoop [_ [_ Hreset]]].
  split.
  - eapply Hnoop. vm_compute. reflexivity.
  - exact (Hreset eq_refl).
Defined.

Lemma plug_error_taxonomy_witness :
  os_vif.plug Examples.hybrid_methods Examples.vif_abc Examples.instance_1
    (Examples.fresh_state Examples.plugin_host)
  = (Raise LibraryNotInitialized, Examples.fresh_state Examples.plugin_host, [])
  /\
  os_vif.plug Examples.hybrid_methods
    (Examples.for_plugin "midonet" Examples.vif_abc) Examples.instance_1
    Examples.initialized
  = (Raise (NoMatchingPlugin "midonet"), Examples.initialized, [])
  /\
  outcome (os_vif.plug Examples.hybrid_methods
             (Examples.without_profile Examples.vif_abc) Examples.instance_1
             Examples.initialized)
  = Raise (PlugException (Examples.without_profile Examples.vif_abc)
             MissingPortProfile).
Proof.
  split; [|split].
  - apply (plug_error_taxonomy Examples.hybrid_methods Examples.vif_abc
             Examples.instance_1 (Examples.fresh_state Examples.plugin_host)).
    reflexivity.
  - eapply (plug_error_taxonomy Examples.hybrid_methods
              (Examples.for_plugin "midonet" Examples.vif_abc)
              Examples.instance_1 Examples.initialized).
    + vm_compute. reflexivity.
    + vm_compute. intuition discriminate.
  - pose proof (plug_error_taxonomy Examples.hybrid_methods
                  (Examples.without_profile Examples.vif_abc)
                  Examples.instance_1 Examples.initialized)
      as [_ [_ Hwrap]].
    erewrite Hwrap; [reflexivity|vm_compute; reflexivity..].
Defined.

(** ** [ensure_bridge]: attaching the interface *)

Import BridgeCommands.

Section Attach.
Context {World : Type} `{HostOps World}.

Lemma raise_failed_to_add_raises {A} err (s : state World) :
  exists e, @linux_net.raise_failed_to_add World A err s = (Raise e, s, []).
Proof.
  unfold linux_net.raise_failed_to_add. rewrite bind_get_globals.
  destruct (builtins_gettext (globals s)) as [gettext|].
  - destruct (PyStr.percent_s _ _ _); eexists; reflexivity.
  - eexists; reflexivity.
Qed.

Lemma attach_refused bridge interface (s : state World) :
  ~ tolerated interface bridge (stderr (addif_command bridge interface) (host s)) ->
  (exists e, outcome (linux_net.attach_interface bridge interface s) = Raise e)
  /\ events (linux_net.attach_interface bridge interface s)
     = [EvLog DEBUG "Adding interface %(interface)s to bridge %(bridge)s";
        EvExecute (addif_command bridge interface)].
Proof.
  intros Hno. unfold linux_net.attach_interface.
  rewrite bind_log, bind_execute. cbn [accepted check_exit_code addif_command as_root checking].
  py_step.
  fold (addif_command bridge interface).
  destruct (String.eqb_spec (stderr (addif_command bridge interface) (host s)) "")
    as [E1|E1]; [exfalso; apply Hno; left; exact E1|].
  destruct (String.eqb_spec (stderr (addif_command bridge interface) (host s))
              (linux_net.already_member_msg interface bridge))
    as [E2|E2]; [exfalso; apply Hno; right; exact E2|].
  cbn [negb andb].
  destruct (raise_failed_to_add_raises (A:=unit)
              (stderr (addif_command bridge interface) (host s))
              (Build_state (globals s)
                 (after (addif_command bridge interface) (host s))))
    as [e He].
  rewrite (bind_raises _ _ _ _ _ _ He).
  unfold outcome, events, Run.later; simpl.
  split; [exists e; reflexivity|reflexivity].
Qed.

Lemma attach_tolerated bridge interface (s : state World) :
  tolerated interface bridge (stderr (addif_command bridge interface) (host s)) ->
  exists rest,
    events (linux_net.attach_interface bridge interface s)
    = [EvLog DEBUG "Adding interface %(interface)s to bridge %(bridge)s";
       EvExecute (addif_command bridge interface);
       EvExecute (interface_up_command interface)] ++ rest.
Proof.
  intros Hyes. unfold linux_net.attach_interface.
  rewrite bind_log, bind_execute.
  cbn [accepted check_exit_code addif_command as_root checking].
  py_tidy. fold (addif_command bridge interface).
  assert (Hpass :
    andb (negb (String.eqb (stderr (addif_command bridge interface) (host s)) ""))
         (negb (String.eqb (stderr (addif_command bridge interface) (host s))
                  (linux_net.already_member_msg interface bridge))) = false).
  { destruct Hyes as [-> | ->].
    - reflexivity.
    - rewrite String.eqb_refl. apply andb_false_r. }
  rewrite Hpass. py_step.
  cbn [accepted check_exit_code as_root checking].
  fold (interface_up_command interface).
  rewrite !events_later.
  eexists. simpl. reflexivity.
Qed.

Lemma bind_events_prefix {A B} (m : M World A) (k : A -> M World B) s :
  exists rest, events (bind m k s) = events (m s) ++ rest.
Proof.
  unfold bind, events. destruct (m s) as [[[a|e] s1] t1]; simpl.
  - destruct (k a s1) as [[r s2] t2]; simpl. exists t2; reflexivity.
  - exists []. rewrite app_nil_r. reflexivity.
Qed.

Lemma bind_raised {A B} (m : M World A) (k : A -> M World B) s e :
  outcome (m s) = Raise e ->
  outcome (bind m k s) = Raise e /\ events (bind m k s) = events (m s).
Proof.
  unfold bind, events, outcome. destruct (m s) as [[[a|e'] s1] t1]; simpl.
  - discriminate.
  - intros [= ->]. split; reflexivity.
Qed.

Lemma bridge_prelude {B} bridge (K : unit -> M World B) (s : state World) :
  all_accepted (pending bridge (host s)) (host s) = true ->
  bind (linux_net.device_exists bridge)
    (fun present =>
       bind (if negb present then
               log DEBUG "Starting Bridge %s" ;;
               execute (as_root (cmd [Py.AStr "brctl"; Py.AStr "addbr";
                                      Py.AStr bridge])) ;;
               execute (as_root (cmd [Py.AStr "brctl"; Py.AStr "setfd";
                                      Py.AStr bridge; Py.AInt 0])) ;;
               execute (as_root (cmd [Py.AStr "brctl"; Py.AStr "stp";
                                      Py.AStr bridge; Py.AStr "off"])) ;;
               execute (as_root (cmd [Py.AStr "ip"; Py.AStr "link";
                                      Py.AStr "set"; Py.AStr bridge;
                                      Py.AStr "up"])) ;;
               ret tt
             else ret tt) K) s
  = Run.later (starting_events bridge (host s))
      (K tt (Build_state (globals s)
               (after_all (pending bridge (host s)) (host s)))).
Proof.
  unfold linux_net.device_exists. rewrite bind_path_exists.
  unfold pending, starting_events.
  destruct (path_exists _ (host s)); py_tidy; cbn [after_all fold_left].
  - intros _. rewrite bind_ret, later_nil. destruct s; reflexivity.
  - cbn [all_accepted creation_commands]. intros Hacc.
    apply andb_prop in Hacc as [H1 Hacc].
    apply andb_prop in Hacc as [H2 Hacc].
    apply andb_prop in Hacc as [H3 Hacc].
    apply andb_prop in Hacc as [H4 _].
    unfold addbr_command, setfd_command, stp_off_command, link_up_command
      in *.
    py_step. rewrite H1. py_step. rewrite H2. py_step. rewrite H3.
    py_step. rewrite H4. py_step. reflexivity.
Qed.


(** C6. In a call of [ensure_bridge] with a non-empty interface that gets
    to the attach step (the commands creating the bridge, if any, having
    been accepted), whatever [brctl addif] exits with: when its error output
    is neither empty nor the message that the interface is already a member
    of a bridge, the call raises and the attach command is the last thing it
    ran; when the error output is empty or is that message, the call goes on
    to bring the interface up. *)
Theorem attach_error_tolerance (bridge : string) (c : ascii) (r : string)
    (gateway filtering : bool) (s : state World) :
  let interface := String c r in
  let ready := after_all (pending bridge (host s)) (host s) in
  let err := stderr (addif_command bridge interface) ready in
  let run := linux_net.ensure_bridge bridge (Some interface) gateway
               filtering s in
  all_accepted (pending bridge (host s)) (host s) = true ->
  (~ tolerated interface bridge err ->
   (exists e, outcome run = Raise e) /\
   events run
   = EvLock "nova-lock_bridge"
     :: starting_events bridge (host s)
     ++ [EvLog DEBUG "Adding interface %(interface)s to bridge %(bridge)s";
         EvExecute (addif_command bridge interface);
         EvUnlock "nova-lock_bridge"])
  /\
  (tolerated interface bridge err ->
   exists rest,
     events run
     = EvLock "nova-lock_bridge"
       :: starting_events bridge (host s)
       ++ [EvLog DEBUG "Adding interface %(interface)s to bridge %(bridge)s";
           EvExecute (addif_command bridge interface);
           EvExecute (interface_up_command interface)]
       ++ rest).
Proof.
  cbv zeta. intros Hacc. unfold linux_net.ensure_bridge.
  rewrite synchronized_run. rewrite (bridge_prelude _ _ _ Hacc).
  set (s1 := Build_state (globals s)
               (after_all (pending bridge (host s)) (host s))).
  change (after_all (pending bridge (host s)) (host s)) with (host s1).
  rewrite outcome_later, events_later.
  split.
  - intros Hno.
    destruct (attach_refused bridge (String c r) s1 Hno) as [[e He] Hev].
    destruct (bind_raised (linux_net.attach_interface bridge (String c r))
                (fun _ => if filtering
                          then linux_net.apply_filtering bridge gateway
                          else ret tt) s1 e He) as [Ho Hevs].
    unfold outcome at 1, events at 1. simpl fst. simpl snd.
    split; [exists e; exact Ho|]. rewrite Hevs, Hev.
    rewrite <- app_assoc. reflexivity.
  - intros Hyes.
    destruct (attach_tolerated bridge (String c r) s1 Hyes) as [rest Hev].
    destruct (bind_events_prefix
                (linux_net.attach_interface bridge (String c r))
                (fun _ => if filtering
                          then linux_net.apply_filtering bridge gateway
                          else ret tt) s1) as [rest' Hevs].
    unfold events at 1. simpl snd. rewrite Hevs, Hev.
    exists (rest ++ rest' ++ [EvUnlock "nova-lock_bridge"]).
    f_equal. rewrite <- !app_assoc. reflexivity.
Qed.

End Attach.

(** ** [ensure_bridge]: filtering *)

Section Filtering.
Context {World : Type} `{HostOps World}.

Import Run.

Lemma keeps_ret {A} (a : A) : keeps_globals (@ret World A a).
Proof. intros s; reflexivity. Qed.

Lemma keeps_raise {A} e : keeps_globals (@raise World A e).
Proof. intros s; reflexivity. Qed.

Lemma keeps_log level template : keeps_globals (@log World level template).
Proof. intros s; reflexivity. Qed.

Lemma keeps_get_globals : keeps_globals (@get_globals World).
Proof. intros s; reflexivity. Qed.

Lemma keeps_path_exists p : keeps_globals (os_path_exists p).
Proof. intros s; reflexivity. Qed.

Lemma keeps_execute c : keeps_globals (execute c).
Proof. intros s. rewrite execute_run. reflexivity. Qed.

Lemma keeps_collaborate c : keeps_globals (collaborate c).
Proof.
  intros s. unfold collaborate.
  destruct (invoke c (host s)) as [[e|] w]; reflexivity.
Qed.

Lemma keeps_bind {A B} (m : M World A) (k : A -> M World B) :
  keeps_globals m -> (forall a, keeps_globals (k a)) ->
  keeps_globals (bind m k).
Proof.
  intros Hm Hk s. unfold bind. specialize (Hm s).
  destruct (m s) as [[[a|e] s1] t1]; simpl in *; [|exact Hm].
  specialize (Hk a s1). destruct (k a s1) as [[r s2] t2]; simpl in *.
  congruence.
Qed.

Lemma keeps_for_each {A} (l : list A) (body : A -> M World unit) :
  (forall a, keeps_globals (body a)) -> keeps_globals (for_each l body).
Proof.
  intros Hb. induction l as [|a r IH]; simpl.
  - apply keeps_ret.
  - apply keeps_bind; [apply Hb|intros _; exact IH].
Qed.

Lemma keeps_delete_via_routes lines : forall old,
  keeps_globals (linux_net.delete_via_routes lines old).
Proof.
  induction lines as [|line rest IH]; intros old; simpl.
  - apply keeps_ret.
  - destruct (_ && _).
    + apply keeps_bind; [apply keeps_execute|intros _; apply IH].
    + apply IH.
Qed.

Lemma keeps_move_address bridge line :
  keeps_globals (linux_net.move_address bridge line).
Proof.
  unfold linux_net.move_address.
  destruct (PyStr.split line) as [|first rest]; [apply keeps_ret|].
  destruct (String.eqb first "inet"); [|apply keeps_ret].
  destruct (rev (first :: rest)) as [|last [|before_last tail]];
    try apply keeps_raise.
  repeat (apply keeps_bind; [apply keeps_execute|intros _]).
  apply keeps_ret.
Qed.

Lemma keeps_raise_failed_to_add {A} err :
  keeps_globals (@linux_net.raise_failed_to_add World A err).
Proof.
  unfold linux_net.raise_failed_to_add.
  apply keeps_bind; [apply keeps_get_globals|intros g].
  destruct (builtins_gettext g); [|apply keeps_raise].
  destruct (PyStr.percent_s _ _ _); apply keeps_raise.
Qed.

Lemma keeps_attach_interface bridge interface :
  keeps_globals (linux_net.attach_interface bridge interface).
Proof.
  unfold linux_net.attach_interface.
  apply keeps_bind; [apply keeps_log|intros _].
  apply keeps_bind; [apply keeps_execute|intros added].
  apply keeps_bind.
  { destruct (_ && _); [apply keeps_raise_failed_to_add|apply keeps_ret]. }
  intros _.
  apply keeps_bind; [apply keeps_execute|intros _].
  apply keeps_bind; [apply keeps_execute|intros shown].
  apply keeps_bind; [apply keeps_delete_via_routes|intros old].
  apply keeps_bind; [apply keeps_execute|intros listed].
  apply keeps_bind.
  { apply keeps_for_each. intros line. apply keeps_move_address. }
  intros _. apply keeps_for_each. intros f.
  apply keeps_bind; [apply keeps_execute|intros _; apply keeps_ret].
Qed.

Lemma filtering_without_manager (P : M World unit) bridge gateway s :
  keeps_globals P ->
  _IPTABLES_MANAGER (globals s) = None ->
  bind P (fun _ => linux_net.apply_filtering bridge gateway) s
  = (match outcome (P s) with
     | Return _ => Raise no_manager
     | Raise e => Raise e
     end, final (P s), events (P s)).
Proof.
  intros HP Hnone. unfold bind, outcome, final, events.
  specialize (HP s). destruct (P s) as [[[[]|e] s1] t1]; simpl in *;
    [|reflexivity].
  unfold linux_net.apply_filtering. rewrite bind_get_globals.
  rewrite HP, Hnone. unfold raise. rewrite app_nil_r. reflexivity.
Qed.

Lemma bind_ret_tt (P : M World unit) s : bind P (fun _ => ret tt) s = P s.
Proof.
  unfold bind. destruct (P s) as [[[[]|e] s1] t1]; simpl; [|reflexivity].
  rewrite app_nil_r. reflexivity.
Qed.

(** C9. [configure] stores the manager it is given, and nothing else sets
    it.  While the stored manager is [None], a call of [ensure_bridge] with
    filtering never returns: it does everything the same call without
    filtering does (same events, same final state), and where that call
    would return it raises the attribute error of reading [None]; so a
    bridge that was missing has been created by then. *)
Theorem unconfigured_filtering_fails (bridge : string)
    (interface : option string) (gateway : bool) (s : state World) :
  let filtered := linux_net.ensure_bridge bridge interface gateway true s in
  let plain := linux_net.ensure_bridge bridge interface gateway false s in
  (forall mgr,
     linux_net.configure mgr s
     = (Return tt,
        Build_state {| _EXT_MANAGER := _EXT_MANAGER (globals s);
                       _IPTABLES_MANAGER := mgr;
                       builtins_gettext := builtins_gettext (globals s) |}
          (host s), []))
  /\
  (_IPTABLES_MANAGER (globals s) = None ->
   outcome filtered = match outcome plain with
                      | Return _ => Raise no_manager
                      | Raise e => Raise e
                      end
   /\ final filtered = final plain
   /\ events filtered = events plain
   /\ (path_exists ("/sys/class/net/" ++ bridge)%string (host s) = false ->
       exists rest,
         events filtered = EvLock "nova-lock_bridge"
                           :: EvLog DEBUG "Starting Bridge %s"
                           :: EvExecute (addbr_command bridge) :: rest)).
Proof.
  cbv zeta. split.
  - intros mgr. reflexivity.
  - intros Hnone. unfold linux_net.ensure_bridge.
    rewrite !synchronized_run. unfold linux_net.device_exists.
    rewrite !bind_path_exists.
    set (present := path_exists _ (host s)).
    match goal with
    | |- context [bind ?blk (fun _ => bind ?att
                    (fun _ => linux_net.apply_filtering _ _)) s] =>
        set (block := blk); set (attach := att)
    end.
    rewrite <- (bind_assoc block (fun _ => attach)
                  (fun _ => linux_net.apply_filtering bridge gateway) s).
    rewrite <- (bind_assoc block (fun _ => attach) (fun _ => ret tt) s).
    rewrite bind_ret_tt.
    assert (Hkeep : keeps_globals (bind block (fun _ => attach))).
    { apply keeps_bind.
      - subst block. destruct (negb present); [|apply keeps_ret].
        apply keeps_bind; [apply keeps_log|intros _].
        repeat (apply keeps_bind; [apply keeps_execute|intros _]).
        apply keeps_ret.
      - intros _. subst attach.
        destruct interface as [[|c r]|]; try apply keeps_ret.
        apply keeps_attach_interface. }
    rewrite (filtering_without_manager _ bridge gateway s Hkeep Hnone).
    unfold outcome at 1 3, final at 1 3, events at 1 3. simpl fst; simpl snd.
    repeat split.
    intros Habsent. subst present block. rewrite Habsent. py_tidy.
    unfold events at 1. simpl snd. py_step.
    destruct (accepted _ _); py_step; unfold events; simpl;
      eexists; reflexivity.
Qed.

End Filtering.

Lemma attach_error_tolerance_witness :
  (exists e,
     outcome (linux_net.ensure_bridge "br100" (Some "eth9") true false
                (Examples.fresh_state Examples.bare_host)) = Raise e)
  /\
  (exists rest,
     events (linux_net.ensure_bridge "br0" (Some "eth0") true false
               (Examples.fresh_state Examples.enslaved_host))
     = [EvLock "nova-lock_bridge";
        EvLog DEBUG "Adding interface %(interface)s to bridge %(bridge)s";
        EvExecute (addif_command "br0" "eth0");
        EvExecute (interface_up_command "eth0")] ++ rest).
Proof.
  split.
  - assert (Hready :
      all_accepted (pending "br100" Examples.bare_host) Examples.bare_host
      = true) by (vm_compute; reflexivity).
    destruct (attach_error_tolerance "br100" "e"%char "th9" true false
                (Examples.fresh_state Examples.bare_host) Hready)
      as [Hrefused _].
    apply Hrefused. intros [E|E]; vm_compute in E; discriminate E.
  - assert (Hready :
      all_accepted (pending "br0" Examples.enslaved_host)
        Examples.enslaved_host = true) by (vm_compute; reflexivity).
    destruct (attach_error_tolerance "br0" "e"%char "th0" true false
                (Examples.fresh_state Examples.enslaved_host) Hready)
      as [_ Hpassed].
    apply Hpassed. right. vm_compute. reflexivity.
Defined.

Lemma unconfigured_filtering_fails_witness :
  outcome (linux_net.ensure_bridge "br100" (Some "eth0") true true
             (Examples.fresh_state Examples.bare_host))
  = Raise Run.no_manager
  /\
  SimHost.has_device "br100"
    (host (final (linux_net.ensure_bridge "br100" (Some "eth0") true true
                    (Examples.fresh_state Examples.bare_host)))) = true.
Proof.
  destruct (unconfigured_filtering_fails "br100" (Some "eth0") true
              (Examples.fresh_state Examples.bare_host))
    as [_ Hnone].
  destruct (Hnone eq_refl) as [Hout [Hfin _]].
  split.
  - rewrite Hout. vm_compute. reflexivity.
  - rewrite Hfin. vm_compute. reflexivity.
Defined.

(** ** [ensure_bridge]: the migration, on any host *)

Section Script.
Context {World : Type} `{HostOps World}.

Import Migration.

Lemma after_all_app cs1 cs2 (w : World) :
  after_all (cs1 ++ cs2) w = after_all cs2 (after_all cs1 w).
Proof. unfold after_all. apply fold_left_app. Qed.

Lemma after_all_cons c cs (w : World) :
  after_all (c :: cs) w = after_all cs (after c w).
Proof. reflexivity. Qed.

Lemma after_all_nil (w : World) : after_all [] w = w.
Proof. reflexivity. Qed.

Lemma all_accepted_app cs1 : forall cs2 (w : World),
  all_accepted (cs1 ++ cs2) w
  = andb (all_accepted cs1 w) (all_accepted cs2 (after_all cs1 w)).
Proof.
  induction cs1 as [|c r IH]; intros cs2 w; simpl.
  - reflexivity.
  - rewrite IH, andb_assoc. reflexivity.
Qed.

Lemma delete_via_routes_run lines : forall old (s : state World),
  all_accepted (map route_del_command (filter has_via (map PyStr.split lines)))
    (host s) = true ->
  linux_net.delete_via_routes lines old s
  = (Return (old ++ filter has_via (map PyStr.split lines)),
     Build_state (globals s)
       (after_all (map route_del_command
                     (filter has_via (map PyStr.split lines))) (host s)),
     map EvExecute (map route_del_command
                      (filter has_via (map PyStr.split lines)))).
Proof.
  induction lines as [|line rest IH]; intros old s Hacc.
  - simpl. rewrite app_nil_r. destruct s; reflexivity.
  - cbn [linux_net.delete_via_routes map filter] in *.
    fold (has_via (PyStr.split line)) in *.
    destruct (has_via (PyStr.split line)).
    + cbn [map all_accepted] in Hacc.
      apply andb_prop in Hacc as [H1 H2].
      rewrite bind_execute.
      change (as_root (cmd ([Py.AStr "ip"; Py.AStr "route"; Py.AStr "del"]
                            ++ map Py.AStr (PyStr.split line))))
        with (route_del_command (PyStr.split line)).
      rewrite H1. py_tidy.
      rewrite IH by exact H2. unfold Run.later.
      cbn [fst snd map after_all fold_left host globals app].
      rewrite <- app_assoc. reflexivity.
    + apply IH. exact Hacc.
Qed.

Lemma move_address_run bridge line (s : state World) :
  line_ok line = true ->
  all_accepted (move_commands bridge line) (host s) = true ->
  linux_net.move_address bridge line s
  = (Return tt,
     Build_state (globals s) (after_all (move_commands bridge line) (host s)),
     map EvExecute (move_commands bridge line)).
Proof.
  unfold line_ok, move_commands, linux_net.move_address.
  destruct (PyStr.split line) as [|first rest] eqn:Hsplit.
  - intros _ _. destruct s; reflexivity.
  - destruct (String.eqb first "inet").
    + intros Hlen.
      destruct (rev (first :: rest)) as [|last [|before_last tail]] eqn:Hrev.
      * apply (f_equal (@length string)) in Hrev.
        rewrite length_rev in Hrev. discriminate Hrev.
      * apply (f_equal (@length string)) in Hrev.
        rewrite length_rev in Hrev. simpl in Hrev.
        destruct rest; [discriminate Hlen|discriminate Hrev].
      * cbn [all_accepted]. intros Hacc.
        apply andb_prop in Hacc as [H1 Hacc].
        apply andb_prop in Hacc as [H2 _].
        unfold addr_del_command, addr_add_command in *.
        rewrite bind_execute, H1. py_tidy.
        rewrite bind_execute. py_tidy. rewrite H2.
        reflexivity.
    + intros _ _. destruct s; reflexivity.
Qed.

Lemma for_each_move_run bridge lines : forall (s : state World),
  forallb line_ok lines = true ->
  all_accepted (flat_map (move_commands bridge) lines) (host s) = true ->
  for_each lines (linux_net.move_address bridge) s
  = (Return tt,
     Build_state (globals s)
       (after_all (flat_map (move_commands bridge) lines) (host s)),
     map EvExecute (flat_map (move_commands bridge) lines)).
Proof.
  induction lines as [|line rest IH]; intros s Hok Hacc.
  - destruct s; reflexivity.
  - cbn [forallb flat_map for_each] in *.
    apply andb_prop in Hok as [Hline Hok].
    rewrite all_accepted_app in Hacc. apply andb_prop in Hacc as [H1 H2].
    rewrite (bind_returns _ _ _ _ _ _ (move_address_run bridge line s Hline H1)).
    rewrite IH by assumption.
    cbn [fst snd host globals].
    rewrite after_all_app, map_app. reflexivity.
Qed.

Lemma for_each_add_run routes : forall (s : state World),
  all_accepted (map route_add_command routes) (host s) = true ->
  for_each routes
    (fun fields =>
       execute (as_root (cmd ([Py.AStr "ip"; Py.AStr "route"; Py.AStr "add"]
                              ++ map Py.AStr fields))) ;;
       ret tt) s
  = (Return tt,
     Build_state (globals s)
       (after_all (map route_add_command routes) (host s)),
     map EvExecute (map route_add_command routes)).
Proof.
  induction routes as [|f rest IH]; intros s Hacc.
  - destruct s; reflexivity.
  - cbn [map all_accepted for_each] in *.
    apply andb_prop in Hacc as [H1 H2].
    unfold route_add_command in H1 at 1 2.
    rewrite bind_assoc, bind_execute, H1. py_tidy. rewrite bind_ret.
    rewrite IH by exact H2. reflexivity.
Qed.

Lemma attach_interface_named bridge interface :
  @linux_net.attach_interface World _ bridge interface
  = (log DEBUG "Adding interface %(interface)s to bridge %(bridge)s" ;;
     added <- execute (addif_command bridge interface) ;;
     (if andb (negb (String.eqb (snd added) ""))
              (negb (String.eqb (snd added)
                       (linux_net.already_member_msg interface bridge)))
      then linux_net.raise_failed_to_add (snd added)
      else ret tt) ;;
     execute (interface_up_command interface) ;;
     shown <- execute (route_show_command interface) ;;
     old_routes <- linux_net.delete_via_routes
                     (PyStr.split_on PyStr.nl_char (fst shown)) [] ;;
     listed <- execute (addr_show_command interface) ;;
     for_each (PyStr.split_on PyStr.nl_char (fst listed))
       (linux_net.move_address bridge) ;;
     for_each old_routes (fun fields =>
       execute (as_root (cmd ([Py.AStr "ip"; Py.AStr "route"; Py.AStr "add"]
                              ++ map Py.AStr fields))) ;;
       ret tt)).
Proof. reflexivity. Qed.

Lemma accepted_unchecked (c : command) x :
  check_exit_code c = CheckOff -> accepted (check_exit_code c) x = true.
Proof. intros ->. reflexivity. Qed.

Lemma attach_interface_script bridge interface (s : state World) :
  tolerated interface bridge
    (stderr (addif_command bridge interface) (host s)) ->
  forallb line_ok (listed bridge interface (host s)) = true ->
  all_accepted (script bridge interface (host s)) (host s) = true ->
  linux_net.attach_interface bridge interface s
  = (Return tt,
     Build_state (globals s)
       (after_all (script bridge interface (host s)) (host s)),
     EvLog DEBUG "Adding interface %(interface)s to bridge %(bridge)s"
     :: map EvExecute (script bridge interface (host s))).
Proof.
  intros Htol Hok Hacc.
  unfold script in *. unfold listed, recorded, attached, via_routes in *.
  rewrite !after_all_cons, !after_all_nil in *.
  set (w2 := after (interface_up_command interface)
               (after (addif_command bridge interface) (host s))) in *.
  set (routes := filter has_via
                   (map PyStr.split
                      (PyStr.split_on PyStr.nl_char
                         (stdout (route_show_command interface) w2)))) in *.
  set (w3 := after (route_show_command interface) w2) in *.
  set (w4 := after_all (map route_del_command routes) w3) in *.
  set (lines := PyStr.split_on PyStr.nl_char
                  (stdout (addr_show_command interface) w4)) in *.
  rewrite !all_accepted_app in Hacc.
  rewrite !after_all_app, !after_all_cons, !after_all_nil in *.
  cbn [all_accepted] in Hacc.
  fold w2 in Hacc. fold w3 in Hacc. fold w4 in Hacc.
  rewrite !andb_true_r in Hacc.
  apply andb_prop in Hacc as [Hacc Hrest].
  apply andb_prop in Hacc as [_ Hacc].
  apply andb_prop in Hacc as [_ Hshow].
  apply andb_prop in Hrest as [Hdel Hrest].
  apply andb_prop in Hrest as [Hlist Hrest].
  apply andb_prop in Hrest as [Hmove Hadd].
  rewrite attach_interface_named.
  rewrite bind_log, bind_execute.
  rewrite (accepted_unchecked (addif_command bridge interface)) by reflexivity.
  py_tidy.
  assert (Hpass :
    andb (negb (String.eqb (stderr (addif_command bridge interface) (host s)) ""))
         (negb (String.eqb (stderr (addif_command bridge interface) (host s))
                  (linux_net.already_member_msg interface bridge))) = false).
  { destruct Htol as [-> | ->].
    - reflexivity.
    - rewrite String.eqb_refl. apply andb_false_r. }
  rewrite Hpass, bind_ret. clear Hpass.
  rewrite bind_execute.
  rewrite (accepted_unchecked (interface_up_command interface))
    by reflexivity.
  py_tidy. fold w2.
  rewrite bind_execute. py_tidy. rewrite Hshow. fold w3.
  rewrite (bind_returns _ _ _ _ _ _
             (delete_via_routes_run _ [] (Build_state (globals s) w3) Hdel)).
  cbn [host globals]. rewrite app_nil_l. fold routes. fold w4.
  rewrite bind_execute. py_tidy. rewrite Hlist. fold lines.
  rewrite (bind_returns _ _ _ _ _ _
             (for_each_move_run bridge lines
                (Build_state (globals s)
                   (after (addr_show_command interface) w4)) Hok Hmove)).
  cbn [host globals fst snd].
  rewrite (for_each_add_run routes
             (Build_state (globals s)
                (after_all (flat_map (move_commands bridge) lines)
                   (after (addr_show_command interface) w4))) Hadd).
  unfold Run.later. cbn [fst snd host globals].
  rewrite !map_app. reflexivity.
Qed.

End Script.

(** ** The reference host: reading its output back *)

Section Words.

Import PyStr SimHost HostState.

Lemma split_space c s : is_space c = true -> split (String c s) = split s.
Proof. intros E. simpl. rewrite E. reflexivity. Qed.

Lemma split_word_then w : forall s,
  is_word w = true -> split (w ++ String " " s)%string = w :: split s.
Proof.
  induction w as [|a r IH]; intros s Hw; [discriminate|].
  simpl in Hw. apply andb_prop in Hw as [Ha Hr].
  apply negb_true_iff in Ha.
  change (split (String a (r ++ String " " s)%string)
          = String a r :: split s).
  cbn [split]. rewrite Ha.
  destruct r as [|b r'].
  - cbn [String.append]. change (is_space " ") with true. cbv iota.
    rewrite split_space by reflexivity. reflexivity.
  - cbn [String.append]. pose proof Hr as Hr'. simpl in Hr'.
    apply andb_prop in Hr' as [Hb _]. apply negb_true_iff in Hb.
    rewrite Hb.
    change (String b (r' ++ String " " s)%string)
      with (String b r' ++ String " " s)%string.
    rewrite IH by exact Hr. reflexivity.
Qed.

Lemma split_word_end w : is_word w = true -> split w = [w].
Proof.
  induction w as [|a r IH]; intros Hw; [discriminate|].
  simpl in Hw. apply andb_prop in Hw as [Ha Hr].
  apply negb_true_iff in Ha.
  cbn [split]. rewrite Ha.
  destruct r as [|b r']; [reflexivity|].
  pose proof Hr as Hr'. simpl in Hr'.
  apply andb_prop in Hr' as [Hb _]. apply negb_true_iff in Hb.
  rewrite Hb. rewrite IH by exact Hr. reflexivity.
Qed.

Lemma split_unwords toks :
  forallb is_word toks = true -> split (unwords toks) = toks.
Proof.
  induction toks as [|x r IH]; intros Hw; [reflexivity|].
  cbn [forallb] in Hw. apply andb_prop in Hw as [Hx Hr].
  destruct r as [|y r'].
  - simpl. apply split_word_end. exact Hx.
  - change (unwords (x :: y :: r'))
      with (x ++ String " " (unwords (y :: r')))%string.
    rewrite split_word_then by exact Hx. rewrite IH by exact Hr.
    reflexivity.
Qed.

Lemma one_line_app a b :
  one_line (a ++ b)%string = andb (one_line a) (one_line b).
Proof.
  induction a as [|c r IH]; simpl; [reflexivity|].
  rewrite IH, andb_assoc. reflexivity.
Qed.

Lemma spaceless_one_line s : spaceless s = true -> one_line s = true.
Proof.
  induction s as [|c r IH]; simpl; [reflexivity|].
  intros Hs. apply andb_prop in Hs as [Hc Hr].
  rewrite IH by exact Hr. rewrite andb_true_r.
  destruct (Ascii.eqb_spec c nl_char) as [->|_]; [discriminate Hc|reflexivity].
Qed.

Lemma word_one_line w : is_word w = true -> one_line w = true.
Proof.
  destruct w; [discriminate|]. apply spaceless_one_line.
Qed.

Lemma one_line_unwords toks :
  forallb is_word toks = true -> one_line (unwords toks) = true.
Proof.
  induction toks as [|x r IH]; intros Hw; [reflexivity|].
  cbn [forallb] in Hw. apply andb_prop in Hw as [Hx Hr].
  destruct r as [|y r'].
  - simpl. apply word_one_line. exact Hx.
  - change (unwords (x :: y :: r'))
      with (x ++ String " " (unwords (y :: r')))%string.
    rewrite one_line_app. rewrite word_one_line by exact Hx.
    simpl. apply IH. exact Hr.
Qed.

Lemma split_on_line l : forall rest,
  one_line l = true ->
  split_on nl_char (l ++ nl ++ rest)%string = l :: split_on nl_char rest.
Proof.
  induction l as [|c r IH]; intros rest Hl.
  - reflexivity.
  - simpl in Hl. apply andb_prop in Hl as [Hc Hr].
    apply negb_true_iff in Hc.
    change (split_on nl_char (String c (r ++ nl ++ rest)%string)
            = String c r :: split_on nl_char rest).
    cbn [split_on]. rewrite Hc. rewrite IH by exact Hr. reflexivity.
Qed.

Lemma split_on_unlines ls :
  forallb one_line ls = true ->
  split_on nl_char (unlines ls) = ls ++ [""].
Proof.
  induction ls as [|l r IH]; intros Hl; [reflexivity|].
  cbn [forallb] in Hl. apply andb_prop in Hl as [H1 Hr].
  cbn [unlines]. rewrite split_on_line by exact H1.
  rewrite IH by exact Hr. reflexivity.
Qed.

Lemma flag_is_word f : is_flag f = true -> is_word f = true.
Proof.
  unfold is_flag, mem. cbn [existsb].
  destruct (String.eqb_spec f "secondary") as [->|_]; [reflexivity|].
  destruct (String.eqb_spec f "dynamic") as [->|_]; [reflexivity|].
  discriminate.
Qed.

Lemma firstn_length_app {A} (l r : list A) : firstn (length l) (l ++ r) = l.
Proof.
  induction l as [|x l IH]; simpl; [destruct r; reflexivity|].
  rewrite IH. reflexivity.
Qed.

(** The fields of the line of an address. *)
Lemma split_addr_line a :
  address_ok a = true -> is_word (on_dev a) = true ->
  split (addr_line a) = "inet" :: params a ++ flag_tokens a ++ [on_dev a].
Proof.
  unfold address_ok. intros Hok Hdev.
  apply andb_prop in Hok as [Hp Hok]. apply andb_prop in Hok as [_ Hf].
  unfold addr_line.
  change ("    inet " ++ unwords (params a ++ flag_tokens a ++ [on_dev a]))%string
    with (String " " (String " " (String " " (String " "
            ("inet" ++ String " "
               (unwords (params a ++ flag_tokens a ++ [on_dev a]))))))%string).
  rewrite !split_space by reflexivity.
  rewrite split_word_then by reflexivity.
  rewrite split_unwords; [reflexivity|].
  rewrite !forallb_app, Hp. cbn [forallb]. rewrite Hdev.
  unfold flag_tokens. destruct (flag a) as [f|]; [|reflexivity].
  cbn [forallb]. rewrite (flag_is_word f Hf). reflexivity.
Qed.

Lemma move_commands_addr_line b a :
  address_ok a = true -> is_word (on_dev a) = true ->
  Migration.move_commands b (addr_line a) = move_of b (on_dev a) a
  /\ Migration.line_ok (addr_line a) = true.
Proof.
  intros Hok Hdev. unfold Migration.move_commands, Migration.line_ok.
  rewrite (split_addr_line a Hok Hdev).
  unfold address_ok in Hok.
  apply andb_prop in Hok as [_ Hok]. apply andb_prop in Hok as [Hlast Hf].
  apply negb_true_iff in Hlast.
  cbn [String.eqb Ascii.eqb Bool.eqb]. cbv iota.
  split.
  2:{ destruct (params a ++ flag_tokens a ++ [on_dev a]) eqn:E;
        [|reflexivity].
      apply (f_equal (@length string)) in E.
      rewrite !length_app in E. simpl in E. lia. }
  unfold move_of, flag_tokens in *.
  destruct (flag a) as [f|].
  - change ("inet" :: params a ++ [f] ++ [on_dev a])
      with (("inet" :: params a) ++ [f; on_dev a]).
    rewrite rev_app_distr. cbn [rev app].
    change (mem f ["secondary"; "dynamic"]) with (is_flag f). rewrite Hf.
    unfold slice_1_minus. cbn [tl app length].
    rewrite length_app. cbn [length].
    replace (S (length (params a) + 2) - 1 - 2) with (length (params a))
      by lia.
    rewrite firstn_length_app. reflexivity.
  - cbn [app].
    change ("inet" :: params a ++ [on_dev a])
      with (("inet" :: params a) ++ [on_dev a]).
    rewrite rev_app_distr. cbn [rev app].
    destruct (rev (params a)) as [|x t] eqn:Hrev; cbn [app hd] in *.
    + change (mem "inet" ["secondary"; "dynamic"]) with false. cbv iota.
      unfold slice_1_minus. cbn [tl app length].
      rewrite length_app. cbn [length].
      replace (S (length (params a) + 1) - 1 - 1) with (length (params a))
        by lia.
      rewrite firstn_length_app. reflexivity.
    + change (mem x ["secondary"; "dynamic"]) with (is_flag x).
      rewrite Hlast.
      unfold slice_1_minus. cbn [tl app length].
      rewrite length_app. cbn [length].
      replace (S (length (params a) + 1) - 1 - 1) with (length (params a))
        by lia.
      rewrite firstn_length_app. reflexivity.
Qed.

Lemma move_commands_link_line b d :
  Migration.move_commands b (link_line d) = []
  /\ Migration.line_ok (link_line d) = true.
Proof.
  unfold Migration.move_commands, Migration.line_ok, link_line.
  change ("2: " ++ d ++ ": <BROADCAST,MULTICAST,UP,LOWER_UP> mtu 1500")%string
    with ("2:" ++ String " "
            (d ++ ": <BROADCAST,MULTICAST,UP,LOWER_UP> mtu 1500"))%string.
  rewrite split_word_then by reflexivity.
  split; reflexivity.
Qed.

Lemma move_commands_lifetime_line b :
  Migration.move_commands b lifetime_line = []
  /\ Migration.line_ok lifetime_line = true.
Proof. split; reflexivity. Qed.

Lemma one_line_addr_line a :
  address_ok a = true -> is_word (on_dev a) = true ->
  one_line (addr_line a) = true.
Proof.
  unfold address_ok. intros Hok Hdev.
  apply andb_prop in Hok as [Hp Hok]. apply andb_prop in Hok as [_ Hf].
  unfold addr_line. rewrite one_line_app. cbn [andb].
  change (one_line "    inet ") with true. cbv iota.
  apply one_line_unwords.
  rewrite !forallb_app, Hp. cbn [forallb]. rewrite Hdev.
  unfold flag_tokens. destruct (flag a) as [f|]; [|reflexivity].
  cbn [forallb]. rewrite (flag_is_word f Hf). reflexivity.
Qed.

Lemma one_line_link_line d : is_word d = true -> one_line (link_line d) = true.
Proof.
  intros Hd. unfold link_line. rewrite !one_line_app.
  rewrite (word_one_line d Hd). reflexivity.
Qed.

(** What the two loops read from the outputs of the reference host. *)
Lemma filter_has_via rs :
  filter Migration.has_via (map fields rs) = map fields (filter is_via rs).
Proof.
  induction rs as [|r rs IH]; [reflexivity|].
  cbn [map filter]. unfold is_via at 1.
  destruct (Migration.has_via (fields r)); cbn [map]; rewrite IH; reflexivity.
Qed.

Lemma via_routes_route_show i h :
  forallb (fun r => forallb is_word (fields r)) (routes_on i h) = true ->
  Migration.via_routes (route_show i h)
  = map fields (filter is_via (routes_on i h)).
Proof.
  intros Hw. unfold Migration.via_routes, route_show.
  rewrite split_on_unlines.
  - rewrite map_app, map_map. cbn [map].
    rewrite filter_app. change (split "") with (@nil string).
    cbn [filter Migration.has_via length Nat.eqb negb andb].
    rewrite app_nil_r, <- filter_has_via. f_equal.
    induction (routes_on i h) as [|r rs IH]; [reflexivity|].
    cbn [forallb map] in *. apply andb_prop in Hw as [Hr Hw].
    rewrite split_unwords by exact Hr. rewrite IH by exact Hw. reflexivity.
  - induction (routes_on i h) as [|r rs IH]; [reflexivity|].
    cbn [forallb map] in *. apply andb_prop in Hw as [Hr Hw].
    rewrite one_line_unwords by exact Hr. apply IH. exact Hw.
Qed.

Lemma listed_addr_show b i h :
  is_word i = true ->
  forallb address_ok (addresses_on i h) = true ->
  flat_map (Migration.move_commands b)
    (split_on nl_char (addr_show i h))
  = flat_map (move_of b i) (addresses_on i h)
  /\ forallb Migration.line_ok (split_on nl_char (addr_show i h)) = true.
Proof.
  intros Hi Hok. unfold addr_show.
  assert (Hon : forall a, In a (addresses_on i h) -> on_dev a = i).
  { intros a Ha. unfold addresses_on in Ha. apply filter_In in Ha as [_ Ha].
    unfold on in Ha. apply String.eqb_eq. exact Ha. }
  rewrite split_on_unlines.
  - cbn [app flat_map forallb].
    destruct (move_commands_link_line b i) as [-> ->]. cbn [app andb].
    induction (addresses_on i h) as [|a r IH].
    + split; reflexivity.
    + cbn [forallb flat_map] in *. apply andb_prop in Hok as [Ha Hok].
      pose proof (Hon a (or_introl eq_refl)) as Hdev.
      assert (Hw : is_word (on_dev a) = true) by (rewrite Hdev; exact Hi).
      destruct (move_commands_addr_line b a Ha Hw) as [Hm Hl].
      destruct (move_commands_lifetime_line b) as [Hm' Hl'].
      unfold addr_lines at 1 3. cbn [app flat_map forallb].
      rewrite Hm, Hl, Hm', Hl', Hdev. cbn [app andb].
      destruct IH as [IH1 IH2]; [exact Hok|intros x Hx; apply Hon; right; exact Hx|].
      rewrite IH1, IH2. split; reflexivity.
  - cbn [forallb]. rewrite (one_line_link_line i Hi). cbn [andb].
    induction (addresses_on i h) as [|a r IH]; [reflexivity|].
    cbn [forallb flat_map] in *. apply andb_prop in Hok as [Ha Hok].
    pose proof (Hon a (or_introl eq_refl)) as Hdev.
    assert (Hw : is_word (on_dev a) = true) by (rewrite Hdev; exact Hi).
    unfold addr_lines at 1. cbn [app forallb].
    rewrite (one_line_addr_line a Ha Hw).
    change (one_line lifetime_line) with true. cbn [andb].
    apply IH; [exact Hok|intros x Hx; apply Hon; right; exact Hx].
Qed.

End Words.

(** ** The reference host: its tables under the migration *)

Section Tables.

Import PyStr SimHost HostState.

Lemma list_eqb_eq a b : list_eqb a b = true <-> a = b.
Proof.
  unfold list_eqb. destruct (list_eq_dec string_dec a b); split;
    congruence.
Qed.

Lemma list_eqb_refl a : list_eqb a a = true.
Proof. apply list_eqb_eq. reflexivity. Qed.

Lemma meml_In x l : meml x l = true <-> In x l.
Proof.
  unfold meml. rewrite existsb_exists. split.
  - intros [y [Hy E]]. apply list_eqb_eq in E. subst. exact Hy.
  - intros Hx. exists x. split; [exact Hx|apply list_eqb_refl].
Qed.

Lemma meml_false x l : meml x l = false <-> ~ In x l.
Proof.
  rewrite <- meml_In. destruct (meml x l); split; congruence.
Qed.

Lemma distinct_NoDup l : distinct l = true <-> NoDup l.
Proof.
  induction l as [|x r IH]; simpl.
  - split; [constructor|reflexivity].
  - rewrite andb_true_iff, negb_true_iff, meml_false, IH. split.
    + intros [Hx Hr]. constructor; assumption.
    + intros Hnd. inversion Hnd; subst. split; assumption.
Qed.

Lemma NoDup_map_filter {A B} (f : A -> B) (p : A -> bool) l :
  NoDup (map f l) -> NoDup (map f (filter p l)).
Proof.
  induction l as [|x r IH]; simpl; [trivial|].
  intros Hnd. inversion Hnd as [|? ? Hx Hr]; subst.
  destruct (p x); simpl; [|apply IH; exact Hr].
  constructor; [|apply IH; exact Hr].
  intros Hin. apply Hx. apply in_map_iff in Hin as [y [E Hy]].
  apply filter_In in Hy as [Hy _]. apply in_map_iff. exists y. tauto.
Qed.

Lemma NoDup_map_inj {A B} (f : A -> B) l x y :
  NoDup (map f l) -> In x l -> In y l -> f x = f y -> x = y.
Proof.
  induction l as [|z r IH]; simpl; [tauto|].
  intros Hnd Hx Hy E. inversion Hnd as [|? ? Hz Hr]; subst.
  destruct Hx as [->|Hx], Hy as [->|Hy].
  - reflexivity.
  - exfalso. apply Hz. rewrite E. apply in_map. exact Hy.
  - exfalso. apply Hz. rewrite <- E. apply in_map. exact Hx.
  - apply IH; assumption.
Qed.

Lemma filter_all {A} (p : A -> bool) l :
  (forall x, In x l -> p x = true) -> filter p l = l.
Proof.
  induction l as [|x r IH]; simpl; [reflexivity|].
  intros Hp. rewrite (Hp x (or_introl eq_refl)).
  rewrite IH; [reflexivity|]. intros y Hy. apply Hp. right; exact Hy.
Qed.

Lemma filter_none {A} (p : A -> bool) l :
  (forall x, In x l -> p x = false) -> filter p l = [].
Proof.
  induction l as [|x r IH]; simpl; [reflexivity|].
  intros Hp. rewrite (Hp x (or_introl eq_refl)).
  apply IH. intros y Hy. apply Hp. right; exact Hy.
Qed.

Lemma filter_filter {A} (p q : A -> bool) l :
  filter p (filter q l) = filter (fun x => andb (q x) (p x)) l.
Proof.
  induction l as [|x r IH]; simpl; [reflexivity|].
  destruct (q x); simpl; [destruct (p x)|]; rewrite IH; reflexivity.
Qed.

(** Deleting a route of a table without repeated fields. *)
Lemma remove_route_found l : forall r,
  NoDup (map fields l) -> In r l ->
  remove_route (fields r) l
  = Some (filter (fun x => negb (list_eqb (fields x) (fields r))) l).
Proof.
  induction l as [|x l' IH]; intros r Hnd Hin; [destruct Hin|].
  inversion Hnd as [|? ? Hx Hl']; subst. cbn [remove_route filter].
  destruct (list_eqb (fields x) (fields r)) eqn:E.
  - cbn [negb]. f_equal. symmetry. apply filter_all.
    intros y Hy. apply negb_true_iff.
    destruct (list_eqb (fields y) (fields r)) eqn:E'; [|reflexivity].
    exfalso. apply Hx. apply list_eqb_eq in E, E'. rewrite E, <- E'.
    apply in_map. exact Hy.
  - cbn [negb]. destruct Hin as [->|Hin].
    + rewrite list_eqb_refl in E. discriminate.
    + rewrite (IH r Hl' Hin). reflexivity.
Qed.

End Tables.

Section SimRuns.

Import PyStr SimHost HostState.

Lemma map_str_AStr l : map Py.str (map Py.AStr l) = l.
Proof.
  induction l as [|x r IH]; [reflexivity|].
  cbn [map Py.str]. rewrite IH. reflexivity.
Qed.

Lemma spawn_route_del f h :
  spawn (route_del_command f) h = route_del f h.
Proof.
  cbn [spawn sim_host]. unfold sim_spawn, route_del_command.
  cbn [argv as_root cmd app map Py.str]. rewrite map_str_AStr. reflexivity.
Qed.

Lemma spawn_route_add f h :
  spawn (route_add_command f) h = route_add f h.
Proof.
  cbn [spawn sim_host]. unfold sim_spawn, route_add_command.
  cbn [argv as_root cmd app map Py.str]. rewrite map_str_AStr. reflexivity.
Qed.

Lemma spawn_addr_del p d h :
  spawn (addr_del_command p d) h = addr_del p d h.
Proof.
  cbn [spawn sim_host]. unfold sim_spawn, addr_del_command.
  cbn [argv as_root checking cmd]. rewrite map_str_AStr.
  unfold linux_net._ip_bridge_cmd. cbn [app].
  change (String.eqb "ip" "brctl") with false.
  change (String.eqb "ip" "ip") with true. cbv iota.
  unfold ip. change (String.eqb "addr" "link") with false.
  change (String.eqb "addr" "addr") with true. cbv iota.
  unfold ip_addr. change (String.eqb "del" "show") with false. cbv iota.
  rewrite rev_app_distr. cbn [rev app].
  change (String.eqb "dev" "dev") with true. cbn [negb].
  change (String.eqb "del" "del") with true. cbv iota.
  rewrite rev_involutive. reflexivity.
Qed.

Lemma spawn_addr_add p d h :
  spawn (addr_add_command p d) h = addr_add p d h.
Proof.
  cbn [spawn sim_host]. unfold sim_spawn, addr_add_command.
  cbn [argv as_root checking cmd]. rewrite map_str_AStr.
  unfold linux_net._ip_bridge_cmd. cbn [app].
  change (String.eqb "ip" "brctl") with false.
  change (String.eqb "ip" "ip") with true. cbv iota.
  unfold ip. change (String.eqb "addr" "link") with false.
  change (String.eqb "addr" "addr") with true. cbv iota.
  unfold ip_addr. change (String.eqb "add" "show") with false. cbv iota.
  rewrite rev_app_distr. cbn [rev app].
  change (String.eqb "dev" "dev") with true. cbn [negb].
  change (String.eqb "add" "del") with false.
  change (String.eqb "add" "add") with true. cbv iota.
  rewrite rev_involutive. reflexivity.
Qed.

Lemma spawn_route_show i h :
  has_device i h = true ->
  spawn (route_show_command i) h = printed (route_show i h) h.
Proof.
  intros Hi. cbn [spawn sim_host]. unfold sim_spawn, route_show_command.
  cbn [argv cmd map Py.str].
  change (String.eqb "ip" "brctl") with false.
  change (String.eqb "ip" "ip") with true. cbv iota.
  unfold ip. change (String.eqb "route" "link") with false.
  change (String.eqb "route" "addr") with false.
  change (String.eqb "route" "route") with true. cbv iota.
  unfold ip_route. change (String.eqb "show" "show") with true. cbv iota.
  change (String.eqb "dev" "dev") with true. cbv iota.
  rewrite Hi. reflexivity.
Qed.

Lemma spawn_addr_show i h :
  has_device i h = true ->
  spawn (addr_show_command i) h = printed (addr_show i h) h.
Proof.
  intros Hi. cbn [spawn sim_host]. unfold sim_spawn, addr_show_command.
  cbn [argv cmd map Py.str].
  change (String.eqb "ip" "brctl") with false.
  change (String.eqb "ip" "ip") with true. cbv iota.
  unfold ip. change (String.eqb "addr" "link") with false.
  change (String.eqb "addr" "addr") with true. cbv iota.
  unfold ip_addr. change (String.eqb "show" "show") with true. cbv iota.
  change (list_eqb ["dev"; "scope"; "global"] ["dev"; "scope"; "global"])
    with true. cbv iota.
  rewrite Hi. reflexivity.
Qed.

Lemma with_routes_same h : with_routes (routes h) h = h.
Proof. destruct h; reflexivity. Qed.

Lemma with_addresses_same h : with_addresses (addresses h) h = h.
Proof. destruct h; reflexivity. Qed.

Lemma with_devices_same h : with_devices (devices h) h = h.
Proof. destruct h; reflexivity. Qed.

Lemma dels_run R : forall h,
  NoDup (map fields (routes h)) ->
  (forall r, In r R -> In r (routes h)) ->
  NoDup (map fields R) ->
  all_accepted (map route_del_command (map fields R)) h = true
  /\ after_all (map route_del_command (map fields R)) h
     = with_routes
         (filter (fun x => negb (meml (fields x) (map fields R))) (routes h))
         h.
Proof.
  induction R as [|r R' IH]; intros h Hnd Hin HR.
  - split; [reflexivity|]. cbn [map after_all fold_left].
    rewrite filter_all by reflexivity. symmetry. apply with_routes_same.
  - cbn [map all_accepted]. rewrite after_all_cons.
    unfold exit_code, after. rewrite spawn_route_del. unfold route_del.
    rewrite (remove_route_found (routes h) r Hnd (Hin r (or_introl eq_refl))).
    unfold ok. cbn [fst snd].
    set (l1 := filter (fun x => negb (list_eqb (fields x) (fields r)))
                 (routes h)).
    inversion HR as [|? ? Hr HR']; subst.
    destruct (IH (with_routes l1 h)) as [Hacc Hafter].
    + cbn [routes with_routes]. apply NoDup_map_filter. exact Hnd.
    + intros x Hx. cbn [routes with_routes]. subst l1. apply filter_In.
      split; [apply Hin; right; exact Hx|].
      apply negb_true_iff.
      destruct (list_eqb (fields x) (fields r)) eqn:E; [|reflexivity].
      exfalso. apply Hr. apply list_eqb_eq in E. rewrite <- E.
      apply in_map. exact Hx.
    + exact HR'.
    + split; [rewrite Hacc; reflexivity|].
      rewrite Hafter. cbn [routes with_routes]. subst l1.
      rewrite filter_filter. unfold with_routes. cbn. f_equal.
      apply filter_ext. intros x. unfold meml. cbn [existsb].
      rewrite negb_orb. reflexivity.
Qed.

(** Deleting the first address of the interface. *)
Lemma remove_address_first i T : forall a A,
  filter (on i) T = a :: A ->
  exists T1,
    remove_address i (params a) T = Some T1
    /\ filter (on i) T1 = A
    /\ filter (fun x => negb (on i x)) T1 = filter (fun x => negb (on i x)) T
    /\ (forall x, In x T1 -> In x T).
Proof.
  induction T as [|x T' IH]; intros a A Hf; [discriminate|].
  cbn [filter remove_address] in *.
  destruct (on i x) eqn:Hx.
  - injection Hf as -> HA. rewrite list_eqb_refl. cbn [andb negb].
    exists T'. repeat split; [exact HA|]. intros y Hy; right; exact Hy.
  - cbn [andb negb]. destruct (IH a A Hf) as [T1 [Hr [H1 [H2 H3]]]].
    exists (x :: T1). rewrite Hr. cbn [option_map filter]. rewrite Hx.
    cbn [negb]. rewrite H1, H2. repeat split.
    intros y [->|Hy]; [left; reflexivity|right; apply H3; exact Hy].
Qed.

Lemma on_rehome i b a : on i (rehome b a) = String.eqb b i.
Proof. reflexivity. Qed.

Lemma moves_run b i A : forall h,
  String.eqb b i = false ->
  has_device b h = true ->
  filter (on i) (addresses h) = A ->
  NoDup (map params A) ->
  (forall x, In x (addresses h) -> on b x = true ->
             ~ In (params x) (map params A)) ->
  all_accepted (flat_map (move_of b i) A) h = true
  /\ after_all (flat_map (move_of b i) A) h
     = with_addresses
         (filter (fun x => negb (on i x)) (addresses h)
          ++ map (rehome b) A) h.
Proof.
  induction A as [|a A' IH]; intros h Hbi Hb Hf Hnd Hfree.
  - split; [reflexivity|]. cbn [flat_map map after_all fold_left].
    rewrite app_nil_r. rewrite filter_all.
    + symmetry. apply with_addresses_same.
    + intros x Hx. apply negb_true_iff.
      destruct (on i x) eqn:E; [|reflexivity].
      assert (Hin : In x (filter (on i) (addresses h)))
        by (apply filter_In; tauto).
      rewrite Hf in Hin. destruct Hin.
  - destruct (remove_address_first i (addresses h) a A' Hf)
      as [T1 [Hrem [H1 [H2 H3]]]].
    cbn [map] in Hnd. apply NoDup_cons_iff in Hnd as [Ha Hnd'].
    cbn [flat_map]. unfold move_of at 1 3. cbn [app all_accepted].
    rewrite !after_all_cons.
    unfold exit_code, after. rewrite spawn_addr_del. unfold addr_del.
    rewrite Hrem. unfold ok. cbn [fst snd].
    rewrite spawn_addr_add. unfold addr_add.
    assert (Hb1 : has_device b (with_addresses T1 h) = true) by exact Hb.
    rewrite Hb1. cbn [negb addresses with_addresses].
    assert (Hnew : existsb (fun x => andb (on b x)
                                  (list_eqb (params x) (params a))) T1
                   = false).
    { destruct (existsb _ T1) eqn:E; [|reflexivity].
      apply existsb_exists in E as [x [Hx E]].
      apply andb_prop in E as [Hxb Hxp]. apply list_eqb_eq in Hxp.
      exfalso. apply (Hfree x (H3 x Hx) Hxb). rewrite Hxp. left; reflexivity. }
    rewrite Hnew. unfold ok. cbn [fst snd].
    fold (rehome b a).
    set (h2 := with_addresses (T1 ++ [rehome b a]) (with_addresses T1 h)).
    destruct (IH h2) as [Hacc Hafter].
    + exact Hbi.
    + exact Hb.
    + subst h2. cbn [addresses with_addresses]. rewrite filter_app, H1.
      cbn [filter]. rewrite on_rehome, Hbi. apply app_nil_r.
    + exact Hnd'.
    + subst h2. cbn [addresses with_addresses].
      intros x Hx Hxb Hin. apply in_app_or in Hx as [Hx|[<-|[]]].
      * apply (Hfree x (H3 x Hx) Hxb). right; exact Hin.
      * apply Ha. exact Hin.
    + split; [rewrite Hacc; reflexivity|].
      rewrite Hafter. subst h2. cbn [addresses with_addresses].
      rewrite filter_app, H2.
      cbn [filter]. rewrite on_rehome, Hbi. cbn [negb map].
      rewrite <- app_assoc. reflexivity.
Qed.

Lemma adds_run b R : forall h,
  (forall r, In r R ->
     exists g, gateway_of (fields r) = Some g
               /\ device_towards g h = Some b) ->
  all_accepted (map route_add_command (map fields R)) h = true
  /\ after_all (map route_add_command (map fields R)) h
     = with_routes (routes h ++ map (rebind b) R) h.
Proof.
  induction R as [|r R' IH]; intros h Hg.
  - split; [reflexivity|]. cbn [map after_all fold_left].
    rewrite app_nil_r. symmetry. apply with_routes_same.
  - cbn [map all_accepted]. rewrite after_all_cons.
    unfold exit_code, after. rewrite spawn_route_add. unfold route_add.
    destruct (Hg r (or_introl eq_refl)) as [g [Hgw Hdev]].
    rewrite Hgw, Hdev. unfold ok. cbn [fst snd].
    fold (rebind b r).
    destruct (IH (with_routes (routes h ++ [rebind b r]) h)) as [Hacc Hafter].
    + intros x Hx. destruct (Hg x (or_intror Hx)) as [g' [Hgw' Hdev']].
      exists g'. split; [exact Hgw'|exact Hdev'].
    + split; [rewrite Hacc; reflexivity|].
      rewrite Hafter. cbn [routes with_routes]. rewrite <- app_assoc.
      reflexivity.
Qed.

Lemma find_app_none {A} (p : A -> bool) l1 l2 :
  (forall x, In x l1 -> p x = false) -> find p (l1 ++ l2) = find p l2.
Proof.
  induction l1 as [|x r IH]; intros Hp; [reflexivity|].
  cbn [app find]. rewrite (Hp x (or_introl eq_refl)).
  apply IH. intros y Hy. apply Hp. right; exact Hy.
Qed.

Lemma find_same {A} (p q : A -> bool) l :
  (forall x, p x = q x) -> find p l = find q l.
Proof.
  intros E. induction l as [|x r IH]; [reflexivity|].
  cbn [find]. rewrite E, IH. reflexivity.
Qed.

Lemma find_rehomed b (p : address -> bool) A :
  (forall a, p (rehome b a) = p a) ->
  existsb p A = true ->
  option_map on_dev (find p (map (rehome b) A)) = Some b.
Proof.
  intros Hp. induction A as [|a r IH]; [discriminate|].
  cbn [existsb map find]. rewrite Hp.
  destruct (p a); [reflexivity|]. exact IH.
Qed.

(** Once the addresses of the interface are on the bridge, a gateway that
    was behind one of them is reached through the bridge. *)
Lemma device_towards_moved b i h h' g :
  onlink h' = onlink h ->
  addresses h' = filter (fun x => negb (on i x)) (addresses h)
                 ++ map (rehome b) (addresses_on i h) ->
  existsb (behind h g) (addresses_on i h) = true ->
  forallb (fun a => implb (behind h g a) (on i a)) (addresses h) = true ->
  device_towards g h' = Some b.
Proof.
  intros Hol Haddr Hex Hall. unfold device_towards. rewrite Haddr.
  assert (Hbeh : forall a, behind h' g a = behind h g a).
  { intros a. unfold behind. rewrite Hol. reflexivity. }
  rewrite find_app_none.
  - rewrite (find_same _ _ _ Hbeh). apply find_rehomed; [reflexivity|exact Hex].
  - intros x Hx. apply filter_In in Hx as [Hx Hon].
    rewrite Hbeh. rewrite forallb_forall in Hall. specialize (Hall x Hx).
    apply negb_true_iff in Hon. rewrite Hon in Hall.
    destruct (behind h g x); [discriminate Hall|reflexivity].
Qed.

End SimRuns.

(** ** [ensure_bridge] as a whole, on any host *)

Section BridgeRun.
Context {World : Type} `{HostOps World}.
Import Migration.

Lemma ensure_bridge_run bridge c r (gateway filtering : bool)
    (s : state World) :
  let interface := String c r in
  let ready : World := after_all (pending bridge (host s)) (host s) in
  let moved := Build_state (globals s)
                 (after_all (script bridge interface ready) ready) in
  let tail := (if filtering
               then linux_net.apply_filtering bridge gateway moved
               else (Return tt, moved, [])) in
  all_accepted (pending bridge (host s)) (host s) = true ->
  tolerated interface bridge (stderr (addif_command bridge interface) ready) ->
  forallb line_ok (listed bridge interface ready) = true ->
  all_accepted (script bridge interface ready) ready = true ->
  linux_net.ensure_bridge bridge (Some interface) gateway filtering s
  = (outcome tail, final tail,
     EvLock "nova-lock_bridge"
     :: starting_events bridge (host s)
     ++ (EvLog DEBUG "Adding interface %(interface)s to bridge %(bridge)s"
         :: map EvExecute (script bridge interface ready))
     ++ events tail ++ [EvUnlock "nova-lock_bridge"]).
Proof.
  cbv zeta. intros Hpre Htol Hok Hacc.
  unfold linux_net.ensure_bridge. rewrite synchronized_run.
  rewrite (bridge_prelude _ _ _ Hpre).
  set (ready := after_all (pending bridge (host s)) (host s)) in *.
  rewrite (bind_returns _ _ _ _ _ _
             (attach_interface_script bridge (String c r)
                (Build_state (globals s) ready) Htol Hok Hacc)).
  cbn [host globals].
  unfold outcome, final, events, Run.later. cbn [fst snd].
  destruct filtering; cbn [fst snd ret];
    rewrite <- !app_assoc; reflexivity.
Qed.

End BridgeRun.

(** ** The reference host: the bridge, the attach step, the script *)

Section SimBridge.

Import PyStr SimHost HostState.

Lemma eqb_same_prefix p x y :
  String.eqb (p ++ x)%string (p ++ y)%string = String.eqb x y.
Proof.
  induction p as [|c p IH]; [reflexivity|].
  cbn [String.append String.eqb]. rewrite Ascii.eqb_refl. exact IH.
Qed.

Lemma net_path_is_device b l :
  existsb (fun d => String.eqb ("/sys/class/net/" ++ b)%string
                      ("/sys/class/net/" ++ d)%string) l
  = existsb (String.eqb b) l.
Proof.
  induction l as [|d ds IH]; [reflexivity|].
  cbn [existsb]. rewrite IH.
  rewrite (eqb_same_prefix "/sys/class/net/" b d). reflexivity.
Qed.

Lemma no_path_no_device b h :
  sim_path_exists ("/sys/class/net/" ++ b)%string h = false ->
  has_device b h = false.
Proof.
  unfold sim_path_exists. intros Hp.
  apply orb_false_iff in Hp as [Hp _].
  rewrite net_path_is_device in Hp. exact Hp.
Qed.

Lemma has_device_added b h :
  has_device b (with_devices (devices h ++ [b]) h) = true.
Proof.
  unfold has_device, mem. cbn [devices with_devices].
  rewrite existsb_app. cbn [existsb]. rewrite String.eqb_refl.
  rewrite orb_true_r. reflexivity.
Qed.

Lemma has_device_kept x b h :
  has_device x h = true ->
  has_device x (with_devices (devices h ++ [b]) h) = true.
Proof.
  unfold has_device, mem. cbn [devices with_devices]. intros Hx.
  rewrite existsb_app, Hx. reflexivity.
Qed.

Lemma spawn_addbr b h :
  has_device b h = false ->
  spawn (addbr_command b) h = ok (with_devices (devices h ++ [b]) h).
Proof.
  intros Hb. cbn [spawn sim_host]. unfold sim_spawn, addbr_command.
  cbn [argv as_root cmd map Py.str].
  change (String.eqb "brctl" "brctl") with true. cbv iota.
  unfold brctl. change (String.eqb "addbr" "addbr") with true. cbv iota.
  rewrite Hb. reflexivity.
Qed.

Lemma spawn_setfd b h :
  has_device b h = true -> spawn (setfd_command b) h = ok h.
Proof.
  intros Hb. cbn [spawn sim_host]. unfold sim_spawn, setfd_command.
  cbn [argv as_root cmd map Py.str].
  change (String.eqb "brctl" "brctl") with true. cbv iota.
  unfold brctl. change (String.eqb "setfd" "addif") with false.
  change (String.eqb "setfd" "delif") with false.
  change (String.eqb "setfd" "setfd") with true. cbn [orb]. cbv iota.
  rewrite Hb. reflexivity.
Qed.

Lemma spawn_stp_off b h :
  has_device b h = true -> spawn (stp_off_command b) h = ok h.
Proof.
  intros Hb. cbn [spawn sim_host]. unfold sim_spawn, stp_off_command.
  cbn [argv as_root cmd map Py.str].
  change (String.eqb "brctl" "brctl") with true. cbv iota.
  unfold brctl. change (String.eqb "stp" "addif") with false.
  change (String.eqb "stp" "delif") with false.
  change (String.eqb "stp" "setfd") with false.
  change (String.eqb "stp" "stp") with true. cbn [orb]. cbv iota.
  rewrite Hb. reflexivity.
Qed.

Lemma spawn_link_up d h :
  has_device d h = true -> spawn (link_up_command d) h = ok h.
Proof.
  intros Hd. cbn [spawn sim_host]. unfold sim_spawn, link_up_command.
  cbn [argv as_root cmd map Py.str].
  change (String.eqb "ip" "brctl") with false.
  change (String.eqb "ip" "ip") with true. cbv iota.
  unfold ip. change (String.eqb "link" "link") with true. cbv iota.
  unfold ip_link. change (String.eqb "set" "set") with true.
  change (String.eqb "up" "up") with true. cbn [andb orb]. cbv iota.
  rewrite Hd. reflexivity.
Qed.

Lemma spawn_interface_up d h :
  has_device d h = true -> spawn (interface_up_command d) h = ok h.
Proof.
  intros Hd. cbn [spawn sim_host]. unfold sim_spawn, interface_up_command.
  cbn [argv as_root checking cmd map Py.str].
  change (String.eqb "ip" "brctl") with false.
  change (String.eqb "ip" "ip") with true. cbv iota.
  unfold ip. change (String.eqb "link" "link") with true. cbv iota.
  unfold ip_link. change (String.eqb "set" "set") with true.
  change (String.eqb "up" "up") with true. cbn [andb orb]. cbv iota.
  rewrite Hd. reflexivity.
Qed.

Lemma spawn_addif b i h :
  has_device b h = true -> has_device i h = true ->
  spawn (addif_command b i) h
  = if existsb (fun m => String.eqb (fst m) i) (members h)
    then failed 1 (linux_net.already_member_msg i b) h
    else ok (with_members (members h ++ [(i, b)]) h).
Proof.
  intros Hb Hi. cbn [spawn sim_host]. unfold sim_spawn, addif_command.
  cbn [argv as_root checking cmd map Py.str].
  change (String.eqb "brctl" "brctl") with true. cbv iota.
  unfold brctl. change (String.eqb "addif" "addif") with true. cbv iota.
  rewrite Hb, Hi. reflexivity.
Qed.

Lemma prelude_sim b i h :
  implb (sim_path_exists ("/sys/class/net/" ++ b)%string h) (has_device b h)
  = true ->
  has_device i h = true ->
  all_accepted (pending b h) h = true
  /\ exists d,
       after_all (pending b h) h = with_devices d h
       /\ has_device b (with_devices d h) = true
       /\ has_device i (with_devices d h) = true.
Proof.
  intros Hpath Hi. unfold pending. cbn [path_exists sim_host].
  destruct (sim_path_exists _ h) eqn:E.
  - split; [reflexivity|]. exists (devices h).
    rewrite with_devices_same. repeat split; [exact Hpath|exact Hi].
  - pose proof (no_path_no_device b h E) as Hb.
    set (h1 := with_devices (devices h ++ [b]) h).
    assert (Hb1 : has_device b h1 = true) by apply has_device_added.
    assert (Hi1 : has_device i h1 = true)
      by (apply has_device_kept; exact Hi).
    unfold creation_commands. cbn [all_accepted].
    rewrite !after_all_cons, after_all_nil.
    unfold exit_code, after.
    rewrite (spawn_addbr b h Hb). unfold ok. cbn [fst snd]. fold h1.
    rewrite (spawn_setfd b h1 Hb1). unfold ok. cbn [fst snd].
    rewrite (spawn_stp_off b h1 Hb1). unfold ok. cbn [fst snd].
    rewrite (spawn_link_up b h1 Hb1). unfold ok. cbn [fst snd].
    split; [reflexivity|]. exists (devices h ++ [b]).
    repeat split; assumption.
Qed.

Lemma attached_sim b i h :
  has_device b h = true -> has_device i h = true ->
  tolerated i b (stderr (addif_command b i) h)
  /\ exists m, Migration.attached b i h = with_members m h.
Proof.
  intros Hb Hi. unfold Migration.attached.
  rewrite !after_all_cons, after_all_nil. unfold stderr, after.
  rewrite (spawn_addif b i h Hb Hi).
  destruct (existsb _ (members h)).
  - unfold failed. cbn [fst snd]. rewrite (spawn_interface_up i h Hi).
    split; [right; reflexivity|]. exists (members h).
    destruct h; reflexivity.
  - unfold ok. cbn [fst snd].
    rewrite (spawn_interface_up i (with_members _ h) Hi).
    split; [left; reflexivity|]. eexists; reflexivity.
Qed.

Lemma collaborate_rule_sim chain rule (s : state sim) :
  collaborate (add_rule chain rule) s
  = (Return tt, s, [EvCall (add_rule chain rule)]).
Proof. destruct s; reflexivity. Qed.

Lemma collaborate_apply_sim (s : state sim) :
  collaborate iptables_apply s = (Return tt, s, [EvCall iptables_apply]).
Proof. destruct s; reflexivity. Qed.

Lemma commands_app t1 t2 : commands (t1 ++ t2) = commands t1 ++ commands t2.
Proof.
  induction t1 as [|e t IH]; [reflexivity|].
  destruct e; cbn [app commands]; rewrite IH; reflexivity.
Qed.

Lemma commands_executed cs : commands (map EvExecute cs) = cs.
Proof.
  induction cs as [|c r IH]; [reflexivity|].
  cbn [map commands]. rewrite IH. reflexivity.
Qed.

Lemma apply_filtering_sim b gateway mgr (s : state sim) :
  _IPTABLES_MANAGER (globals s) = Some mgr ->
  exists t,
    linux_net.apply_filtering b gateway s = (Return tt, s, t)
    /\ commands t = [].
Proof.
  intros Hm. unfold linux_net.apply_filtering.
  rewrite bind_get_globals, Hm.
  assert (Hrules : forall rules,
    exists t, for_each rules
                (fun rule => collaborate (add_rule (fst rule) (snd rule))) s
              = (Return tt, s, t) /\ commands t = []).
  { induction rules as [|x r [t [IH Ht]]].
    - exists []. split; reflexivity.
    - cbn [for_each].
      rewrite (bind_returns _ _ _ _ _ _ (collaborate_rule_sim _ _ s)).
      rewrite IH. cbn [fst snd]. eexists. split; [reflexivity|exact Ht]. }
  destruct gateway.
  - destruct (Hrules (get_gateway_rules mgr b)) as [t [Hrun Ht]].
    rewrite (bind_returns _ _ _ _ _ _ Hrun).
    rewrite collaborate_apply_sim. cbn [fst snd].
    eexists. split; [reflexivity|].
    rewrite commands_app, Ht. reflexivity.
  - rewrite bind_assoc.
    rewrite (bind_returns _ _ _ _ _ _ (collaborate_rule_sim _ _ s)).
    rewrite (bind_returns _ _ _ _ _ _ (collaborate_rule_sim _ _ s)).
    rewrite collaborate_apply_sim. cbn [fst snd].
    eexists. split; reflexivity.
Qed.

Lemma migratable_facts b i h :
  migratable b i h = true ->
  String.eqb b i = false
  /\ is_word i = true
  /\ has_device i h = true
  /\ implb (sim_path_exists ("/sys/class/net/" ++ b)%string h)
           (has_device b h) = true
  /\ forallb address_ok (addresses_on i h) = true
  /\ NoDup (map params (addresses_on i h))
  /\ (forall x, In x (addresses h) -> on b x = true ->
                ~ In (params x) (map params (addresses_on i h)))
  /\ forallb (fun r => forallb is_word (fields r)) (routes_on i h) = true
  /\ NoDup (map fields (routes h))
  /\ forallb (route_ok i h) (filter is_via (routes_on i h)) = true.
Proof.
  unfold migratable. intros Hm.
  repeat (apply andb_prop in Hm as [? Hm]).
  repeat split; try assumption.
  - apply negb_true_iff. assumption.
  - apply distinct_NoDup. assumption.
  - intros x Hx Hb Hin.
    match goal with
    | Hf : forallb (fun a => negb (andb (on b a) _)) (addresses h) = true |- _ =>
        rewrite forallb_forall in Hf; specialize (Hf x Hx);
        rewrite Hb in Hf; cbn [andb] in Hf;
        apply negb_true_iff, meml_false in Hf; apply Hf; exact Hin
    end.
  - apply distinct_NoDup. assumption.
Qed.

Lemma script_sim b i h :
  String.eqb b i = false ->
  is_word i = true ->
  has_device i h = true ->
  has_device b h = true ->
  forallb address_ok (addresses_on i h) = true ->
  NoDup (map params (addresses_on i h)) ->
  (forall x, In x (addresses h) -> on b x = true ->
             ~ In (params x) (map params (addresses_on i h))) ->
  forallb (fun r => forallb is_word (fields r)) (routes_on i h) = true ->
  NoDup (map fields (routes h)) ->
  forallb (route_ok i h) (filter is_via (routes_on i h)) = true ->
  let A := addresses_on i h in
  let R := filter is_via (routes_on i h) in
  let kept := filter (fun x => negb (meml (fields x) (map fields R)))
                (routes h) in
  tolerated i b (stderr (addif_command b i) h)
  /\ forallb Migration.line_ok (Migration.listed b i h) = true
  /\ Migration.script b i h
     = [addif_command b i; interface_up_command i; route_show_command i]
       ++ map (fun r => route_del_command (fields r)) R
       ++ [addr_show_command i]
       ++ flat_map (move_of b i) A
       ++ map (fun r => route_add_command (fields r)) R
  /\ all_accepted (Migration.script b i h) h = true
  /\ exists m,
       after_all (Migration.script b i h) h
       = with_routes (kept ++ map (rebind b) R)
           (with_addresses
              (filter (fun x => negb (on i x)) (addresses h)
               ++ map (rehome b) A)
              (with_routes kept (with_members m h))).
Proof.
  intros Hbi Hwi Hi Hb Haok Hand Hfree Hrw Hrnd Hrok A R kept.
  destruct (attached_sim b i h Hb Hi) as [Htol [m Hatt]].
  set (w2 := with_members m h) in *.
  assert (Hi2 : has_device i w2 = true) by exact Hi.
  assert (Hb2 : has_device b w2 = true) by exact Hb.
  assert (Hrec : Migration.recorded b i h = map fields R).
  { unfold Migration.recorded. rewrite Hatt. unfold stdout.
    rewrite (spawn_route_show i w2 Hi2). unfold printed. cbn [fst snd].
    apply (via_routes_route_show i h Hrw). }
  assert (Hshown : after (route_show_command i) w2 = w2).
  { unfold after. rewrite (spawn_route_show i w2 Hi2). reflexivity. }
  assert (HR : forall r, In r R -> In r (routes w2)).
  { intros r Hr. subst R. apply filter_In in Hr as [Hr _].
    unfold routes_on in Hr. apply filter_In in Hr as [Hr _]. exact Hr. }
  assert (HRnd : NoDup (map fields R)).
  { subst R. unfold routes_on. apply NoDup_map_filter, NoDup_map_filter.
    exact Hrnd. }
  destruct (dels_run R w2 Hrnd HR HRnd) as [Hdacc Hdafter].
  change (routes w2) with (routes h) in Hdafter. fold kept in Hdafter.
  set (w4 := with_routes kept w2) in *.
  assert (Hi4 : has_device i w4 = true) by exact Hi.
  assert (Hb4 : has_device b w4 = true) by exact Hb.
  assert (Hlst : Migration.listed b i h
                 = split_on nl_char (addr_show i h)).
  { unfold Migration.listed. rewrite Hatt, Hrec, after_all_cons, Hshown.
    rewrite Hdafter. unfold stdout.
    rewrite (spawn_addr_show i w4 Hi4). reflexivity. }
  destruct (listed_addr_show b i h Hwi Haok) as [Hmoves Hlok].
  assert (Hlisted : after (addr_show_command i) w4 = w4).
  { unfold after. rewrite (spawn_addr_show i w4 Hi4). reflexivity. }
  destruct (moves_run b i A w4 Hbi Hb4 eq_refl Hand Hfree) as [Hmacc Hmafter].
  change (addresses w4) with (addresses h) in Hmafter.
  set (w6 := with_addresses
               (filter (fun x => negb (on i x)) (addresses h)
                ++ map (rehome b) A) w4) in *.
  assert (Hgw : forall r, In r R ->
            exists g, gateway_of (fields r) = Some g
                      /\ device_towards g w6 = Some b).
  { intros r Hr. rewrite forallb_forall in Hrok. specialize (Hrok r Hr).
    unfold route_ok in Hrok.
    destruct (gateway_of (fields r)) as [g|]; [|discriminate Hrok].
    apply andb_prop in Hrok as [Hex Hall].
    exists g. split; [reflexivity|].
    apply (device_towards_moved b i h w6 g); [reflexivity|reflexivity| |];
      assumption. }
  destruct (adds_run b R w6 Hgw) as [Haacc Haafter].
  change (routes w6) with kept in Haafter.
  split; [exact Htol|]. split; [rewrite Hlst; exact Hlok|].
  assert (Hscript : Migration.script b i h
     = [addif_command b i; interface_up_command i; route_show_command i]
       ++ map route_del_command (map fields R)
       ++ [addr_show_command i]
       ++ flat_map (move_of b i) A
       ++ map route_add_command (map fields R)).
  { unfold Migration.script. rewrite Hrec, Hlst, Hmoves. reflexivity. }
  split; [rewrite Hscript, !map_map; reflexivity|].
  rewrite Hscript.
  rewrite !all_accepted_app, !after_all_app.
  change (after_all [addif_command b i; interface_up_command i;
                     route_show_command i] h)
    with (after (route_show_command i) (Migration.attached b i h)).
  rewrite Hatt, Hshown, Hdafter.
  cbn [all_accepted after_all fold_left]. rewrite Hlisted.
  rewrite Hdacc, Hmacc, Hmafter, Haacc, Haafter.
  split.
  - rewrite !andb_true_r.
    change (exit_code (route_show_command i)
              (after (interface_up_command i) (after (addif_command b i) h)))
      with (exit_code (route_show_command i) (Migration.attached b i h)).
    rewrite Hatt. unfold exit_code at 3 4.
    rewrite (spawn_route_show i w2 Hi2), (spawn_addr_show i w4 Hi4).
    reflexivity.
  - exists m. reflexivity.
Qed.

End SimBridge.

(** ** The reference host: what is carried after the migration *)

Section Carried.

Import PyStr SimHost HostState.

Variables (b i : string).
Hypothesis Hbi : String.eqb b i = false.

Lemma on_both (x : address) : on b x = true -> on i x = false.
Proof.
  unfold on. intros Hb. apply String.eqb_eq in Hb. rewrite Hb. exact Hbi.
Qed.

Lemma moved_off_interface T A :
  filter (on i) (filter (fun x => negb (on i x)) T ++ map (rehome b) A) = [].
Proof.
  apply filter_none. intros x Hx. apply in_app_or in Hx as [Hx|Hx].
  - apply filter_In in Hx as [_ Hx]. apply negb_true_iff. exact Hx.
  - apply in_map_iff in Hx as [a [<- _]]. rewrite on_rehome. exact Hbi.
Qed.

Lemma moved_onto_bridge T A :
  filter (on b) (filter (fun x => negb (on i x)) T ++ map (rehome b) A)
  = filter (on b) T ++ map (rehome b) A.
Proof.
  rewrite filter_app. f_equal.
  - rewrite filter_filter. apply filter_ext. intros x.
    destruct (on b x) eqn:E; [|apply andb_false_r].
    rewrite (on_both x E). reflexivity.
  - apply filter_all. intros x Hx. apply in_map_iff in Hx as [a [<- _]].
    rewrite on_rehome. apply String.eqb_refl.
Qed.

Lemma rebound_off_interface (L : list route) :
  NoDup (map fields L) ->
  let R := filter is_via (filter (fun r => String.eqb (via_dev r) i) L) in
  let kept := filter (fun x => negb (meml (fields x) (map fields R))) L in
  filter is_via
    (filter (fun r => String.eqb (via_dev r) i) (kept ++ map (rebind b) R))
  = [].
Proof.
  intros Hnd R kept. rewrite filter_filter. apply filter_none.
  intros x Hx. apply in_app_or in Hx as [Hx|Hx].
  - subst kept. apply filter_In in Hx as [Hx Hk].
    apply negb_true_iff in Hk.
    destruct (String.eqb (via_dev x) i) eqn:Ei; [|reflexivity].
    destruct (is_via x) eqn:Ev; [|reflexivity].
    exfalso. apply meml_false in Hk. apply Hk. apply in_map.
    subst R. apply filter_In. split; [|exact Ev].
    apply filter_In. split; assumption.
  - apply in_map_iff in Hx as [r [<- _]]. cbn [via_dev rebind].
    rewrite Hbi. reflexivity.
Qed.

Lemma rebound_onto_bridge (L : list route) :
  NoDup (map fields L) ->
  let R := filter is_via (filter (fun r => String.eqb (via_dev r) i) L) in
  let kept := filter (fun x => negb (meml (fields x) (map fields R))) L in
  filter (fun r => String.eqb (via_dev r) b) (kept ++ map (rebind b) R)
  = filter (fun r => String.eqb (via_dev r) b) L ++ map (rebind b) R.
Proof.
  intros Hnd R kept. rewrite filter_app. f_equal.
  - subst kept. rewrite filter_filter. apply filter_ext_in. intros x Hx.
    destruct (String.eqb (via_dev x) b) eqn:Eb; [|apply andb_false_r].
    rewrite andb_true_r. apply negb_true_iff, meml_false.
    intros Hin. apply in_map_iff in Hin as [r [Ef Hr]].
    subst R. apply filter_In in Hr as [Hr _].
    apply filter_In in Hr as [Hr Hri].
    assert (r = x) by (apply (NoDup_map_inj fields L); assumption).
    subst r. apply String.eqb_eq in Eb, Hri. rewrite Eb in Hri.
    rewrite Hri, String.eqb_refl in Hbi. discriminate Hbi.
  - apply filter_all. intros x Hx. apply in_map_iff in Hx as [r [<- _]].
    cbn [via_dev rebind]. apply String.eqb_refl.
Qed.

End Carried.

(** ** [ensure_bridge]: the migration of addresses and routes *)

Section Migrated.

Import PyStr SimHost HostState.

Lemma commands_starting_events b (h : sim) :
  commands (starting_events b h) = pending b h.
Proof.
  unfold starting_events, pending.
  destruct (path_exists _ h); [reflexivity|].
  cbn [commands]. apply commands_executed.
Qed.


End Migrated.


#[local] Existing Instance DualStackHost.dual_host.


(** ** The dispatcher: unplugging, successful calls, plugins left unloaded *)

Section DispatchMore.

Context {World : Type} `{HostOps World}.

Variable methods : stevedore.PluginObj -> plugin.PluginBase World.

(** X1. [unplug] before [initialize] raises [LibraryNotInitialized]; with
    a registry in which the backend name of the VIF is not registered it
    raises [NoMatchingPlugin] for that name, in both cases without any
    effect; and when the plugin object found raises [err] from its
    [unplug], the caller gets [UnplugException] with the VIF and [err],
    after the debug log, the backend's own events and the error log, in the
    state the backend left. *)
Theorem unplug_error_taxonomy (vif : objects.VIF)
    (info : objects.InstanceInfo) (s : state World) :
  (_EXT_MANAGER (globals s) = None ->
   os_vif.unplug methods vif info s = (Raise LibraryNotInitialized, s, []))
  /\
  (forall m,
   _EXT_MANAGER (globals s) = Some m ->
   ~ In (objects.plugin vif) (stevedore.names m) ->
   os_vif.unplug methods vif info s
   = (Raise (NoMatchingPlugin (objects.plugin vif)), s, []))
  /\
  (forall m e p err,
   _EXT_MANAGER (globals s) = Some m ->
   stevedore.getitem m (objects.plugin vif) = Some e ->
   stevedore.obj e = Some p ->
   outcome (plugin.unplug (methods p) vif info s) = Raise err ->
   os_vif.unplug methods vif info s
   = (Raise (UnplugException vif err),
      final (plugin.unplug (methods p) vif info s),
      [EvLog DEBUG "Unplugging vif %s"]
      ++ events (plugin.unplug (methods p) vif info s)
      ++ [EvLog ERROR "Failed to unplug vif %(vif)s. Got error: %(err)s"])).
Proof.
  split; [|split].
  - intros Hm. unfold os_vif.unplug, os_vif.resolve.
    py_assoc. rewrite bind_get_globals, Hm. reflexivity.
  - intros m Hm Hout. unfold os_vif.unplug, os_vif.resolve.
    py_assoc. rewrite bind_get_globals, Hm.
    apply getitem_none in Hout. rewrite Hout. reflexivity.
  - intros m e p err Hm He Hp Herr. unfold os_vif.unplug, os_vif.resolve.
    py_assoc. rewrite bind_get_globals, Hm, He, bind_ret, Hp.
    unfold try_except, os_vif.method. rewrite bind_log.
    unfold bind at 1.
    destruct (plugin.unplug (methods p) vif info s) as [[[[]|e'] s1] t1];
      unfold outcome in Herr; simpl in Herr; [discriminate|].
    injection Herr as ->. unfold final, events; simpl. reflexivity.
Qed.

(** X2. When the plugin object registered for the VIF returns from its
    [plug] (or [unplug]), so does the dispatcher: the state is the one the
    backend left, and the events are the debug log, the backend's events and
    the info log of the success, in this order. *)
Theorem dispatch_returns (vif : objects.VIF) (info : objects.InstanceInfo)
    (s : state World) (m : stevedore.ExtensionManager)
    (e : stevedore.Extension) (p : stevedore.PluginObj) :
  _EXT_MANAGER (globals s) = Some m ->
  stevedore.getitem m (objects.plugin vif) = Some e ->
  stevedore.obj e = Some p ->
  (outcome (plugin.plug (methods p) vif info s) = Return tt ->
   os_vif.plug methods vif info s
   = (Return tt, final (plugin.plug (methods p) vif info s),
      [EvLog DEBUG "Plugging vif %s"]
      ++ events (plugin.plug (methods p) vif info s)
      ++ [EvLog INFO "Successfully plugged vif %s"]))
  /\
  (outcome (plugin.unplug (methods p) vif info s) = Return tt ->
   os_vif.unplug methods vif info s
   = (Return tt, final (plugin.unplug (methods p) vif info s),
      [EvLog DEBUG "Unplugging vif %s"]
      ++ events (plugin.unplug (methods p) vif info s)
      ++ [EvLog INFO "Successfully unplugged vif %s"])).
Proof.
  intros Hm He Hp. split; intros Hret.
  - unfold os_vif.plug, os_vif.resolve.
    py_assoc. rewrite bind_get_globals, Hm, He, bind_ret, Hp.
    unfold try_except, os_vif.method. rewrite bind_log.
    unfold bind at 1.
    destruct (plugin.plug (methods p) vif info s) as [[[[]|e'] s1] t1];
      unfold outcome in Hret; simpl in Hret; [|discriminate].
    unfold final, events; simpl. reflexivity.
  - unfold os_vif.unplug, os_vif.resolve.
    py_assoc. rewrite bind_get_globals, Hm, He, bind_ret, Hp.
    unfold try_except, os_vif.method. rewrite bind_log.
    unfold bind at 1.
    destruct (plugin.unplug (methods p) vif info s) as [[[[]|e'] s1] t1];
      unfold outcome in Hret; simpl in Hret; [|discriminate].
    unfold final, events; simpl. reflexivity.
Qed.

(** X3. A plugin that is registered but whose object was never stored
    ([obj] is still [None], as [invoke_on_load=False] leaves it) is found by
    the lookup, so no [NoMatchingPlugin] is raised: [plug] and [unplug] fail
    on the method call with an [AttributeError] wrapped in [PlugException]
    or [UnplugException], and the host is not touched. *)
Theorem dispatch_unloaded (vif : objects.VIF) (info : objects.InstanceInfo)
    (s : state World) (m : stevedore.ExtensionManager)
    (e : stevedore.Extension) :
  _EXT_MANAGER (globals s) = Some m ->
  stevedore.getitem m (objects.plugin vif) = Some e ->
  stevedore.obj e = None ->
  os_vif.plug methods vif info s
  = (Raise (PlugException vif
              (AttributeError "'NoneType' object has no attribute 'plug'")),
     s,
     [EvLog DEBUG "Plugging vif %s";
      EvLog ERROR "Failed to plug vif %(vif)s. Got error: %(err)s"])
  /\
  os_vif.unplug methods vif info s
  = (Raise (UnplugException vif
              (AttributeError "'NoneType' object has no attribute 'unplug'")),
     s,
     [EvLog DEBUG "Unplugging vif %s";
      EvLog ERROR "Failed to unplug vif %(vif)s. Got error: %(err)s"]).
Proof.
  intros Hm He Hp. split.
  - unfold os_vif.plug, os_vif.resolve.
    py_assoc. rewrite bind_get_globals, Hm, He, bind_ret, Hp.
    reflexivity.
  - unfold os_vif.unplug, os_vif.resolve.
    py_assoc. rewrite bind_get_globals, Hm, He, bind_ret, Hp.
    reflexivity.
Qed.

End DispatchMore.

(** ** [initialize]: what a run leaves in the registry *)

Section InitializeMore.

Context {World : Type} `{HostOps World}.

Import Registry.

Lemma load_one_run n (s : state World) m :
  _EXT_MANAGER (globals s) = Some m ->
  In n (stevedore.names m) ->
  exists e, stevedore.getitem m n = Some e /\
  os_vif.load_one n s
  = match fst (load (stevedore.plugin e) n (host s)) with
    | inr o =>
        (Return tt,
         Build_state
           {| _EXT_MANAGER := Some (stevedore.setitem_obj m n o);
              _IPTABLES_MANAGER := _IPTABLES_MANAGER (globals s);
              builtins_gettext := builtins_gettext (globals s) |}
           (snd (load (stevedore.plugin e) n (host s))),
         [EvLoad n])
    | inl err =>
        (Raise err,
         Build_state (globals s) (snd (load (stevedore.plugin e) n (host s))),
         [EvLoad n])
    end.
Proof.
  intros Hm Hin.
  destruct (stevedore.getitem m n) as [e|] eqn:Hget.
  2:{ apply getitem_none in Hget. contradiction. }
  exists e. split; [reflexivity|].
  unfold os_vif.load_one.
  rewrite bind_get_globals, Hm, Hget, bind_load_plugin.
  destruct (fst (load _ _ _)) as [err|o]; [reflexivity|].
  rewrite bind_get_globals. py_tidy. rewrite Hm, Hget.
  rewrite set_ext_manager_run. reflexivity.
Qed.

(** The loop of [initialize]: the plugins are loaded in the order given, up
    to the first whose [load] raises; the registry stays set and keeps its
    names. *)
Lemma load_each_run l : forall (s : state World) m,
  _EXT_MANAGER (globals s) = Some m ->
  incl l (stevedore.names m) ->
  exists k m',
    k <= length l
    /\ events (for_each l os_vif.load_one s) = map EvLoad (firstn k l)
    /\ (outcome (for_each l os_vif.load_one s) = Return tt -> k = length l)
    /\ _EXT_MANAGER (globals (final (for_each l os_vif.load_one s))) = Some m'
    /\ stevedore.names m' = stevedore.names m.
Proof.
  induction l as [|n r IH]; intros s m Hm Hl.
  - exists 0, m. simpl. repeat split; auto.
  - simpl for_each.
    destruct (load_one_run n s m Hm (Hl n (or_introl eq_refl)))
      as [e [_ Hrun]].
    unfold bind. rewrite Hrun.
    destruct (fst (load _ _ _)) as [err|o].
    + exists 1, m. unfold events, outcome, final; simpl.
      repeat split; [lia|discriminate|exact Hm].
    + set (s1 := Build_state _ _).
      destruct (IH s1 (stevedore.setitem_obj m n o)) as [k [m' [Hk [He [Hr [Hm' Hn]]]]]].
      * reflexivity.
      * rewrite names_setitem_obj. intros x Hx. apply Hl. right; exact Hx.
      * exists (S k), m'.
        destruct (for_each r os_vif.load_one s1) as [[r2 s2] t2].
        unfold events, outcome, final in *; simpl in *.
        repeat split.
        -- lia.
        -- rewrite He; reflexivity.
        -- intros Hret. rewrite (Hr Hret); reflexivity.
        -- exact Hm'.
        -- rewrite Hn. apply names_setitem_obj.
Qed.

(** X4. A call of [initialize] that goes into the loading branch
    ([reset=True], or no registry yet) leaves a registry behind whatever
    happens: it is set before the first plugin is loaded and holds the names
    discovered on the host, also when a [load] or [register_all] raises.
    So a following [initialize()] does nothing, even after a failure. *)
Theorem initialize_registers_once (reset : bool) (s : state World) :
  reset = true \/ _EXT_MANAGER (globals s) = None ->
  let s' := final (os_vif.initialize reset s) in
  exists m',
    _EXT_MANAGER (globals s') = Some m'
    /\ stevedore.names m' = map fst (entry_points "os_vif" (host s))
    /\ os_vif.initialize false s' = (Return tt, s', []).
Proof.
  intros Hguard. cbv zeta.
  assert (Hm : exists m',
    _EXT_MANAGER (globals (final (os_vif.initialize reset s))) = Some m'
    /\ stevedore.names m' = map fst (entry_points "os_vif" (host s))).
  { unfold os_vif.initialize. rewrite bind_get_globals.
    replace (reset || match _EXT_MANAGER (globals s) with
                      | Some _ => false | None => true end) with true.
    2:{ destruct Hguard as [->| ->]; [reflexivity|].
        destruct reset; reflexivity. }
    rewrite bind_new_extension_manager, bind_set_ext_manager, final_later.
    set (m0 := stevedore.fresh (entry_points "os_vif" (host s))).
    set (s0 := Build_state _ (host s)).
    destruct (load_each_run (stevedore.names m0) s0 m0 eq_refl (incl_refl _))
      as [k [m' [_ [_ [_ [Hm' Hn]]]]]].
    exists m'. split.
    - unfold bind.
      destruct (for_each (stevedore.names m0) os_vif.load_one s0)
        as [[[[]|e] s1] t1]; unfold final in *; simpl in *; [|exact Hm'].
      unfold collaborate.
      destruct (invoke register_all (host s1)) as [[e|] w]; simpl; exact Hm'.
    - rewrite Hn. apply names_fresh. }
  destruct Hm as [m' [Hm' Hn]]. exists m'.
  repeat split; [exact Hm'|exact Hn|].
  unfold os_vif.initialize at 1. rewrite bind_get_globals, Hm'. reflexivity.
Qed.

(** X5. [initialize] discovers the plugins, then loads them in discovery
    order, each once, and calls [register_all] last: these are the events of
    a call that returns.  A call stops at the first [load] that raises, and
    [register_all] is called only after every plugin has been loaded. *)
Theorem initialize_loads_in_order (reset : bool) (s : state World) :
  reset = true \/ _EXT_MANAGER (globals s) = None ->
  let run := os_vif.initialize reset s in
  let found := map fst (entry_points "os_vif" (host s)) in
  (outcome run = Return tt ->
   events run
   = EvDiscover "os_vif" :: map EvLoad found ++ [EvCall register_all])
  /\
  (exists k,
     k <= length found /\
     (events run = EvDiscover "os_vif" :: map EvLoad (firstn k found)
      \/ (k = length found /\
          events run = EvDiscover "os_vif" :: map EvLoad found
                       ++ [EvCall register_all]))).
Proof.
  intros Hguard. cbv zeta.
  unfold os_vif.initialize. rewrite bind_get_globals.
  replace (reset || match _EXT_MANAGER (globals s) with
                    | Some _ => false | None => true end) with true.
  2:{ destruct Hguard as [->| ->]; [reflexivity|].
      destruct reset; reflexivity. }
  rewrite bind_new_extension_manager, bind_set_ext_manager.
  rewrite outcome_later, events_later.
  set (m0 := stevedore.fresh (entry_points "os_vif" (host s))).
  set (s0 := Build_state _ (host s)).
  destruct (load_each_run (stevedore.names m0) s0 m0 eq_refl (incl_refl _))
    as [k [m' [Hk [He [Hr _]]]]].
  assert (Hnames : stevedore.names m0
                   = map fst (entry_points "os_vif" (host s)))
    by apply names_fresh.
  rewrite Hnames in *.
  unfold bind.
  destruct (for_each _ os_vif.load_one s0) as [[[[]|e] s1] t1];
    unfold events, outcome in *; simpl in *.
  - specialize (Hr eq_refl). subst k. rewrite firstn_all in He. subst t1.
    unfold collaborate.
    destruct (invoke register_all (host s1)) as [[e|] w]; simpl.
    + split; [discriminate|].
      eexists; split; [reflexivity|]. right. split; reflexivity.
    + split; [reflexivity|].
      eexists; split; [reflexivity|]. right. split; reflexivity.
  - split; [discriminate|]. exists k. split; [exact Hk|].
    left. rewrite He. reflexivity.
Qed.

End InitializeMore.

(** ** [host_info], and [plug] after [initialize] *)

Section HostInfo.

Context {World : Type} `{HostOps World}.
Import Registry.

Variable methods : stevedore.PluginObj -> plugin.PluginBase World.

Lemma describe_all_returns m l : forall (s : state World) ds,
  outcome (os_vif.describe_all methods m l s) = Return ds ->
  length ds = length l /\ forall n, In n l -> bound m n.
Proof.
  induction l as [|n r IH]; intros s ds.
  - simpl. unfold outcome, ret; simpl. intros [= <-]. split; [reflexivity|tauto].
  - simpl os_vif.describe_all.
    destruct (stevedore.getitem m n) as [e|] eqn:Hget; [|discriminate].
    unfold os_vif.method.
    destruct (stevedore.obj e) as [p|] eqn:Hobj; [|discriminate].
    unfold bind at 1.
    destruct (plugin.describe (methods p) s) as [[[d|err] s1] t1];
      [|discriminate].
    unfold bind at 1.
    specialize (IH s1).
    destruct (os_vif.describe_all methods m r s1) as [[[ds'|err] s2] t2];
      [|discriminate].
    unfold outcome in *; simpl in *. intros [= <-].
    destruct (IH ds' eq_refl) as [Hlen Hb]. split; [simpl; lia|].
    intros x [<-|Hx]; [|apply Hb; exact Hx].
    exists e, p. split; assumption.
Qed.

Lemma describe_all_held m (d : stevedore.PluginObj -> objects.HostPluginInfo)
    l : forall objs (s : state World),
  map (fun n => match stevedore.getitem m n with
                | Some e => stevedore.obj e
                | None => None
                end) l = map Some objs ->
  (forall p, In p objs ->
   forall s', plugin.describe (methods p) s' = (Return (d p), s', [])) ->
  os_vif.describe_all methods m l s = (Return (map d objs), s, []).
Proof.
  induction l as [|n r IH]; intros objs s Hheld Hpure.
  - destruct objs; [reflexivity|discriminate Hheld].
  - destruct objs as [|p ps]; [discriminate Hheld|].
    cbn [map] in Hheld. injection Hheld as Hn Hr.
    cbn [os_vif.describe_all].
    destruct (stevedore.getitem m n) as [e|]; [|discriminate Hn].
    rewrite Hn. unfold os_vif.method.
    rewrite (bind_returns _ _ _ _ _ _ (Hpure p (or_introl eq_refl) s)).
    rewrite (bind_returns _ _ _ _ _ _
               (IH ps s Hr (fun q Hq => Hpure q (or_intror Hq)))).
    reflexivity.
Qed.

Lemma describe_all_unloaded m l : forall (s : state World),
  In None (map (fun n => match stevedore.getitem m n with
                         | Some e => stevedore.obj e
                         | None => None
                         end) l) ->
  exists e, outcome (os_vif.describe_all methods m l s) = Raise e.
Proof.
  induction l as [|n r IH]; intros s Hin; [destruct Hin|].
  cbn [map] in Hin. cbn [os_vif.describe_all].
  destruct (stevedore.getitem m n) as [e|]; [|eexists; reflexivity].
  unfold os_vif.method.
  destruct (stevedore.obj e) as [p|]; [|eexists; reflexivity].
  destruct Hin as [Hin|Hin]; [discriminate Hin|].
  unfold bind at 1.
  destruct (plugin.describe (methods p) s) as [[[x|err] s1] t1];
    [|eexists; reflexivity].
  destruct (IH s1 Hin) as [err Herr].
  unfold bind, outcome in *.
  destruct (os_vif.describe_all methods m r s1) as [[[ds|err'] s2] t2];
    cbn [fst] in *; [discriminate Herr|].
  eexists; reflexivity.
Qed.

(** X6. [host_info] before [initialize] raises [LibraryNotInitialized]
    without any effect.  With a registry whose extensions are all loaded,
    and plugin objects whose [describe] returns a descriptor without doing
    anything else (as that of the hybrid backend), it returns the
    descriptors of the objects held for the registered names, in the order
    of the names, and leaves the state as it was.  With an extension that
    is not loaded it never returns.  And whatever [describe] does, a call
    that returns gives one descriptor per registered name. *)
Theorem host_info_describes_all (s : state World) :
  (_EXT_MANAGER (globals s) = None ->
   os_vif.host_info methods s = (Raise LibraryNotInitialized, s, []))
  /\
  (forall m objs (d : stevedore.PluginObj -> objects.HostPluginInfo),
   _EXT_MANAGER (globals s) = Some m ->
   Held.held m = map Some objs ->
   (forall p, In p objs ->
    forall s', plugin.describe (methods p) s' = (Return (d p), s', [])) ->
   os_vif.host_info methods s
   = (Return {| objects.plugin_info := map d objs |}, s, []))
  /\
  (forall m,
   _EXT_MANAGER (globals s) = Some m ->
   In None (Held.held m) ->
   exists e, outcome (os_vif.host_info methods s) = Raise e)
  /\
  (forall m info,
   _EXT_MANAGER (globals s) = Some m ->
   outcome (os_vif.host_info methods s) = Return info ->
   length (objects.plugin_info info) = length (stevedore.names m)
   /\ forall n, In n (stevedore.names m) -> bound m n).
Proof.
  split; [|split; [|split]].
  - intros Hm. unfold os_vif.host_info. rewrite bind_get_globals, Hm.
    reflexivity.
  - intros m objs d Hm Hheld Hpure. unfold os_vif.host_info.
    rewrite bind_get_globals, Hm.
    rewrite (bind_returns _ _ _ _ _ _
               (describe_all_held m d (stevedore.names m) objs s Hheld Hpure)).
    reflexivity.
  - intros m Hm Hin. unfold os_vif.host_info.
    rewrite bind_get_globals, Hm.
    destruct (describe_all_unloaded m (stevedore.names m) s Hin) as [e He].
    exists e. unfold bind, outcome in *.
    destruct (os_vif.describe_all methods m (stevedore.names m) s)
      as [[[ds|err] s1] t1]; cbn [fst] in *; [discriminate He|].
    injection He as ->. reflexivity.
  - intros m info Hm. unfold os_vif.host_info. rewrite bind_get_globals, Hm.
    unfold bind.
    pose proof (describe_all_returns m (stevedore.names m) s) as Hall.
    destruct (os_vif.describe_all methods m (stevedore.names m) s)
      as [[[ds|err] s1] t1]; [|discriminate].
    unfold outcome in *; simpl in *. intros [= <-]. simpl.
    apply Hall. reflexivity.
Qed.

Lemma initialize_binds (reset : bool) (s : state World) :
  reset = true \/ _EXT_MANAGER (globals s) = None ->
  outcome (os_vif.initialize reset s) = Return tt ->
  exists m',
    _EXT_MANAGER (globals (final (os_vif.initialize reset s))) = Some m'
    /\ stevedore.names m' = map fst (entry_points "os_vif" (host s))
    /\ forall n, In n (stevedore.names m') -> bound m' n.
Proof.
  intros Hguard. unfold os_vif.initialize. rewrite bind_get_globals.
  replace (reset || match _EXT_MANAGER (globals s) with
                    | Some _ => false | None => true end) with true.
  2:{ destruct Hguard as [->| ->]; [reflexivity|].
      destruct reset; reflexivity. }
  rewrite bind_new_extension_manager, bind_set_ext_manager.
  rewrite outcome_later, final_later.
  set (m0 := stevedore.fresh (entry_points "os_vif" (host s))).
  set (s0 := Build_state _ (host s)).
  pose proof (load_all (stevedore.names m0) s0 m0 eq_refl
                (incl_refl _)) as Hall.
  unfold bind.
  destruct (for_each (stevedore.names m0) os_vif.load_one s0)
    as [[[[]|e] s1] t1] eqn:E1; [|discriminate].
  unfold outcome, final in Hall; simpl in Hall.
  destruct (Hall eq_refl) as [m' [Hm' [Hn [Hb _]]]].
  unfold collaborate.
  destruct (invoke register_all (host s1)) as [[e|] w]; [discriminate|].
  intros _. unfold final; simpl.
  exists m'. split; [exact Hm'|]. split.
  - rewrite Hn. apply names_fresh.
  - intros n Hin. apply Hb. rewrite <- Hn. exact Hin.
Qed.

Lemma plug_reaches_backend (vif : objects.VIF) (info : objects.InstanceInfo)
    (s : state World) m e p :
  _EXT_MANAGER (globals s) = Some m ->
  stevedore.getitem m (objects.plugin vif) = Some e ->
  stevedore.obj e = Some p ->
  os_vif.plug methods vif info s
  = (match outcome (plugin.plug (methods p) vif info s) with
     | Return _ => Return tt
     | Raise err => Raise (PlugException vif err)
     end,
     final (plugin.plug (methods p) vif info s),
     [EvLog DEBUG "Plugging vif %s"]
     ++ events (plugin.plug (methods p) vif info s)
     ++ [match outcome (plugin.plug (methods p) vif info s) with
         | Return _ => EvLog INFO "Successfully plugged vif %s"
         | Raise _ =>
             EvLog ERROR "Failed to plug vif %(vif)s. Got error: %(err)s"
         end]).
Proof.
  intros Hm He Hp. unfold os_vif.plug, os_vif.resolve.
  py_assoc. rewrite bind_get_globals, Hm, He, bind_ret, Hp.
  unfold try_except, os_vif.method. rewrite bind_log.
  unfold bind at 1.
  destruct (plugin.plug (methods p) vif info s) as [[[[]|e'] s1] t1];
    unfold outcome, final, events; simpl; reflexivity.
Qed.

(** X7. After an [initialize] that returned, [plug] never raises
    [LibraryNotInitialized]: for a VIF whose backend name is not among the
    plugins discovered on the host it raises [NoMatchingPlugin] without any
    effect, and for one that is among them it calls [plug] on the plugin
    object the registry holds for that name, returns when that returns and
    raises [PlugException] over what that raises, in the state the backend
    left. *)
Theorem plug_after_initialize (reset : bool) (vif : objects.VIF)
    (info : objects.InstanceInfo) (s : state World) :
  reset = true \/ _EXT_MANAGER (globals s) = None ->
  outcome (os_vif.initialize reset s) = Return tt ->
  let s' := final (os_vif.initialize reset s) in
  let found := map fst (entry_points "os_vif" (host s)) in
  (~ In (objects.plugin vif) found ->
   os_vif.plug methods vif info s'
   = (Raise (NoMatchingPlugin (objects.plugin vif)), s', []))
  /\
  (In (objects.plugin vif) found ->
   exists m e p,
     _EXT_MANAGER (globals s') = Some m
     /\ stevedore.getitem m (objects.plugin vif) = Some e
     /\ stevedore.obj e = Some p /\
     let backend := plugin.plug (methods p) vif info s' in
     outcome (os_vif.plug methods vif info s')
     = match outcome backend with
       | Return _ => Return tt
       | Raise err => Raise (PlugException vif err)
       end
     /\ final (os_vif.plug methods vif info s') = final backend
     /\ exists last,
          events (os_vif.plug methods vif info s')
          = EvLog DEBUG "Plugging vif %s" :: events backend ++ [last]).
Proof.
  intros Hguard Hret. cbv zeta.
  destruct (initialize_binds reset s Hguard Hret) as [m' [Hm' [Hn Hb]]].
  rewrite <- Hn. split.
  - intros Hout. unfold os_vif.plug, os_vif.resolve.
    py_assoc. rewrite bind_get_globals, Hm'.
    apply getitem_none in Hout. rewrite Hout. reflexivity.
  - intros Hin. destruct (Hb _ Hin) as [e [p [He Hp]]].
    exists m', e, p. repeat split; try assumption;
      rewrite (plug_reaches_backend vif info _ m' e p Hm' He Hp);
      try reflexivity.
    eexists; reflexivity.
Qed.

End HostInfo.

(** ** The hybrid backend: names, repeated plugging, unplugging *)

Section VethNames.

Lemma slice_to_exact n : forall s,
  String.length (Py.slice_to n s) = Nat.min n (String.length s).
Proof.
  induction n as [|n IH]; intros [|c r]; simpl; try reflexivity.
  rewrite IH; reflexivity.
Qed.

(** X8. The two names of [get_veth_pair_names] are never the same; each
    has 3 characters more than the id, up to 14; and two VIFs get the same
    pair of names exactly when their ids agree on the first 11 characters,
    the rest of the id being cut off. *)
Theorem veth_pair_names_collide (vif vif' : objects.VIF) :
  let names := OvsHybridPlugin.get_veth_pair_names vif in
  fst names <> snd names
  /\ String.length (fst names) = Nat.min 14 (3 + String.length (objects.id vif))
  /\ String.length (snd names) = Nat.min 14 (3 + String.length (objects.id vif))
  /\ (names = OvsHybridPlugin.get_veth_pair_names vif'
      <-> Py.slice_to 11 (objects.id vif) = Py.slice_to 11 (objects.id vif')).
Proof.
  unfold OvsHybridPlugin.get_veth_pair_names, OvsHybridPlugin.NIC_NAME_LEN.
  cbv beta zeta delta [fst snd] iota.
  repeat split.
  - simpl. intros [=].
  - rewrite slice_to_exact. reflexivity.
  - rewrite slice_to_exact. reflexivity.
  - simpl. intros [= E _]. exact E.
  - simpl. intros ->. reflexivity.
Qed.

End VethNames.

Section HybridMore.

Context {World : Type} `{HostOps World}.

Import Attempts Teardown.

(** X9. When the bridge of the VIF and the OVS-side veth end are both
    there, [plug] returns without running a command or calling a
    collaborator, and the state is the one before. *)
Theorem plug_twice_is_noop (config : OvsHybridPlugin.Config)
    (vif : objects.VIF) (info : objects.InstanceInfo) (s : state World)
    (interface_id : string) :
  objects.port_profile vif
  = Some (objects.VIFPortProfileOpenVSwitch interface_id) ->
  path_exists ("/sys/class/net/" ++ objects.bridge_name vif)%string (host s)
  = true ->
  path_exists ("/sys/class/net/"
               ++ snd (OvsHybridPlugin.get_veth_pair_names vif))%string
    (host s) = true ->
  OvsHybridPlugin.plug config vif info s = (Return tt, s, []).
Proof.
  intros Hp Hb Hv. unfold OvsHybridPlugin.plug.
  unfold OvsHybridPlugin.require_ovs_profile. rewrite Hp.
  rewrite bind_ret. unfold ovs_linux_net.device_exists.
  rewrite bind_path_exists, Hb. simpl negb. cbv iota.
  rewrite bind_ret, bind_path_exists, Hv. reflexivity.
Qed.

(** X10. When the bridge of the VIF is there and the OVS-side veth end is
    not, [plug] runs no command of the bridge setup: it starts with the
    creation of the veth pair, its events are an initial part of the veth
    step (create the pair, bring the bridge up, attach the bridge-side end,
    create the OVS port), and all of it when the call returns. *)
Theorem plug_veth_only (config : OvsHybridPlugin.Config)
    (vif : objects.VIF) (info : objects.InstanceInfo) (s : state World)
    (interface_id : string) :
  objects.port_profile vif
  = Some (objects.VIFPortProfileOpenVSwitch interface_id) ->
  path_exists ("/sys/class/net/" ++ objects.bridge_name vif)%string (host s)
  = true ->
  path_exists ("/sys/class/net/"
               ++ snd (OvsHybridPlugin.get_veth_pair_names vif))%string
    (host s) = false ->
  let run := OvsHybridPlugin.plug config vif info s in
  let steps := HybridCommands.veth_events config vif info interface_id in
  (exists k, 1 <= k /\ events run = firstn k steps)
  /\ (outcome run = Return tt -> events run = steps).
Proof.
  intros Hp Hb Hv. cbv zeta. unfold OvsHybridPlugin.plug.
  unfold OvsHybridPlugin.require_ovs_profile. rewrite Hp.
  rewrite bind_ret. unfold ovs_linux_net.device_exists.
  rewrite bind_path_exists, Hb. simpl negb. cbv iota.
  rewrite bind_ret, bind_path_exists, Hv. simpl negb. cbv iota.
  unfold HybridCommands.veth_events.
  py_step.
  destruct (fst (invoke _ _)).
  { split; [exists 1; split; [lia|reflexivity]|discriminate]. }
  py_step.
  destruct (accepted _ _).
  2:{ split; [exists 2; split; [lia|reflexivity]|discriminate]. }
  py_step.
  destruct (accepted _ _).
  2:{ split; [exists 3; split; [lia|reflexivity]|discriminate]. }
  unfold collaborate; py_tidy.
  destruct (invoke _ _) as [[e|] w];
    (split; [exists 4; split; [lia|reflexivity]|]);
    [discriminate|intros _; reflexivity].
Qed.

(** X11. [unplug] on a host where the bridge of the VIF is there runs
    [brctl delif], [ip link set down] and [brctl delbr] up to the first that
    is refused, and deletes the OVS port only when all three were accepted;
    a call that returns has done all four, in this order.  Where the bridge
    is not there the call is the deletion of the OVS port and nothing
    else. *)
Theorem unplug_teardown (config : OvsHybridPlugin.Config)
    (vif : objects.VIF) (info : objects.InstanceInfo) (s : state World)
    (interface_id : string) :
  objects.port_profile vif
  = Some (objects.VIFPortProfileOpenVSwitch interface_id) ->
  let run := OvsHybridPlugin.unplug config vif info s in
  let cs := bridge_commands vif in
  (path_exists ("/sys/class/net/" ++ objects.bridge_name vif)%string (host s)
   = true ->
   events run
   = map EvExecute (attempted cs (host s))
     ++ (if BridgeCommands.all_accepted cs (host s)
         then [EvCall (port_deletion config vif)] else [])
   /\ (outcome run = Return tt ->
       events run = map EvExecute cs ++ [EvCall (port_deletion config vif)]))
  /\
  (path_exists ("/sys/class/net/" ++ objects.bridge_name vif)%string (host s)
   = false ->
   run = collaborate (port_deletion config vif) s
   /\ events run = [EvCall (port_deletion config vif)]).
Proof.
  intros Hp. cbv zeta. unfold OvsHybridPlugin.unplug.
  unfold OvsHybridPlugin.require_ovs_profile. rewrite Hp.
  rewrite bind_ret. unfold ovs_linux_net.device_exists.
  rewrite bind_path_exists.
  fold (port_deletion config vif).
  split; intros Hb; rewrite Hb; cbv iota.
  - unfold bridge_commands.
    fold (delif_command (objects.bridge_name vif)
            (fst (OvsHybridPlugin.get_veth_pair_names vif))).
    fold (link_down_command (objects.bridge_name vif)).
    fold (delbr_command (objects.bridge_name vif)).
    cbn [attempted BridgeCommands.all_accepted].
    py_step.
    destruct (accepted _ _); [|split; [reflexivity|discriminate]].
    py_step.
    destruct (accepted _ _); [|split; [reflexivity|discriminate]].
    py_step.
    destruct (accepted _ _); [|split; [reflexivity|discriminate]].
    py_step. unfold collaborate; py_tidy.
    destruct (invoke _ _) as [[e|] w]; split; try reflexivity.
  - rewrite bind_ret. split; [reflexivity|].
    unfold collaborate.
    destruct (invoke _ _) as [[e|] w]; reflexivity.
Qed.

End HybridMore.

(** ** Runs that stop at a refused command *)

Ltac on_exit_code :=
  match goal with
  | |- context [accepted ?k ?x] => destruct (accepted k x) eqn:?
  end.

Section Refusals.

Context {World : Type} `{HostOps World}.

Import Attempts.

(** X12. When the interface [vlan<vlan_num>] is not there, [ensure_vlan]
    logs and then runs, in this order, the command that adds the vlan, the
    one that sets the MAC address when [mac_address] is truthy, the one that
    brings the interface up and the MTU command, up to the first that is
    refused.  When none is refused it returns the interface name; otherwise
    it raises the [ProcessExecutionError] of a refused command.  The lock is
    taken before and released after in either case. *)
Theorem ensure_vlan_creation (vlan_num : Py.arg) (parent : string)
    (mac mtu : Py.arg) (s : state World) :
  let interface := ("vlan" ++ Py.str vlan_num)%string in
  let run := linux_net.ensure_vlan vlan_num parent mac mtu s in
  let cs := VlanCommands.creation_commands parent interface vlan_num mac mtu in
  path_exists ("/sys/class/net/" ++ interface)%string (host s) = false ->
  events run
  = EvLock "nova-lock_vlan"
    :: EvLog DEBUG "Starting VLAN interface %s"
    :: map EvExecute (attempted cs (host s)) ++ [EvUnlock "nova-lock_vlan"]
  /\ (all_accepted cs (host s) = true ->
      outcome run = Return interface
      /\ host (final run) = after_all cs (host s))
  /\ (all_accepted cs (host s) = false ->
      exists c code out err,
        outcome run = Raise (ProcessExecutionError c code out err)
        /\ In c cs /\ accepted (check_exit_code c) code = false).
Proof.
  intros interface run cs Habsent. subst run cs.
  unfold linux_net.ensure_vlan. fold interface. rewrite synchronized_run.
  unfold linux_net.device_exists, linux_net._set_device_mtu.
  unfold VlanCommands.creation_commands.
  change (checking (CheckCodes [0; 2; 254]%Z)
            (cmd [Py.AStr "ip"; Py.AStr "link"; Py.AStr "set";
                  Py.AStr interface; Py.AStr "mtu"; mtu]))
    with (mtu_command interface mtu).
  change (as_root (checking (CheckCodes [0; 2; 254]%Z)
            (cmd [Py.AStr "ip"; Py.AStr "link"; Py.AStr "add"; Py.AStr "link";
                  Py.AStr parent; Py.AStr "name"; Py.AStr interface;
                  Py.AStr "type"; Py.AStr "vlan"; Py.AStr "id"; vlan_num])))
    with (vlan_add_command parent interface vlan_num).
  change (as_root (checking (CheckCodes [0; 2; 254]%Z)
            (cmd [Py.AStr "ip"; Py.AStr "link"; Py.AStr "set";
                  Py.AStr interface; Py.AStr "address"; mac])))
    with (set_mac_command interface mac).
  change (as_root (checking (CheckCodes [0; 2; 254]%Z)
            (cmd [Py.AStr "ip"; Py.AStr "link"; Py.AStr "set";
                  Py.AStr interface; Py.AStr "up"])))
    with (vlan_up_command interface).
  rewrite bind_path_exists, Habsent. simpl negb. cbv iota.
  destruct (Py.truthy mac);
    cbn [app attempted all_accepted after_all fold_left];
    py_step;
    repeat (on_exit_code; py_step;
            [|split; [reflexivity|]; split; [discriminate|]; intros _;
              do 4 eexists; split; [reflexivity|];
              split; [simpl; tauto|assumption]]);
    (split; [reflexivity|]; split; [intros _; split; reflexivity|discriminate]).
Qed.

End Refusals.

(** ** [ensure_bridge]: creation refused, no interface, filtering *)

Section BridgeMore.

Context {World : Type} `{HostOps World}.

Import Attempts FilterRules.

Lemma commands_calls cs : commands (map EvCall cs) = [].
Proof. induction cs as [|c r IH]; simpl; [reflexivity|exact IH]. Qed.

Lemma for_each_collaborate cs : forall (s : state World),
  for_each cs collaborate s
  = (match first_raised cs (host s) with
     | None => Return tt
     | Some e => Raise e
     end,
     final (for_each cs collaborate s),
     map EvCall (invoked cs (host s)))
  /\ globals (final (for_each cs collaborate s)) = globals s.
Proof.
  induction cs as [|c r IH]; intros s.
  - split; reflexivity.
  - cbn [for_each invoked first_raised]. rewrite bind_collaborate.
    destruct (fst (invoke c (host s))) as [e|].
    + split; reflexivity.
    + destruct (IH (Build_state (globals s) (snd (invoke c (host s)))))
        as [Hrun Hg].
      rewrite final_later. split; [|exact Hg].
      rewrite Hrun at 1. reflexivity.
Qed.

Lemma for_each_map {A B} (f : A -> B) (body : B -> M World unit) l :
  forall s, for_each l (fun a => body (f a)) s = for_each (map f l) body s.
Proof.
  induction l as [|a r IH]; intros s; simpl; [reflexivity|].
  unfold bind. destruct (body (f a) s) as [[[[]|e] s1] t1]; [|reflexivity].
  rewrite IH. reflexivity.
Qed.

Lemma for_each_then_apply l : forall (s : state World),
  bind (for_each l collaborate) (fun _ => collaborate iptables_apply) s
  = for_each (l ++ [iptables_apply]) collaborate s.
Proof.
  induction l as [|c r IH]; intros s.
  - cbn [for_each app]. rewrite bind_ret, bind_ret_tt. reflexivity.
  - cbn [for_each app]. rewrite bind_assoc. unfold bind at 1 3.
    destruct (collaborate c s) as [[[[]|e] s1] t1]; [|reflexivity].
    rewrite IH. reflexivity.
Qed.

Lemma filtering_block_calls bridge (gateway : bool) mgr (s : state World) :
  bind (if gateway
        then for_each (get_gateway_rules mgr bridge)
               (fun rule => collaborate (add_rule (fst rule) (snd rule)))
        else
          collaborate (add_rule "FORWARD"
            ("--in-interface " ++ bridge ++ " -j "
             ++ iptables_drop_action mgr)%string) ;;
          collaborate (add_rule "FORWARD"
            ("--out-interface " ++ bridge ++ " -j "
             ++ iptables_drop_action mgr)%string))
    (fun _ => collaborate iptables_apply) s
  = for_each (filtering_calls bridge gateway mgr) collaborate s.
Proof.
  unfold filtering_calls. destruct gateway.
  - rewrite <- for_each_then_apply. unfold bind.
    rewrite (for_each_map (fun rule => add_rule (fst rule) (snd rule))
               collaborate).
    reflexivity.
  - cbn [app for_each]. unfold drop_rule.
    rewrite bind_assoc.
    unfold bind, collaborate.
    cbn [append].
    destruct (invoke _ (host s)) as [[e|] w1]; [reflexivity|]. simpl.
    destruct (invoke _ w1) as [[e|] w2]; [reflexivity|]. simpl.
    destruct (invoke _ w2) as [[e|] w3]; reflexivity.
Qed.

Lemma apply_filtering_run bridge gateway mgr (s : state World) :
  _IPTABLES_MANAGER (globals s) = Some mgr ->
  outcome (linux_net.apply_filtering bridge gateway s)
  = match first_raised (filtering_calls bridge gateway mgr) (host s) with
    | None => Return tt
    | Some e => Raise e
    end
  /\ events (linux_net.apply_filtering bridge gateway s)
     = map EvCall (invoked (filtering_calls bridge gateway mgr) (host s)).
Proof.
  intros Hmgr. unfold linux_net.apply_filtering.
  rewrite bind_get_globals, Hmgr.
  rewrite filtering_block_calls.
  destruct (for_each_collaborate (filtering_calls bridge gateway mgr) s)
    as [Hrun _].
  rewrite Hrun. split; reflexivity.
Qed.

Lemma filtering_tail_no_commands bridge (gateway filtering : bool)
    (s : state World) :
  commands (events ((if filtering
                     then linux_net.apply_filtering bridge gateway
                     else ret tt) s)) = [].
Proof.
  destruct filtering; [|reflexivity].
  destruct (_IPTABLES_MANAGER (globals s)) as [mgr|] eqn:Hmgr.
  - destruct (apply_filtering_run bridge gateway mgr s Hmgr) as [_ ->].
    apply commands_calls.
  - unfold linux_net.apply_filtering. rewrite bind_get_globals, Hmgr.
    reflexivity.
Qed.

(** What [ensure_bridge] does before the filtering step is the call
    without filtering; the filtering step then runs in the state that call
    ends in, with the globals it started from. *)
Lemma ensure_bridge_then_filtering bridge interface (gateway : bool)
    (s : state World) :
  let plain := linux_net.ensure_bridge bridge interface gateway false s in
  let filtered := linux_net.ensure_bridge bridge interface gateway true s in
  globals (final plain) = globals s
  /\ exists body,
       events plain = EvLock "nova-lock_bridge" :: body
                      ++ [EvUnlock "nova-lock_bridge"]
       /\ (forall e, outcome plain = Raise e -> filtered = plain)
       /\ (outcome plain = Return tt ->
           filtered
           = (outcome (linux_net.apply_filtering bridge gateway (final plain)),
              final (linux_net.apply_filtering bridge gateway (final plain)),
              EvLock "nova-lock_bridge" :: body
              ++ events (linux_net.apply_filtering bridge gateway
                           (final plain))
              ++ [EvUnlock "nova-lock_bridge"])).
Proof.
  cbv zeta. unfold linux_net.ensure_bridge.
  rewrite !synchronized_run. unfold linux_net.device_exists.
  rewrite !bind_path_exists.
  set (present := path_exists _ (host s)).
  match goal with
  | |- context [bind ?blk (fun _ => bind ?att
                  (fun _ => linux_net.apply_filtering _ _)) s] =>
      set (block := blk); set (attach := att)
  end.
  rewrite <- (bind_assoc block (fun _ => attach)
                (fun _ => linux_net.apply_filtering bridge gateway) s).
  rewrite <- (bind_assoc block (fun _ => attach) (fun _ => ret tt) s).
  rewrite bind_ret_tt.
  assert (Hkeep : Run.keeps_globals (bind block (fun _ => attach))).
  { apply keeps_bind.
    - subst block. destruct (negb present); [|apply keeps_ret].
      apply keeps_bind; [apply keeps_log|intros _].
      repeat (apply keeps_bind; [apply keeps_execute|intros _]).
      apply keeps_ret.
    - intros _. subst attach.
      destruct interface as [[|c r]|]; try apply keeps_ret.
      apply keeps_attach_interface. }
  specialize (Hkeep s).
  set (P := bind block (fun _ => attach)) in *.
  destruct (P s) as [[[[]|e] s1] t1] eqn:EP; cbn [fst snd] in *.
  - rewrite (bind_returns _ _ _ _ _ _ EP).
    unfold outcome, final, events. cbn [fst snd].
    split; [exact Hkeep|]. exists t1. split; [reflexivity|].
    split; [discriminate|]. intros _.
    rewrite <- app_assoc. reflexivity.
  - rewrite (bind_raises _ _ _ _ _ _ EP).
    unfold outcome, final, events. cbn [fst snd].
    split; [exact Hkeep|]. exists t1. split; [reflexivity|].
    split; [reflexivity|discriminate].
Qed.

(** X13. Called with [interface] [None] or the empty string,
    [ensure_bridge] runs no command of the attach step or of the migration:
    its commands are those that create the bridge when it is missing, up to
    the first refused.  With the bridge there and [filtering=False] the call
    only takes and releases the lock. *)
Theorem ensure_bridge_without_interface (bridge : string)
    (interface : option string) (gateway filtering : bool)
    (s : state World) :
  interface = None \/ interface = Some "" ->
  let run := linux_net.ensure_bridge bridge interface gateway filtering s in
  commands (events run) = attempted (pending bridge (host s)) (host s)
  /\ (path_exists ("/sys/class/net/" ++ bridge)%string (host s) = true ->
      filtering = false ->
      run = (Return tt, s,
             [EvLock "nova-lock_bridge"; EvUnlock "nova-lock_bridge"])).
Proof.
  intros Hi. cbv zeta. unfold linux_net.ensure_bridge.
  rewrite synchronized_run. unfold linux_net.device_exists.
  rewrite bind_path_exists. unfold pending.
  assert (Hskip : forall s' : state World,
    bind (match interface with
          | Some (String _ _ as i) => linux_net.attach_interface bridge i
          | _ => ret tt
          end)
      (fun _ => if filtering then linux_net.apply_filtering bridge gateway
                else ret tt) s'
    = (if filtering then linux_net.apply_filtering bridge gateway
       else ret tt) s').
  { intros s'. destruct Hi as [-> | ->]; apply bind_ret. }
  destruct (path_exists _ (host s)); simpl negb; cbv iota.
  - rewrite bind_ret, Hskip. split.
    + unfold events at 1. cbn [snd commands]. rewrite commands_app.
      rewrite filtering_tail_no_commands. reflexivity.
    + intros _ ->. destruct s; reflexivity.
  - split; [|discriminate].
    unfold creation_commands, addbr_command, setfd_command, stp_off_command,
      link_up_command.
    cbn [attempted]. py_step.
    repeat (on_exit_code; py_step; [|reflexivity]).
    rewrite Hskip. unfold events at 1. cbn [snd app commands].
    rewrite commands_app, filtering_tail_no_commands. reflexivity.
Qed.

(** X14. When the bridge is missing and one of the commands that create
    it is refused, [ensure_bridge] raises the [ProcessExecutionError] of
    that command: nothing is run after it, so the interface is not attached
    and no filtering rule is added, whatever the arguments; the lock is
    released and the globals are as before. *)
Theorem bridge_creation_refused (bridge : string)
    (interface : option string) (gateway filtering : bool)
    (s : state World) :
  path_exists ("/sys/class/net/" ++ bridge)%string (host s) = false ->
  all_accepted (creation_commands bridge) (host s) = false ->
  let run := linux_net.ensure_bridge bridge interface gateway filtering s in
  events run
  = EvLock "nova-lock_bridge"
    :: EvLog DEBUG "Starting Bridge %s"
    :: map EvExecute (attempted (creation_commands bridge) (host s))
    ++ [EvUnlock "nova-lock_bridge"]
  /\ (exists c code out err,
        outcome run = Raise (ProcessExecutionError c code out err)
        /\ In c (creation_commands bridge)
        /\ accepted (check_exit_code c) code = false)
  /\ globals (final run) = globals s.
Proof.
  intros Habsent Hno. cbv zeta. unfold linux_net.ensure_bridge.
  rewrite synchronized_run. unfold linux_net.device_exists.
  rewrite bind_path_exists, Habsent. simpl negb. cbv iota.
  revert Hno.
  unfold creation_commands, addbr_command, setfd_command, stp_off_command,
    link_up_command.
  cbn [attempted all_accepted]. py_step.
  repeat (on_exit_code; py_step;
          [|intros _; split; [reflexivity|]; split; [|reflexivity];
            do 4 eexists; split; [reflexivity|];
            split; [simpl; tauto|assumption]]).
  discriminate.
Qed.

(** X15. Once [configure] has stored a manager, a call of
    [ensure_bridge] with filtering, where the same call without filtering
    returns, has the events of that call and then calls the manager: with
    [gateway=True] one [add_rule] per gateway rule of the bridge, otherwise
    the two [FORWARD] rules that drop what goes in and out of the bridge,
    and [apply] last, up to the first call that raises; the outcome is what
    that call raised, or a return. *)
Theorem configured_filtering (bridge : string) (interface : option string)
    (gateway : bool) (mgr : IptablesManager) (s : state World) :
  let s' := final (linux_net.configure (Some mgr) s) in
  let plain := linux_net.ensure_bridge bridge interface gateway false s' in
  let filtered := linux_net.ensure_bridge bridge interface gateway true s' in
  let calls := filtering_calls bridge gateway mgr in
  outcome plain = Return tt ->
  outcome filtered
  = match first_raised calls (host (final plain)) with
    | None => Return tt
    | Some e => Raise e
    end
  /\ exists body,
       events plain = EvLock "nova-lock_bridge" :: body
                      ++ [EvUnlock "nova-lock_bridge"]
       /\ events filtered
          = EvLock "nova-lock_bridge" :: body
            ++ map EvCall (invoked calls (host (final plain)))
            ++ [EvUnlock "nova-lock_bridge"].
Proof.
  cbv zeta. intros Hret.
  set (s' := final (linux_net.configure (Some mgr) s)) in *.
  destruct (ensure_bridge_then_filtering bridge interface gateway s')
    as [Hg [body [Hplain [_ Hfil]]]].
  specialize (Hfil Hret).
  assert (Hmgr : _IPTABLES_MANAGER
                   (globals (final (linux_net.ensure_bridge bridge interface
                                      gateway false s'))) = Some mgr).
  { rewrite Hg. reflexivity. }
  destruct (apply_filtering_run bridge gateway mgr _ Hmgr) as [Ho He].
  rewrite Hfil. unfold outcome at 1, events at 3. cbn [fst snd].
  split; [exact Ho|]. exists body. split; [exact Hplain|].
  rewrite He. reflexivity.
Qed.

End BridgeMore.

(** ** [ensure_bridge]: a command of the migration is refused *)

Ltac flatten_events :=
  unfold Run.later; cbn [fst snd host globals];
  repeat (progress (rewrite ?map_app; cbn [map app]));
  reflexivity.

Section MigrationRefused.

Context {World : Type} `{HostOps World}.

Import Attempts Migration.

Lemma attempted_app cs1 : forall cs2 (w : World),
  attempted (cs1 ++ cs2) w
  = if all_accepted cs1 w then cs1 ++ attempted cs2 (after_all cs1 w)
    else attempted cs1 w.
Proof.
  induction cs1 as [|c r IH]; intros cs2 w; [reflexivity|].
  cbn [app attempted all_accepted]. rewrite after_all_cons.
  destruct (accepted _ _); cbn [andb]; [|reflexivity].
  rewrite IH. destruct (all_accepted r _); reflexivity.
Qed.

Lemma delete_via_routes_refused lines : forall old (s : state World),
  all_accepted (map route_del_command (filter has_via (map PyStr.split lines)))
    (host s) = false ->
  exists c code out err s',
    linux_net.delete_via_routes lines old s
    = (Raise (ProcessExecutionError c code out err), s',
       map EvExecute
         (attempted (map route_del_command
                       (filter has_via (map PyStr.split lines))) (host s)))
    /\ In c (map route_del_command (filter has_via (map PyStr.split lines)))
    /\ accepted (check_exit_code c) code = false.
Proof.
  induction lines as [|line rest IH]; intros old s Hno.
  - discriminate Hno.
  - cbn [linux_net.delete_via_routes map filter] in *.
    fold (has_via (PyStr.split line)) in *.
    destruct (has_via (PyStr.split line)).
    + cbn [map all_accepted attempted] in *.
      rewrite bind_execute.
      change (as_root (cmd ([Py.AStr "ip"; Py.AStr "route"; Py.AStr "del"]
                            ++ map Py.AStr (PyStr.split line))))
        with (route_del_command (PyStr.split line)).
      destruct (accepted _ _) eqn:E1; cbn [andb] in Hno.
      * destruct (IH (old ++ [PyStr.split line])
                    (Build_state (globals s)
                       (after (route_del_command (PyStr.split line))
                          (host s))) Hno)
          as [c [code [out [err [s' [Hrun [Hin Hc]]]]]]].
        rewrite Hrun. exists c, code, out, err, s'.
        split; [reflexivity|]. split; [right; exact Hin|exact Hc].
      * do 5 eexists. split; [reflexivity|].
        split; [left; reflexivity|exact E1].
    + apply IH. exact Hno.
Qed.

Lemma move_address_refused bridge line (s : state World) :
  all_accepted (move_commands bridge line) (host s) = false ->
  exists c code out err s',
    linux_net.move_address bridge line s
    = (Raise (ProcessExecutionError c code out err), s',
       map EvExecute (attempted (move_commands bridge line) (host s)))
    /\ In c (move_commands bridge line)
    /\ accepted (check_exit_code c) code = false.
Proof.
  unfold move_commands, linux_net.move_address.
  destruct (PyStr.split line) as [|first rest]; [discriminate|].
  destruct (String.eqb first "inet"); [|discriminate].
  destruct (rev (first :: rest)) as [|last [|before_last tail]];
    [discriminate|discriminate|].
  cbn [all_accepted attempted].
  unfold addr_del_command, addr_add_command.
  rewrite bind_execute.
  destruct (accepted _ _) eqn:E1; cbn [andb].
  - py_tidy. rewrite bind_execute. py_tidy.
    match goal with
    | |- context [accepted ?k ?x] => destruct (accepted k x) eqn:E2
    end; [discriminate|]. intros _.
    do 5 eexists. split; [reflexivity|].
    split; [right; left; reflexivity|exact E2].
  - intros _. do 5 eexists. split; [reflexivity|].
    split; [left; reflexivity|exact E1].
Qed.

Lemma for_each_move_refused bridge lines : forall (s : state World),
  forallb line_ok lines = true ->
  all_accepted (flat_map (move_commands bridge) lines) (host s) = false ->
  exists c code out err s',
    for_each lines (linux_net.move_address bridge) s
    = (Raise (ProcessExecutionError c code out err), s',
       map EvExecute
         (attempted (flat_map (move_commands bridge) lines) (host s)))
    /\ In c (flat_map (move_commands bridge) lines)
    /\ accepted (check_exit_code c) code = false.
Proof.
  induction lines as [|line rest IH]; intros s Hok Hno.
  - discriminate Hno.
  - cbn [forallb flat_map for_each] in *.
    apply andb_prop in Hok as [Hline Hok].
    rewrite all_accepted_app in Hno. rewrite attempted_app.
    destruct (all_accepted (move_commands bridge line) (host s)) eqn:E1;
      cbn [andb] in Hno.
    + rewrite (bind_returns _ _ _ _ _ _
                 (move_address_run bridge line s Hline E1)).
      destruct (IH (Build_state (globals s)
                      (after_all (move_commands bridge line) (host s)))
                  Hok Hno)
        as [c [code [out [err [s' [Hrun [Hin Hc]]]]]]].
      rewrite Hrun. cbn [fst snd]. exists c, code, out, err, s'.
      split; [rewrite map_app; reflexivity|].
      split; [apply in_or_app; right; exact Hin|exact Hc].
    + destruct (move_address_refused bridge line s E1)
        as [c [code [out [err [s' [Hrun [Hin Hc]]]]]]].
      rewrite (bind_raises _ _ _ _ _ _ Hrun).
      exists c, code, out, err, s'.
      split; [reflexivity|].
      split; [apply in_or_app; left; exact Hin|exact Hc].
Qed.

Lemma for_each_add_refused routes : forall (s : state World),
  all_accepted (map route_add_command routes) (host s) = false ->
  exists c code out err s',
    for_each routes
      (fun fields =>
         execute (as_root (cmd ([Py.AStr "ip"; Py.AStr "route"; Py.AStr "add"]
                                ++ map Py.AStr fields))) ;;
         ret tt) s
    = (Raise (ProcessExecutionError c code out err), s',
       map EvExecute (attempted (map route_add_command routes) (host s)))
    /\ In c (map route_add_command routes)
    /\ accepted (check_exit_code c) code = false.
Proof.
  induction routes as [|f rest IH]; intros s Hno.
  - discriminate Hno.
  - cbn [map all_accepted attempted for_each] in *.
    rewrite bind_assoc, bind_execute.
    change (as_root (cmd ([Py.AStr "ip"; Py.AStr "route"; Py.AStr "add"]
                          ++ map Py.AStr f)))
      with (route_add_command f).
    destruct (accepted _ _) eqn:E1; cbn [andb] in Hno.
    + py_tidy. rewrite bind_ret.
      destruct (IH (Build_state (globals s)
                      (after (route_add_command f) (host s))) Hno)
        as [c [code [out [err [s' [Hrun [Hin Hc]]]]]]].
      rewrite Hrun. exists c, code, out, err, s'.
      split; [reflexivity|]. split; [right; exact Hin|exact Hc].
    + do 5 eexists. split; [reflexivity|].
      split; [left; reflexivity|exact E1].
Qed.

Lemma attach_interface_refused_script bridge interface (s : state World) :
  tolerated interface bridge
    (stderr (addif_command bridge interface) (host s)) ->
  forallb line_ok (listed bridge interface (host s)) = true ->
  all_accepted (script bridge interface (host s)) (host s) = false ->
  exists c code out err s',
    linux_net.attach_interface bridge interface s
    = (Raise (ProcessExecutionError c code out err), s',
       EvLog DEBUG "Adding interface %(interface)s to bridge %(bridge)s"
       :: map EvExecute
            (attempted (script bridge interface (host s)) (host s)))
    /\ In c (script bridge interface (host s))
    /\ accepted (check_exit_code c) code = false.
Proof.
  intros Htol Hok Hno.
  unfold script in *. unfold listed, recorded, attached, via_routes in *.
  rewrite !after_all_cons, !after_all_nil in *.
  set (w2 := after (interface_up_command interface)
               (after (addif_command bridge interface) (host s))) in *.
  set (routes := filter has_via
                   (map PyStr.split
                      (PyStr.split_on PyStr.nl_char
                         (stdout (route_show_command interface) w2)))) in *.
  set (w3 := after (route_show_command interface) w2) in *.
  set (w4 := after_all (map route_del_command routes) w3) in *.
  set (lines := PyStr.split_on PyStr.nl_char
                  (stdout (addr_show_command interface) w4)) in *.
  rewrite attach_interface_named.
  rewrite bind_log, bind_execute.
  rewrite (accepted_unchecked (addif_command bridge interface)) by reflexivity.
  py_tidy.
  assert (Hpass :
    andb (negb (String.eqb (stderr (addif_command bridge interface) (host s)) ""))
         (negb (String.eqb (stderr (addif_command bridge interface) (host s))
                  (linux_net.already_member_msg interface bridge))) = false).
  { destruct Htol as [-> | ->].
    - reflexivity.
    - rewrite String.eqb_refl. apply andb_false_r. }
  rewrite Hpass, bind_ret. clear Hpass.
  rewrite bind_execute.
  rewrite (accepted_unchecked (interface_up_command interface))
    by reflexivity.
  py_tidy. fold w2.
  cbn [app all_accepted attempted] in *.
  rewrite (accepted_unchecked (addif_command bridge interface)) in *
    by reflexivity.
  rewrite (accepted_unchecked (interface_up_command interface)) in *
    by reflexivity.
  cbn [andb] in Hno. fold w2 in Hno |- *. fold w3 in Hno |- *.
  rewrite bind_execute. py_tidy. fold w3.
  destruct (accepted (check_exit_code (route_show_command interface)) _)
    eqn:Eshow; cbn [andb] in Hno.
  2:{ do 5 eexists. split; [reflexivity|].
      split; [right; right; left; reflexivity|exact Eshow]. }
  rewrite all_accepted_app in Hno. rewrite attempted_app.
  destruct (all_accepted (map route_del_command routes) w3) eqn:Edel;
    cbn [andb] in Hno.
  2:{ destruct (delete_via_routes_refused
                  (PyStr.split_on PyStr.nl_char
                     (stdout (route_show_command interface) w2)) []
                  (Build_state (globals s) w3) Edel)
        as [c [code [out [err [s' [Hrun [Hin Hc]]]]]]].
      rewrite (bind_raises _ _ _ _ _ _ Hrun).
      exists c, code, out, err, s'. split; [reflexivity|].
      split; [|exact Hc].
      right; right; right. apply in_or_app. left. exact Hin. }
  rewrite (bind_returns _ _ _ _ _ _
             (delete_via_routes_run _ [] (Build_state (globals s) w3) Edel)).
  cbn [host globals]. rewrite app_nil_l. fold routes. fold w4.
  cbn [app all_accepted attempted] in *. fold w4 in Hno |- *.
  rewrite bind_execute. py_tidy.
  destruct (accepted (check_exit_code (addr_show_command interface)) _)
    eqn:Elist; cbn [andb] in Hno.
  2:{ do 5 eexists. split.
      - flatten_events.
      - split; [|exact Elist].
        right; right; right. apply in_or_app. right. left. reflexivity. }
  fold lines. rewrite all_accepted_app in Hno. rewrite attempted_app.
  destruct (all_accepted (flat_map (move_commands bridge) lines) _) eqn:Emove;
    cbn [andb] in Hno.
  2:{ destruct (for_each_move_refused bridge lines
                  (Build_state (globals s)
                     (after (addr_show_command interface) w4)) Hok Emove)
        as [c [code [out [err [s' [Hrun [Hin Hc]]]]]]].
      rewrite (bind_raises _ _ _ _ _ _ Hrun).
      exists c, code, out, err, s'. split.
      - flatten_events.
      - split; [|exact Hc].
        right; right; right. apply in_or_app. right. right.
        apply in_or_app. left. exact Hin. }
  rewrite (bind_returns _ _ _ _ _ _
             (for_each_move_run bridge lines
                (Build_state (globals s)
                   (after (addr_show_command interface) w4)) Hok Emove)).
  cbn [host globals fst snd].
  destruct (for_each_add_refused routes
              (Build_state (globals s)
                 (after_all (flat_map (move_commands bridge) lines)
                    (after (addr_show_command interface) w4))) Hno)
    as [c [code [out [err [s' [Hrun [Hin Hc]]]]]]].
  cbn [app] in Hrun. rewrite Hrun. exists c, code, out, err, s'. split.
  - flatten_events.
  - split; [|exact Hc].
    right; right; right. apply in_or_app. right. right.
    apply in_or_app. right. exact Hin.
Qed.

End MigrationRefused.

Section BridgeFailures.

Context {World : Type} `{HostOps World}.

Import Attempts Migration.

Lemma commands_starting_pending bridge (w : World) :
  commands (starting_events bridge w) = pending bridge w.
Proof.
  unfold starting_events, pending.
  destruct (path_exists _ w); [reflexivity|].
  cbn [commands]. apply commands_executed.
Qed.

(** X16. In a call of [ensure_bridge] that gets to the migration (the
    commands creating the bridge accepted, the attach let pass, the lines
    of [ip addr show] with the fields the loop indexes): when one of its
    commands is refused (the route listing, a route deletion, the address
    listing, an address deletion or addition, a route addition), the call
    raises the [ProcessExecutionError] of that command and has run the
    script up to it and nothing after, so what was deleted before is not
    put back. *)
Theorem migration_stops_at_refusal (bridge : string) (c : ascii) (r : string)
    (gateway filtering : bool) (s : state World) :
  let interface := String c r in
  let ready := after_all (pending bridge (host s)) (host s) in
  let run := linux_net.ensure_bridge bridge (Some interface) gateway
               filtering s in
  all_accepted (pending bridge (host s)) (host s) = true ->
  tolerated interface bridge (stderr (addif_command bridge interface) ready) ->
  forallb line_ok (listed bridge interface ready) = true ->
  all_accepted (script bridge interface ready) ready = false ->
  commands (events run)
  = pending bridge (host s) ++ attempted (script bridge interface ready) ready
  /\ exists refused code out err,
       outcome run = Raise (ProcessExecutionError refused code out err)
       /\ In refused (script bridge interface ready)
       /\ accepted (check_exit_code refused) code = false.
Proof.
  cbv zeta. intros Hpre Htol Hok Hno.
  unfold linux_net.ensure_bridge. rewrite synchronized_run.
  rewrite (bridge_prelude _ _ _ Hpre).
  set (ready := after_all (pending bridge (host s)) (host s)) in *.
  destruct (attach_interface_refused_script bridge (String c r)
              (Build_state (globals s) ready) Htol Hok Hno)
    as [c' [code [out [err [s' [Hrun [Hin Hc]]]]]]].
  rewrite (bind_raises _ _ _ _ _ _ Hrun).
  cbn [host] in *.
  unfold outcome, events, Run.later. cbn [fst snd]. split.
  - cbn [commands]. rewrite !commands_app. cbn [commands].
    rewrite commands_starting_pending, commands_executed, app_nil_r.
    reflexivity.
  - exists c', code, out, err. split; [reflexivity|]. split; assumption.
Qed.

Lemma append_empty s : (s ++ "")%string = s.
Proof. induction s as [|a r IH]; simpl; [reflexivity|rewrite IH; reflexivity]. Qed.

Lemma percent_s_failed_to_add err :
  PyStr.percent_s "Failed to add interface: %s" err false
  = Some ("Failed to add interface: " ++ err)%string.
Proof. simpl. rewrite append_empty. reflexivity. Qed.

(** X17. What a refused attach raises: the message is built through the
    name [_], which the module does not import, so without a translation
    function installed as a builtin the call raises [NameError] for [_];
    with one that leaves the template as it is, it raises [Exception] with
    the message [Failed to add interface: ] followed by the error output of
    [brctl addif]. *)
Theorem attach_failure_message (bridge : string) (c : ascii) (r : string)
    (gateway filtering : bool) (s : state World) :
  let interface := String c r in
  let ready := after_all (pending bridge (host s)) (host s) in
  let err := stderr (addif_command bridge interface) ready in
  let run := linux_net.ensure_bridge bridge (Some interface) gateway
               filtering s in
  all_accepted (pending bridge (host s)) (host s) = true ->
  ~ tolerated interface bridge err ->
  (builtins_gettext (globals s) = None ->
   outcome run = Raise (NameError "_"))
  /\
  (forall gettext,
   builtins_gettext (globals s) = Some gettext ->
   gettext "Failed to add interface: %s" = "Failed to add interface: %s" ->
   outcome run
   = Raise (PyException ("Failed to add interface: " ++ err)%string)).
Proof.
  cbv zeta. intros Hpre Hno.
  unfold linux_net.ensure_bridge. rewrite synchronized_run.
  rewrite (bridge_prelude _ _ _ Hpre).
  set (ready := after_all (pending bridge (host s)) (host s)) in *.
  rewrite attach_interface_named.
  unfold outcome at 1. cbn [fst]. rewrite outcome_later.
  rewrite bind_assoc, bind_log, outcome_later.
  rewrite bind_assoc, bind_execute.
  rewrite (accepted_unchecked (addif_command bridge (String c r)))
    by reflexivity.
  rewrite outcome_later. py_tidy.
  destruct (String.eqb_spec
              (stderr (addif_command bridge (String c r)) ready) "")
    as [E1|E1]; [exfalso; apply Hno; left; exact E1|].
  destruct (String.eqb_spec
              (stderr (addif_command bridge (String c r)) ready)
              (linux_net.already_member_msg (String c r) bridge))
    as [E2|E2]; [exfalso; apply Hno; right; exact E2|].
  cbn [negb andb].
  unfold linux_net.raise_failed_to_add.
  rewrite !bind_assoc, bind_get_globals. py_tidy.
  split.
  - intros ->. reflexivity.
  - intros gettext -> ->. rewrite percent_s_failed_to_add. reflexivity.
Qed.

End BridgeFailures.

(** ** The loop body that moves an address *)

Section MoveAddress.

Context {World : Type} `{HostOps World}.

Import Attempts.

Lemma move_address_fields_run bridge line params last before_last tail
    (s : state World) :
  PyStr.split line = "inet" :: params ->
  rev ("inet" :: params) = last :: before_last :: tail ->
  let kept := if PyStr.mem before_last ["secondary"; "dynamic"]
              then PyStr.slice_1_minus 2 ("inet" :: params)
              else PyStr.slice_1_minus 1 ("inet" :: params) in
  events (linux_net.move_address bridge line s)
  = map EvExecute
      (attempted [addr_del_command kept last; addr_add_command kept bridge]
         (host s)).
Proof.
  intros Hsplit Hrev. cbv zeta. unfold linux_net.move_address.
  rewrite Hsplit. cbn [String.eqb Ascii.eqb Bool.eqb]. cbv iota. rewrite Hrev.
  cbn [attempted]. unfold addr_del_command, addr_add_command.
  rewrite bind_execute.
  match goal with
  | |- context [accepted ?k ?x] => destruct (accepted k x)
  end; [|reflexivity].
  py_tidy. rewrite bind_execute. py_tidy.
  match goal with
  | |- context [accepted ?k ?x] => destruct (accepted k x)
  end; reflexivity.
Qed.

(** X18. The body of the loop over the lines of [ip addr show]: a line
    that is empty or does not start with [inet] is skipped; a line that is
    only [inet] raises [IndexError] before any command; for a line
    [inet <params> <flag> <dev>] whose flag is [secondary] or [dynamic] the
    flag is left out, and for a line [inet <params> <dev>] nothing is: the
    address [<params>] is deleted from [<dev>] and, when the deletion was
    accepted, added to the bridge. *)
Theorem move_address_reads_fields (bridge line : string)
    (params : list string) (dev : string) (s : state World) :
  let run := linux_net.move_address bridge line s in
  (PyStr.split line = ["inet"] -> run = (Raise IndexError, s, []))
  /\
  (forall first rest,
   PyStr.split line = first :: rest -> first <> "inet" ->
   run = (Return tt, s, []))
  /\
  (PyStr.split line = [] -> run = (Return tt, s, []))
  /\
  (forall flag,
   In flag ["secondary"; "dynamic"] ->
   PyStr.split line = "inet" :: params ++ [flag; dev] ->
   events run
   = map EvExecute
       (attempted [addr_del_command params dev;
                   addr_add_command params bridge] (host s)))
  /\
  (PyStr.split line = "inet" :: params ++ [dev] ->
   ~ In (last params "inet") ["secondary"; "dynamic"] ->
   events run
   = map EvExecute
       (attempted [addr_del_command params dev;
                   addr_add_command params bridge] (host s))).
Proof.
  cbv zeta. repeat split.
  - intros E. unfold linux_net.move_address. rewrite E. reflexivity.
  - intros first rest E Hne. unfold linux_net.move_address. rewrite E.
    apply String.eqb_neq in Hne. rewrite Hne. reflexivity.
  - intros E. unfold linux_net.move_address. rewrite E. reflexivity.
  - intros flag Hflag E.
    assert (Hrev : rev ("inet" :: params ++ [flag; dev])
                   = dev :: flag :: rev ("inet" :: params)).
    { change ("inet" :: params ++ [flag; dev])
        with (("inet" :: params) ++ [flag; dev]).
      rewrite rev_app_distr. reflexivity. }
    rewrite (move_address_fields_run bridge line _ _ _ _ s E Hrev).
    assert (Hmem : PyStr.mem flag ["secondary"; "dynamic"] = true).
    { destruct Hflag as [<-|[<-|[]]]; reflexivity. }
    rewrite Hmem. unfold PyStr.slice_1_minus. cbn [tl length].
    rewrite length_app. cbn [length].
    replace (S (length params + 2) - 1 - 2) with (length params) by lia.
    rewrite firstn_length_app. reflexivity.
  - intros E Hflag.
    assert (Hrev : exists tail,
              rev ("inet" :: params ++ [dev])
              = dev :: last params "inet" :: tail).
    { change ("inet" :: params ++ [dev]) with (("inet" :: params) ++ [dev]).
      rewrite rev_app_distr. cbn [rev app].
      destruct params as [|p ps] using rev_ind.
      - exists []. reflexivity.
      - rewrite last_last. rewrite rev_app_distr. cbn [rev app].
        eexists. reflexivity. }
    destruct Hrev as [tail Hrev].
    rewrite (move_address_fields_run bridge line _ _ _ _ s E Hrev).
    assert (Hmem : PyStr.mem (last params "inet") ["secondary"; "dynamic"]
                   = false).
    { unfold PyStr.mem. cbn [existsb].
      destruct (String.eqb_spec (last params "inet") "secondary") as [E1|_];
        [exfalso; apply Hflag; left; symmetry; exact E1|].
      destruct (String.eqb_spec (last params "inet") "dynamic") as [E2|_];
        [exfalso; apply Hflag; right; left; symmetry; exact E2|].
      reflexivity. }
    rewrite Hmem. unfold PyStr.slice_1_minus. cbn [tl length].
    rewrite length_app. cbn [length].
    replace (S (length params + 1) - 1 - 1) with (length params) by lia.
    rewrite firstn_length_app. reflexivity.
Qed.

End MoveAddress.

(** ** [ensure_vlan_bridge] *)

Section VlanBridge.

Context {World : Type} `{HostOps World}.

Lemma keeps_synchronized {A} name (body : M World A) :
  Run.keeps_globals body -> Run.keeps_globals (synchronized name body).
Proof.
  intros Hb s. specialize (Hb s). unfold synchronized.
  destruct (body s) as [[r s1] t1]. exact Hb.
Qed.

Lemma keeps_ensure_vlan vlan_num parent mac mtu :
  Run.keeps_globals (linux_net.ensure_vlan vlan_num parent mac mtu).
Proof.
  unfold linux_net.ensure_vlan. apply keeps_synchronized.
  apply keeps_bind; [apply keeps_path_exists|intros present].
  apply keeps_bind.
  - destruct (negb present); [|apply keeps_ret].
    apply keeps_bind; [apply keeps_log|intros _].
    apply keeps_bind; [apply keeps_execute|intros _].
    apply keeps_bind.
    + destruct (Py.truthy mac); [|apply keeps_ret].
      apply keeps_bind; [apply keeps_execute|intros _; apply keeps_ret].
    + intros _. apply keeps_bind; [apply keeps_execute|intros _].
      apply keeps_ret.
  - intros _. apply keeps_bind; [apply keeps_execute|intros _].
    apply keeps_ret.
Qed.

Lemma filtering_needs_manager bridge interface (gateway : bool)
    (s : state World) :
  _IPTABLES_MANAGER (globals s) = None ->
  exists e, outcome (linux_net.ensure_bridge bridge interface gateway true s)
            = Raise e.
Proof.
  intros Hnone.
  destruct (ensure_bridge_then_filtering bridge interface gateway s)
    as [Hg [body [_ [Hraise Hret]]]].
  destruct (outcome (linux_net.ensure_bridge bridge interface gateway false s))
    as [[]|e] eqn:Eplain.
  - rewrite (Hret eq_refl). unfold outcome at 1. cbn [fst].
    unfold linux_net.apply_filtering. rewrite bind_get_globals, Hg, Hnone.
    eexists. reflexivity.
  - rewrite (Hraise e eq_refl). exists e. exact Eplain.
Qed.

(** X19. [ensure_vlan_bridge] runs [ensure_vlan] and then [ensure_bridge]
    on the vlan interface, with the defaults [gateway=True] and
    [filtering=True]: when [ensure_vlan] raises, the bridge is not touched;
    otherwise the events are those of the two calls one after the other and
    the interface name [vlan<vlan_num>] is returned when [ensure_bridge]
    returns.  As filtering cannot be switched off here, the call never
    returns while no filtering manager is configured. *)
Theorem ensure_vlan_bridge_composes (vlan_num : Py.arg)
    (bridge parent : string) (mac mtu : Py.arg) (s : state World) :
  let vlan := linux_net.ensure_vlan vlan_num parent mac mtu s in
  let run := linux_net.ensure_vlan_bridge vlan_num bridge parent mac mtu s in
  (forall e, outcome vlan = Raise e ->
   run = (Raise e, final vlan, events vlan))
  /\
  (forall interface, outcome vlan = Return interface ->
   let attach := linux_net.ensure_bridge bridge (Some interface) true true
                   (final vlan) in
   interface = ("vlan" ++ Py.str vlan_num)%string
   /\ events run = events vlan ++ events attach
   /\ final run = final attach
   /\ outcome run = match outcome attach with
                    | Return _ => Return interface
                    | Raise e => Raise e
                    end)
  /\
  (_IPTABLES_MANAGER (globals s) = None ->
   exists e, outcome run = Raise e).
Proof.
  cbv zeta. unfold linux_net.ensure_vlan_bridge.
  pose proof (keeps_ensure_vlan vlan_num parent mac mtu s) as Hkeep.
  assert (Hname : forall x,
    outcome (linux_net.ensure_vlan vlan_num parent mac mtu s) = Return x ->
    x = ("vlan" ++ Py.str vlan_num)%string).
  { intros x. unfold linux_net.ensure_vlan. rewrite synchronized_run.
    unfold outcome at 1. cbn [fst].
    unfold bind, outcome.
    destruct (linux_net.device_exists _ s) as [[[p|e] s1] t1]; [|discriminate].
    match goal with
    | |- context [match ?m s1 with _ => _ end] =>
        destruct (m s1) as [[[u|e] s2] t2]
    end; [|discriminate].
    destruct (linux_net._set_device_mtu _ mtu s2) as [[[o|e] s3] t3];
      [|discriminate].
    cbn [fst ret]. intros [= <-]. reflexivity. }
  destruct (linux_net.ensure_vlan vlan_num parent mac mtu s)
    as [[[i|e] s1] t1] eqn:Evlan;
    unfold outcome, final, events in *; cbn [fst snd] in *.
  - split; [discriminate|]. split.
    + intros interface [= <-]. split; [apply Hname; reflexivity|].
      unfold bind. rewrite Evlan.
      destruct (linux_net.ensure_bridge bridge (Some i) true true s1)
        as [[[[]|e] s2] t2]; cbn [fst snd ret].
      * rewrite app_nil_r. repeat split.
      * repeat split.
    + intros Hnone.
      destruct (filtering_needs_manager bridge (Some i) true s1) as [e He].
      { rewrite Hkeep. exact Hnone. }
      exists e. unfold bind. rewrite Evlan.
      unfold outcome in He.
      destruct (linux_net.ensure_bridge bridge (Some i) true true s1)
        as [[[[]|e'] s2] t2]; cbn [fst] in *; [discriminate|].
      injection He as ->. reflexivity.
  - split.
    + intros e' [= <-]. unfold bind. rewrite Evlan. reflexivity.
    + split; [discriminate|]. intros _. exists e.
      unfold bind. rewrite Evlan. reflexivity.
Qed.

End VlanBridge.

(** ** The hybrid backend: a refused bridge command *)

Section HybridRefused.

Context {World : Type} `{HostOps World}.

Import Attempts.

(** X20. When the bridge of the VIF is missing and one of the commands
    that set it up ([brctl addbr], [setfd], [stp off], the write that
    switches multicast snooping off) is refused, the hybrid [plug] raises
    the [ProcessExecutionError] of that command and has run nothing after
    it: no veth pair is created and no OVS port is added. *)
Theorem plug_bridge_setup_refused (config : OvsHybridPlugin.Config)
    (vif : objects.VIF) (info : objects.InstanceInfo) (s : state World)
    (interface_id : string) :
  objects.port_profile vif
  = Some (objects.VIFPortProfileOpenVSwitch interface_id) ->
  path_exists ("/sys/class/net/" ++ objects.bridge_name vif)%string (host s)
  = false ->
  let cs := HybridCommands.new_bridge_commands (objects.bridge_name vif) in
  let run := OvsHybridPlugin.plug config vif info s in
  all_accepted cs (host s) = false ->
  events run = map EvExecute (attempted cs (host s))
  /\ exists refused code out err,
       outcome run = Raise (ProcessExecutionError refused code out err)
       /\ In refused cs
       /\ accepted (check_exit_code refused) code = false.
Proof.
  intros Hp Hb. cbv zeta. unfold OvsHybridPlugin.plug.
  unfold OvsHybridPlugin.require_ovs_profile. rewrite Hp.
  rewrite bind_ret. unfold ovs_linux_net.device_exists.
  rewrite bind_path_exists, Hb. simpl negb. cbv iota.
  unfold HybridCommands.new_bridge_commands, HybridCommands.addbr_command,
    HybridCommands.setfd_command, HybridCommands.stp_off_command,
    HybridCommands.snooping_off_command, HybridCommands.snooping_path.
  cbn [attempted all_accepted]. py_step.
  repeat (on_exit_code; py_step;
          [|intros _; split; [reflexivity|];
            do 4 eexists; split; [reflexivity|];
            split; [simpl; tauto|assumption]]).
  discriminate.
Qed.

End HybridRefused.

(** ** The properties above, on concrete hosts *)

#[local] Existing Instance DeniedHost.denied_host.

Lemma unplug_error_taxonomy_witness :
  os_vif.unplug Examples.hybrid_methods Examples.vif_abc Examples.instance_1
    (Examples.fresh_state Examples.plugin_host)
  = (Raise LibraryNotInitialized, Examples.fresh_state Examples.plugin_host, [])
  /\
  os_vif.unplug Examples.hybrid_methods
    (Examples.for_plugin "midonet" Examples.vif_abc) Examples.instance_1
    Examples.initialized
  = (Raise (NoMatchingPlugin "midonet"), Examples.initialized, [])
  /\
  outcome (os_vif.unplug Examples.hybrid_methods
             (Examples.without_profile Examples.vif_abc) Examples.instance_1
             Examples.initialized)
  = Raise (UnplugException (Examples.without_profile Examples.vif_abc)
             MissingPortProfile).
Proof.
  split; [|split].
  - apply (unplug_error_taxonomy Examples.hybrid_methods Examples.vif_abc
             Examples.instance_1 (Examples.fresh_state Examples.plugin_host)).
    reflexivity.
  - eapply (unplug_error_taxonomy Examples.hybrid_methods
              (Examples.for_plugin "midonet" Examples.vif_abc)
              Examples.instance_1 Examples.initialized).
    + vm_compute. reflexivity.
    + vm_compute. intuition discriminate.
  - pose proof (unplug_error_taxonomy Examples.hybrid_methods
                  (Examples.without_profile Examples.vif_abc)
                  Examples.instance_1 Examples.initialized)
      as [_ [_ Hwrap]].
    erewrite Hwrap; [reflexivity|vm_compute; reflexivity..].
Defined.

Lemma dispatch_returns_witness :
  outcome (os_vif.plug Examples.hybrid_methods Examples.vif_abc
             Examples.instance_1 Examples.initialized) = Return tt
  /\
  events (os_vif.unplug Examples.hybrid_methods Examples.vif_abc
            Examples.instance_1 Examples.initialized)
  = [EvLog DEBUG "Unplugging vif %s";
     EvCall (delete_ovs_vif_port "br-int" "qvoabc" 120);
     EvLog INFO "Successfully unplugged vif %s"].
Proof.
  edestruct (dispatch_returns Examples.hybrid_methods Examples.vif_abc
               Examples.instance_1 Examples.initialized) as [Hplug Hunplug].
  - vm_compute. reflexivity.
  - vm_compute. reflexivity.
  - vm_compute. reflexivity.
  - split.
    + rewrite Hplug by (vm_compute; reflexivity). reflexivity.
    + rewrite Hunplug by (vm_compute; reflexivity). vm_compute. reflexivity.
Defined.

Lemma dispatch_unloaded_witness :
  outcome (os_vif.plug Examples.hybrid_methods Examples.vif_abc
             Examples.instance_1 Scenarios.half_initialized)
  = Raise (PlugException Examples.vif_abc
             (AttributeError "'NoneType' object has no attribute 'plug'")).
Proof.
  edestruct (dispatch_unloaded Examples.hybrid_methods Examples.vif_abc
               Examples.instance_1 Scenarios.half_initialized) as [Hplug _].
  - vm_compute. reflexivity.
  - vm_compute. reflexivity.
  - vm_compute. reflexivity.
  - rewrite Hplug. reflexivity.
Defined.

Lemma initialize_registers_once_witness :
  outcome (os_vif.initialize false (Examples.fresh_state Scenarios.broken_host))
  = Raise (ForeignError "ImportError")
  /\
  os_vif.initialize false Scenarios.half_initialized
  = (Return tt, Scenarios.half_initialized, []).
Proof.
  split; [vm_compute; reflexivity|].
  destruct (initialize_registers_once false
              (Examples.fresh_state Scenarios.broken_host)
              (or_intror eq_refl)) as [m' [_ [_ Hnoop]]].
  exact Hnoop.
Defined.

Lemma initialize_loads_in_order_witness :
  events (os_vif.initialize false (Examples.fresh_state Examples.plugin_host))
  = [EvDiscover "os_vif"; EvLoad "linux_bridge"; EvLoad "ovs_hybrid";
     EvCall register_all].
Proof.
  destruct (initialize_loads_in_order false
              (Examples.fresh_state Examples.plugin_host)
              (or_intror eq_refl)) as [Hret _].
  exact (Hret eq_refl).
Defined.

Lemma host_info_describes_all_witness :
  os_vif.host_info Examples.hybrid_methods
    (Examples.fresh_state Examples.plugin_host)
  = (Raise LibraryNotInitialized, Examples.fresh_state Examples.plugin_host, [])
  /\
  os_vif.host_info Examples.hybrid_methods Examples.initialized
  = (Return
       {| objects.plugin_info :=
            [Scenarios.hybrid_descriptor; Scenarios.hybrid_descriptor] |},
     Examples.initialized, [])
  /\
  (exists e,
     outcome (os_vif.host_info Examples.hybrid_methods
                Scenarios.half_initialized) = Raise e).
Proof.
  destruct (host_info_describes_all Examples.hybrid_methods
              (Examples.fresh_state Examples.plugin_host)) as [Hnone _].
  destruct (host_info_describes_all Examples.hybrid_methods
              Examples.initialized) as [_ [Hloaded _]].
  destruct (host_info_describes_all Examples.hybrid_methods
              Scenarios.half_initialized) as [_ [_ [Hunloaded _]]].
  split; [exact (Hnone eq_refl)|]. split.
  - eapply (Hloaded _
              [Scenarios.linux_bridge_object; Scenarios.ovs_hybrid_object]
              (fun _ => Scenarios.hybrid_descriptor)).
    + vm_compute. reflexivity.
    + vm_compute. reflexivity.
    + intros p _ s'. reflexivity.
  - eapply Hunloaded.
    + vm_compute. reflexivity.
    + vm_compute. tauto.
Defined.

Lemma plug_after_initialize_witness :
  os_vif.plug Examples.hybrid_methods
    (Examples.for_plugin "midonet" Examples.vif_abc) Examples.instance_1
    Examples.initialized
  = (Raise (NoMatchingPlugin "midonet"), Examples.initialized, []).
Proof.
  assert (Hret : outcome (os_vif.initialize false
                            (Examples.fresh_state Examples.plugin_host))
                 = Return tt) by (vm_compute; reflexivity).
  destruct (plug_after_initialize Examples.hybrid_methods false
              (Examples.for_plugin "midonet" Examples.vif_abc)
              Examples.instance_1 (Examples.fresh_state Examples.plugin_host)
              (or_intror eq_refl) Hret) as [Hout _].
  apply Hout. vm_compute. intuition discriminate.
Defined.

Lemma plug_twice_is_noop_witness :
  OvsHybridPlugin.plug OvsHybridPlugin.default_config Examples.vif_abc
    Examples.instance_1 (Examples.fresh_state Scenarios.plugged_host)
  = (Return tt, Examples.fresh_state Scenarios.plugged_host, []).
Proof.
  apply (plug_twice_is_noop OvsHybridPlugin.default_config Examples.vif_abc
           Examples.instance_1 (Examples.fresh_state Scenarios.plugged_host)
           "port-1").
  - reflexivity.
  - vm_compute. reflexivity.
  - vm_compute. reflexivity.
Defined.

Lemma plug_veth_only_witness :
  events (OvsHybridPlugin.plug OvsHybridPlugin.default_config
            Examples.vif_abc Examples.instance_1
            (Examples.fresh_state Scenarios.bridge_left_host))
  = HybridCommands.veth_events OvsHybridPlugin.default_config
      Examples.vif_abc Examples.instance_1 "port-1".
Proof.
  assert (Hb : path_exists "/sys/class/net/qbrabc" Scenarios.bridge_left_host
               = true) by (vm_compute; reflexivity).
  assert (Hv : path_exists "/sys/class/net/qvoabc" Scenarios.bridge_left_host
               = false) by (vm_compute; reflexivity).
  destruct (plug_veth_only OvsHybridPlugin.default_config Examples.vif_abc
              Examples.instance_1
              (Examples.fresh_state Scenarios.bridge_left_host) "port-1"
              eq_refl Hb Hv) as [_ Hret].
  apply Hret. vm_compute. reflexivity.
Defined.

Lemma unplug_teardown_witness :
  events (OvsHybridPlugin.unplug OvsHybridPlugin.default_config
            Examples.vif_abc Examples.instance_1
            (Examples.fresh_state Scenarios.plugged_host))
  = map EvExecute (Teardown.bridge_commands Examples.vif_abc)
    ++ [EvCall (Teardown.port_deletion OvsHybridPlugin.default_config
                  Examples.vif_abc)].
Proof.
  destruct (unplug_teardown OvsHybridPlugin.default_config Examples.vif_abc
              Examples.instance_1
              (Examples.fresh_state Scenarios.plugged_host) "port-1" eq_refl)
    as [Hthere _].
  assert (Hb : path_exists "/sys/class/net/qbrabc" Scenarios.plugged_host
               = true) by (vm_compute; reflexivity).
  destruct (Hthere Hb) as [_ Hret].
  apply Hret. vm_compute. reflexivity.
Defined.

Lemma ensure_vlan_creation_witness :
  let run := linux_net.ensure_vlan (Py.AInt 5) "eth0"
               (Py.AStr "fa:16:3e:00:00:01") (Py.AInt 1500)
               (Examples.fresh_state Examples.bare_host) in
  commands (events run)
  = [vlan_add_command "eth0" "vlan5" (Py.AInt 5);
     set_mac_command "vlan5" (Py.AStr "fa:16:3e:00:00:01");
     vlan_up_command "vlan5";
     mtu_command "vlan5" (Py.AInt 1500)]
  /\ outcome run = Return "vlan5".
Proof.
  assert (Habsent : path_exists "/sys/class/net/vlan5" Examples.bare_host
                    = false) by (vm_compute; reflexivity).
  destruct (ensure_vlan_creation (Py.AInt 5) "eth0"
              (Py.AStr "fa:16:3e:00:00:01") (Py.AInt 1500)
              (Examples.fresh_state Examples.bare_host) Habsent)
    as [Hev [Hret _]].
  cbv zeta. split.
  - rewrite Hev. vm_compute. reflexivity.
  - apply Hret. vm_compute. reflexivity.
Defined.

Lemma ensure_bridge_without_interface_witness :
  linux_net.ensure_bridge "br0" None true false
    (Examples.fresh_state Examples.enslaved_host)
  = (Return tt, Examples.fresh_state Examples.enslaved_host,
     [EvLock "nova-lock_bridge"; EvUnlock "nova-lock_bridge"]).
Proof.
  destruct (ensure_bridge_without_interface "br0" None true false
              (Examples.fresh_state Examples.enslaved_host)
              (or_introl eq_refl)) as [_ Hnothing].
  apply Hnothing; [vm_compute; reflexivity|reflexivity].
Defined.

Lemma bridge_creation_refused_witness :
  events (linux_net.ensure_bridge "br100" (Some "eth0") true true
            DeniedHost.fresh)
  = [EvLock "nova-lock_bridge"; EvLog DEBUG "Starting Bridge %s";
     EvExecute (addbr_command "br100"); EvUnlock "nova-lock_bridge"].
Proof.
  assert (Habsent : path_exists "/sys/class/net/br100" (host DeniedHost.fresh)
                    = false) by reflexivity.
  assert (Hno : all_accepted (creation_commands "br100")
                  (host DeniedHost.fresh) = false) by reflexivity.
  destruct (bridge_creation_refused "br100" (Some "eth0") true true
              DeniedHost.fresh Habsent Hno) as [Hev _].
  exact Hev.
Defined.

Lemma configured_filtering_witness :
  outcome (linux_net.ensure_bridge "br0" None false true
             (final (linux_net.configure (Some Scenarios.iptables)
                       (Examples.fresh_state Examples.enslaved_host))))
  = Return tt.
Proof.
  assert (Hplain :
    outcome (linux_net.ensure_bridge "br0" None false false
               (final (linux_net.configure (Some Scenarios.iptables)
                         (Examples.fresh_state Examples.enslaved_host))))
    = Return tt) by (vm_compute; reflexivity).
  destruct (configured_filtering "br0" None false Scenarios.iptables
              (Examples.fresh_state Examples.enslaved_host) Hplain)
    as [Hout _].
  rewrite Hout. vm_compute. reflexivity.
Defined.

Lemma migration_stops_at_refusal_witness :
  exists refused code out err,
    outcome (linux_net.ensure_bridge "br100" (Some "eth0") true false
               (Examples.fresh_state Scenarios.stranded_host))
    = Raise (ProcessExecutionError refused code out err)
    /\ refused = route_add_command ["10.0.1.0/24"; "via"; "10.0.0.1"].
Proof.
  assert (Hpre : all_accepted (pending "br100" Scenarios.stranded_host)
                   Scenarios.stranded_host = true)
    by (vm_compute; reflexivity).
  assert (Hok : forallb Migration.line_ok
                  (Migration.listed "br100" "eth0"
                     (after_all (pending "br100" Scenarios.stranded_host)
                        Scenarios.stranded_host)) = true)
    by (vm_compute; reflexivity).
  assert (Hno : all_accepted
                  (Migration.script "br100" "eth0"
                     (after_all (pending "br100" Scenarios.stranded_host)
                        Scenarios.stranded_host))
                  (after_all (pending "br100" Scenarios.stranded_host)
                     Scenarios.stranded_host) = false)
    by (vm_compute; reflexivity).
  destruct (migration_stops_at_refusal "br100" "e"%char "th0" true false
              (Examples.fresh_state Scenarios.stranded_host) Hpre
              (or_introl eq_refl) Hok Hno)
    as [_ [refused [code [out [err [Hout _]]]]]].
  exists refused, code, out, err. split; [exact Hout|].
  vm_compute in Hout. injection Hout as <- _ _ _. reflexivity.
Defined.

Lemma attach_failure_message_witness :
  outcome (linux_net.ensure_bridge "br100" (Some "eth9") true false
             (Examples.fresh_state Examples.bare_host))
  = Raise (NameError "_").
Proof.
  assert (Hready :
    all_accepted (pending "br100" Examples.bare_host) Examples.bare_host
    = true) by (vm_compute; reflexivity).
  destruct (attach_failure_message "br100" "e"%char "th9" true false
              (Examples.fresh_state Examples.bare_host) Hready)
    as [Hname _].
  - intros [E|E]; vm_compute in E; discriminate E.
  - apply Hname. reflexivity.
Defined.

Lemma move_address_reads_fields_witness :
  linux_net.move_address "br100" "    inet"
    (Examples.fresh_state Examples.bare_host)
  = (Raise IndexError, Examples.fresh_state Examples.bare_host, [])
  /\
  commands (events (linux_net.move_address "br100"
                      "    inet 10.0.0.7/24 scope global secondary eth0"
                      (Examples.fresh_state Examples.routed_host)))
  = [addr_del_command ["10.0.0.7/24"; "scope"; "global"] "eth0";
     addr_add_command ["10.0.0.7/24"; "scope"; "global"] "br100"].
Proof.
  split.
  - apply (move_address_reads_fields "br100" "    inet" [] ""
             (Examples.fresh_state Examples.bare_host)).
    vm_compute. reflexivity.
  - destruct (move_address_reads_fields "br100"
                "    inet 10.0.0.7/24 scope global secondary eth0"
                ["10.0.0.7/24"; "scope"; "global"] "eth0"
                (Examples.fresh_state Examples.routed_host))
      as [_ [_ [_ [Hflag _]]]].
    rewrite (Hflag "secondary");
      [vm_compute; reflexivity|simpl; tauto|vm_compute; reflexivity].
Defined.

Lemma ensure_vlan_bridge_composes_witness :
  exists e,
    outcome (linux_net.ensure_vlan_bridge (Py.AInt 5) "br5" "eth0" Py.ANone
               (Py.AInt 1500) (Examples.fresh_state Examples.bare_host))
    = Raise e.
Proof.
  destruct (ensure_vlan_bridge_composes (Py.AInt 5) "br5" "eth0" Py.ANone
              (Py.AInt 1500) (Examples.fresh_state Examples.bare_host))
    as [_ [_ Hnever]].
  apply Hnever. reflexivity.
Defined.

Lemma plug_bridge_setup_refused_witness :
  events (OvsHybridPlugin.plug OvsHybridPlugin.default_config
            Examples.vif_abc Examples.instance_1 DeniedHost.fresh)
  = [EvExecute (HybridCommands.addbr_command "qbrabc")].
Proof.
  assert (Habsent : path_exists "/sys/class/net/qbrabc"
                      (host DeniedHost.fresh) = false) by reflexivity.
  assert (Hno : all_accepted (HybridCommands.new_bridge_commands "qbrabc")
                  (host DeniedHost.fresh) = false) by reflexivity.
  destruct (plug_bridge_setup_refused OvsHybridPlugin.default_config
              Examples.vif_abc Examples.instance_1 DeniedHost.fresh "port-1"
              eq_refl Habsent Hno) as [Hev _].
  exact Hev.
Defined.
